(** * ASHA Connect: the offline-first synchronisation subsystem

    A shallow embedding of [services/offline_manager.py] (class
    [OfflineManager]) and [services/sync_service.py] (class [SyncService]),
    and the properties of the synchronisation design checked against it.

    Conventions of the embedding

    - A Python [dict] with string keys (a record payload, a result returned
      to the caller) is a [gmap string pyval].
    - A SQLite table is the list of its rows in rowid order.
    - Code that touches the outside world runs in a small state and
      exception monad [M] over a [World]; Python's [try/except/finally]
      are the combinators [try_except] and [try_finally].
    - Every call into [sqlite3] ([connect], [execute], [commit]) may raise:
      the world carries a fault schedule that decides it call by call.
      SQLite admits one writer at a time; a write that it refuses for that
      reason ("database is locked") is a call that raises.
    - Logging has no effect on the state and is left out. *)

From Stdlib Require Import ZArith List String Ascii Bool Lia.
From Stdlib Require Import Sorting.Sorted Orders Permutation.
From Stdlib Require Import DecimalString.
From stdpp Require Import base option gmap strings.

Import ListNotations.
Local Open Scope string_scope.
Local Open Scope Z_scope.

(** ** Python values *)

(** [datetime.datetime]: the civil fields and, for an aware value, the UTC
    offset in microseconds. *)
Record datetime := Datetime {
  year : Z; month : Z; day : Z;
  hour : Z; minute : Z; second : Z; microsecond : Z;
  tzinfo : option Z
}.

(** The values a payload field can hold.  [PDict nonempty] is a nested
    mapping, of which only emptiness is observed; floats and lists are not
    modelled. *)
Inductive pyval :=
  | PNone
  | PBool (b : bool)
  | PInt (n : Z)
  | PStr (s : string)
  | PDatetime (d : datetime)
  | PDict (nonempty : bool).

(** A document: a Python [dict] keyed by field name. *)
Abbreviation doc := (gmap string pyval).

(** [d.get(k)]: the value, or [None] when the key is absent. *)
Definition get (d : doc) (k : string) : pyval :=
  match d !! k with Some v => v | None => PNone end.

(** Python truthiness, as used by [not x] and [if x:]. *)
Definition truthy (v : pyval) : bool :=
  match v with
  | PNone => false
  | PBool b => b
  | PInt n => negb (n =? 0)
  | PStr s => negb (String.eqb s "")
  | PDatetime _ => true
  | PDict nonempty => nonempty
  end.

(** Exceptions carry their class and [str(e)]. *)
Inductive exn_class :=
  | TypeError | ValueError | OverflowError
  | OperationalError | IntegrityError | RemoteError.

Record exn := Exn { exn_class_of : exn_class; exn_msg : string }.

(** The outcome of evaluating an expression that may raise. *)
Inductive Res (A : Type) :=
  | Ok (a : A)
  | Raise (e : exn).
Arguments Ok {A} a.
Arguments Raise {A} e.

(** ** Calendar arithmetic of [datetime] *)

Module Calendar.

Definition is_leap (y : Z) : bool :=
  (y mod 4 =? 0) && (negb (y mod 100 =? 0) || (y mod 400 =? 0)).

Definition days_in_month (y m : Z) : Z :=
  if m =? 2 then (if is_leap y then 29 else 28)
  else if (m =? 4) || (m =? 6) || (m =? 9) || (m =? 11) then 30
  else 31.

Definition days_before_year (y : Z) : Z :=
  let p := y - 1 in p * 365 + p / 4 - p / 100 + p / 400.

Fixpoint days_before_month_aux (y : Z) (k : nat) : Z :=
  match k with
  | O => 0
  | S k' => days_before_month_aux y k' + days_in_month y (Z.of_nat k)
  end.

(** Days of year [y] before the first of month [m]. *)
Definition days_before_month (y m : Z) : Z :=
  days_before_month_aux y (Z.to_nat (m - 1)).

(** Proleptic Gregorian ordinal: 0001-01-01 is day 1. *)
Definition ymd2ord (y m d : Z) : Z :=
  days_before_year y + days_before_month y m + d.

(** The range checks of the [datetime] constructor. *)
Definition valid_fields (y m d hh mm ss us : Z) : bool :=
  (1 <=? y) && (y <=? 9999) && (1 <=? m) && (m <=? 12) &&
  (1 <=? d) && (d <=? days_in_month y m) &&
  (0 <=? hh) && (hh <=? 23) && (0 <=? mm) && (mm <=? 59) &&
  (0 <=? ss) && (ss <=? 59) && (0 <=? us) && (us <=? 999999).

(** Microseconds from 0001-01-01T00:00:00 to the civil fields of [d]. *)
Definition civil_us (d : datetime) : Z :=
  (((ymd2ord (year d) (month d) (day d) * 24 + hour d) * 60
      + minute d) * 60 + second d) * 1000000 + microsecond d.

(** Inverse of [ymd2ord] on the civil calendar (days since 0001-01-01 to
    year, month, day), used by [datetime - timedelta]. *)
Definition ord2ymd (n : Z) : Z * Z * Z :=
  let z := n + 305 in                       (* days since 0000-03-01 *)
  let era := z / 146097 in
  let doe := z mod 146097 in
  let yoe := (doe - doe / 1460 + doe / 36524 - doe / 146096) / 365 in
  let doy := doe - (365 * yoe + yoe / 4 - yoe / 100) in
  let mp := (5 * doy + 2) / 153 in
  let d := doy - (153 * mp + 2) / 5 + 1 in
  let m := if mp <? 10 then mp + 3 else mp - 9 in
  let y := yoe + era * 400 + (if m <=? 2 then 1 else 0) in
  (y, m, d).

End Calendar.

(** ** [datetime.fromisoformat] and [datetime.isoformat] *)

Module Iso.

Definition is_digit (c : ascii) : bool :=
  let n := N_of_ascii c in (48 <=? n)%N && (n <=? 57)%N.

Definition digit_val (c : ascii) : Z := Z.of_N (N_of_ascii c) - 48.

(** Reads exactly [n] decimal digits. *)
Fixpoint digits (n : nat) (acc : Z) (s : string) : option (Z * string) :=
  match n with
  | O => Some (acc, s)
  | S n' =>
      match s with
      | String c r =>
          if is_digit c then digits n' (acc * 10 + digit_val c) r else None
      | EmptyString => None
      end
  end.

(** Expects the character [c] next. *)
Definition expect (c : ascii) (s : string) : option string :=
  match s with
  | String c' r => if Ascii.eqb c c' then Some r else None
  | EmptyString => None
  end.

(** [YYYY-MM-DD], the first ten characters. *)
Definition parse_isoformat_date (s : string) : option (Z * Z * Z * string) :=
  match digits 4 0 s with
  | Some (y, r) =>
    match expect "-" r with
    | Some r =>
      match digits 2 0 r with
      | Some (m, r) =>
        match expect "-" r with
        | Some r =>
          match digits 2 0 r with
          | Some (d, r) => Some (y, m, d, r)
          | None => None
          end
        | None => None
        end
      | None => None
      end
    | None => None
    end
  | None => None
  end.

(** The fraction after the dot: three or six digits, in microseconds. *)
Definition parse_fraction (s : string) : option Z :=
  match String.length s with
  | 3%nat => match digits 3 0 s with
             | Some (f, _) => Some (f * 1000) | None => None end
  | 6%nat => match digits 6 0 s with
             | Some (f, _) => Some f | None => None end
  | _ => None
  end.

(** [HH[:MM[:SS[.fff[fff]]]]]. *)
Definition parse_hh_mm_ss_ff (s : string) : option (Z * Z * Z * Z) :=
  match digits 2 0 s with
  | None => None
  | Some (hh, EmptyString) => Some (hh, 0, 0, 0)
  | Some (hh, String c r) =>
    if negb (Ascii.eqb c ":") then None else
    match digits 2 0 r with
    | None => None
    | Some (mm, EmptyString) => Some (hh, mm, 0, 0)
    | Some (mm, String c r) =>
      if negb (Ascii.eqb c ":") then None else
      match digits 2 0 r with
      | None => None
      | Some (ss, EmptyString) => Some (hh, mm, ss, 0)
      | Some (ss, String c r) =>
        if negb (Ascii.eqb c ".") then None else
        match parse_fraction r with
        | Some us => Some (hh, mm, ss, us)
        | None => None
        end
      end
    end
  end.

(** Splits a time string at its first ["-"], or else at its first ["+"]:
    the time proper, and the sign and text of the offset. *)
Fixpoint split_at (c : ascii) (s : string) : option (string * string) :=
  match s with
  | EmptyString => None
  | String c' r =>
      if Ascii.eqb c c' then Some (EmptyString, r)
      else match split_at c r with
           | Some (a, b) => Some (String c' a, b)
           | None => None
           end
  end.

Definition split_offset (s : string) : string * option (Z * string) :=
  match split_at "-" s with
  | Some (t, z) => (t, Some (-1, z))
  | None =>
      match split_at "+" s with
      | Some (t, z) => (t, Some (1, z))
      | None => (s, None)
      end
  end.

(** The offset [HH:MM], [HH:MM:SS] or [HH:MM:SS.ffffff], in microseconds;
    [timezone] refuses an offset of a day or more. *)
Definition parse_offset (sign : Z) (z : string) : option Z :=
  let n := String.length z in
  if negb ((n =? 5)%nat || (n =? 8)%nat || (n =? 15)%nat) then None else
  match parse_hh_mm_ss_ff z with
  | Some (hh, mm, ss, us) =>
      let off := ((hh * 60 + mm) * 60 + ss) * 1000000 + us in
      if off <? 86400000000 then Some (sign * off) else None
  | None => None
  end.

(** [HH[:MM[:SS[.fff[fff]]]][+HH:MM[:SS[.ffffff]]]]. *)
Definition parse_isoformat_time (s : string)
  : option (Z * Z * Z * Z * option Z) :=
  if (String.length s <? 2)%nat then None else
  let '(t, z) := split_offset s in
  match parse_hh_mm_ss_ff t with
  | None => None
  | Some (hh, mm, ss, us) =>
      match z with
      | None => Some (hh, mm, ss, us, None)
      | Some (sign, z) =>
          match parse_offset sign z with
          | Some off => Some (hh, mm, ss, us, Some off)
          | None => None
          end
      end
  end.

(** [datetime.fromisoformat(s)], for the grammar
    [YYYY-MM-DD[*HH[:MM[:SS[.fff[fff]]]][+HH:MM[:SS[.ffffff]]]]] of
    Python 3.7 to 3.10: the date alone, or the date, one separator character
    of any kind and the time.  [None] stands for the [ValueError] of a
    string outside the grammar or out of range. *)
Definition fromisoformat (s : string) : option datetime :=
  match parse_isoformat_date s with
  | None => None
  | Some (y, m, d, r) =>
      let comps :=
        match r with
        | EmptyString => Some (0, 0, 0, 0, None)
        | String _ tstr => parse_isoformat_time tstr
        end in
      match comps with
      | Some (hh, mm, ss, us, tz) =>
          if Calendar.valid_fields y m d hh mm ss us
          then Some (Datetime y m d hh mm ss us tz) else None
      | None => None
      end
  end.

(** [s.replace('Z', '+00:00')]. *)
Fixpoint replace_Z (s : string) : string :=
  match s with
  | EmptyString => EmptyString
  | String c r =>
      if Ascii.eqb c "Z" then "+00:00" ++ replace_Z r
      else String c (replace_Z r)
  end.

(** Decimal text of a non-negative number, zero-padded to [w] digits. *)
Definition decimal (n : Z) : string :=
  NilEmpty.string_of_uint (N.to_uint (Z.to_N n)).

Fixpoint zeros (k : nat) : string :=
  match k with O => EmptyString | S k' => String "0" (zeros k') end.

Definition pad (w : nat) (n : Z) : string :=
  let s := match n with 0 => "0" | _ => decimal n end in
  zeros (w - String.length s) ++ s.

(** [d.isoformat()] of a naive value: the microseconds are printed only
    when they are not zero. *)
Definition isoformat (d : datetime) : string :=
  pad 4 (year d) ++ "-" ++ pad 2 (month d) ++ "-" ++ pad 2 (day d) ++ "T" ++
  pad 2 (hour d) ++ ":" ++ pad 2 (minute d) ++ ":" ++ pad 2 (second d) ++
  (if microsecond d =? 0 then "" else "." ++ pad 6 (microsecond d)).

End Iso.

(** ** Ordering of Python values *)

(** [a > b] on two [datetime]s: two naive values compare by their fields,
    two aware values by their instants; a naive and an aware value do not
    compare ([TypeError]). *)
Definition datetime_gt (a b : datetime) : Res bool :=
  match tzinfo a, tzinfo b with
  | None, None => Ok (Calendar.civil_us b <? Calendar.civil_us a)
  | Some oa, Some ob =>
      Ok (Calendar.civil_us b - ob <? Calendar.civil_us a - oa)
  | _, _ => Raise (Exn TypeError
      "can't compare offset-naive and offset-aware datetimes")
  end.

Definition int_of (v : pyval) : option Z :=
  match v with
  | PInt n => Some n
  | PBool b => Some (if b then 1 else 0)
  | _ => None
  end.

(** [a > b] as Python evaluates it on the modelled values. *)
Definition py_gt (a b : pyval) : Res bool :=
  match a, b with
  | PDatetime x, PDatetime y => datetime_gt x y
  | PStr x, PStr y =>
      Ok (match String.compare x y with Gt => true | _ => false end)
  | _, _ =>
      match int_of a, int_of b with
      | Some x, Some y => Ok (y <? x)
      | _, _ => Raise (Exn TypeError "'>' not supported")
      end
  end.

(** ** The conflict resolver *)

(** The parsing step of [_resolve_conflict]:
    [if isinstance(t, str): t = datetime.fromisoformat(t.replace('Z', '+00:00'))]. *)
Definition parse_if_str (t : pyval) : Res pyval :=
  match t with
  | PStr s =>
      match Iso.fromisoformat (Iso.replace_Z s) with
      | Some d => Ok (PDatetime d)
      | None => Raise (Exn ValueError "Invalid isoformat string")
      end
  | _ => Ok t
  end.

(** The body of the [try] block of [OfflineManager._resolve_conflict]. *)
Definition resolve_conflict_body (central_data local_data : doc) : Res bool :=
  let central_time := get central_data "updated_at" in
  let local_time := get local_data "updated_at" in
  if negb (truthy central_time) || negb (truthy local_time) then Ok true
  else
    match parse_if_str central_time with
    | Raise e => Raise e
    | Ok central_time =>
        match parse_if_str local_time with
        | Raise e => Raise e
        | Ok local_time => py_gt local_time central_time
        end
    end.

(** [OfflineManager._resolve_conflict]: [True] when the local data is to
    be used.  The [except] branch logs and returns [True]. *)
Definition _resolve_conflict
  (record_type : string) (central_data local_data : doc) : bool :=
  match resolve_conflict_body central_data local_data with
  | Ok b => b
  | Raise _ => true
  end.

(** ** The local SQLite store *)

(** Table [patients]. *)
Module Patients.
Record row := Row {
  patient_id : string;
  data : doc;
  created_at : string;
  updated_at : string;
  synced : Z
}.
End Patients.

(** Table [health_assessments]. *)
Module Assessments.
Record row := Row {
  assessment_id : string;
  patient_id : string;
  data : doc;
  created_at : string;
  synced : Z
}.
End Assessments.

(** Table [sync_queue]; [retry_count] defaults to 0, [last_attempt] and
    [error_message] to NULL. *)
Module SyncQueue.
Record row := Row {
  sync_id : string;
  record_type : string;
  record_id : string;
  data : doc;
  priority : Z;
  created_at : string;
  retry_count : Z;
  last_attempt : option string;
  error_message : option string
}.
End SyncQueue.

(** Table [sync_data] of [SyncService]. *)
Module SyncData.
Record row := Row {
  sync_id : string;
  data_type : string;
  data : doc;
  status : string;
  created_at : string;
  modified_at : string
}.
End SyncData.

(** The committed contents of the database file.  The [data] columns hold
    JSON text, represented by the document it encodes: what [json.dumps]
    writes, [json.loads] reads back. *)
Record LocalDb := {
  patients : list Patients.row;
  health_assessments : list Assessments.row;
  sync_queue : list SyncQueue.row;
  sync_data_table : list SyncData.row
}.

Definition empty_db : LocalDb := Build_LocalDb [] [] [] [].

Definition with_patients (f : list Patients.row -> list Patients.row)
  (db : LocalDb) : LocalDb :=
  Build_LocalDb (f (patients db)) (health_assessments db) (sync_queue db)
    (sync_data_table db).

Definition with_assessments
  (f : list Assessments.row -> list Assessments.row) (db : LocalDb) : LocalDb :=
  Build_LocalDb (patients db) (f (health_assessments db)) (sync_queue db)
    (sync_data_table db).

Definition with_queue (f : list SyncQueue.row -> list SyncQueue.row)
  (db : LocalDb) : LocalDb :=
  Build_LocalDb (patients db) (health_assessments db) (f (sync_queue db))
    (sync_data_table db).

Definition with_sync_data (f : list SyncData.row -> list SyncData.row)
  (db : LocalDb) : LocalDb :=
  Build_LocalDb (patients db) (health_assessments db) (sync_queue db)
    (f (sync_data_table db)).

(** ** [ORDER BY] and [LIMIT] *)

(** [ORDER BY]: the rows in the order [leb].  Rows that tie on every sort
    key come out in the order of the table scan, which is the order of their
    insertion: each row is put in front of the first row it does not come
    after. *)
Section OrderBy.

Context {A : Type} (leb : A -> A -> bool).

Fixpoint insert_row (x : A) (rows : list A) : list A :=
  match rows with
  | [] => [x]
  | y :: rest => if leb x y then x :: rows else y :: insert_row x rest
  end.

Definition order_by (rows : list A) : list A := foldr insert_row [] rows.

End OrderBy.

(** The order of [ORDER BY priority DESC, retry_count ASC, created_at ASC];
    the TEXT column [created_at] compares character by character. *)
Module QueueOrder <: TotalLeBool.

Definition t := SyncQueue.row.

Definition leb (a b : t) : bool :=
  if SyncQueue.priority b <? SyncQueue.priority a then true
  else if SyncQueue.priority a <? SyncQueue.priority b then false
  else if SyncQueue.retry_count a <? SyncQueue.retry_count b then true
  else if SyncQueue.retry_count b <? SyncQueue.retry_count a then false
  else String.leb (SyncQueue.created_at a) (SyncQueue.created_at b).

Theorem leb_total : forall a b, leb a b = true \/ leb b a = true.
Proof.
  intros a b. unfold leb.
  destruct (Z.ltb_spec (SyncQueue.priority b) (SyncQueue.priority a));
    [now left|].
  destruct (Z.ltb_spec (SyncQueue.priority a) (SyncQueue.priority b));
    [now right|].
  destruct (Z.ltb_spec (SyncQueue.retry_count a) (SyncQueue.retry_count b));
    [now left|].
  destruct (Z.ltb_spec (SyncQueue.retry_count b) (SyncQueue.retry_count a));
    [now right|].
  apply String.leb_total.
Qed.

End QueueOrder.

(** The order of [ORDER BY created_at ASC] on [sync_data]. *)
Module CreatedOrder <: TotalLeBool.

Definition t := SyncData.row.

Definition leb (a b : t) : bool :=
  String.leb (SyncData.created_at a) (SyncData.created_at b).

Definition leb_total (a b : t) : leb a b = true \/ leb b a = true :=
  String.leb_total (SyncData.created_at a) (SyncData.created_at b).

End CreatedOrder.

(** [LIMIT n]: the first [n] rows; SQLite reads a negative [n] as no limit. *)
Definition sql_limit {A} (n : Z) (rows : list A) : list A :=
  if n <? 0 then rows else firstn (Z.to_nat n) rows.

(** [SELECT * FROM sync_queue ORDER BY priority DESC, retry_count ASC,
    created_at ASC LIMIT ?]. *)
Definition select_sync_queue (limit : Z) (db : LocalDb) : list SyncQueue.row :=
  sql_limit limit
    (order_by (A := SyncQueue.row) QueueOrder.leb (sync_queue db)).

(** ** The remote store *)

(** The central database handed to the services as [db]: the connection
    attribute and the three calls the synchronisation makes.  Each call may
    raise and may change the remote state. *)
Class RemoteStore (R : Type) := {
  is_connected : R -> Res bool;
  find_one : string -> doc -> R -> Res (option doc) * R;
  insert_one : string -> doc -> R -> Res pyval * R;
  update_one : string -> doc -> doc -> R -> Res pyval * R
}.

(** The configuration read by [_load_config]. *)
Record Config := {
  max_offline_days : Z;
  max_storage_size_mb : Z;
  priority_health_assessments : Z;
  priority_patients : Z
}.

Definition default_config : Config := Build_Config 30 500 10 5.

(** ** The world and the monad *)

Section Monad.

Context {R : Type}.

(** Everything the two services read or write.  [faults] is the schedule of
    the coming [sqlite3] calls ([true]: the call raises), [online] the
    outcome of the socket probe, [server] the exception message, if any,
    that the exchange with the server raises for a data item; [now] and
    [epoch] are the readings of [datetime.now()] and [int(time.time())]
    during the operation, [uuid4] that of [str(uuid.uuid4())] and
    [db_file_size] that of [os.path.getsize]. *)
Record World := {
  local_db : LocalDb;
  faults : list bool;
  central : R;
  online : bool;
  server : string -> doc -> option string;
  now : datetime;
  epoch : Z;
  uuid4 : string;
  db_file_size : Z;
  config : Config;
  sync_in_progress : bool;
  last_sync_time : option datetime
}.

Definition set_local_db (db : LocalDb) (w : World) : World :=
  Build_World db (faults w) (central w) (online w) (server w) (now w)
    (epoch w) (uuid4 w) (db_file_size w) (config w) (sync_in_progress w)
    (last_sync_time w).

Definition set_faults (fs : list bool) (w : World) : World :=
  Build_World (local_db w) fs (central w) (online w) (server w) (now w)
    (epoch w) (uuid4 w) (db_file_size w) (config w) (sync_in_progress w)
    (last_sync_time w).

Definition set_central (c : R) (w : World) : World :=
  Build_World (local_db w) (faults w) c (online w) (server w) (now w)
    (epoch w) (uuid4 w) (db_file_size w) (config w) (sync_in_progress w)
    (last_sync_time w).

Definition set_sync_in_progress (b : bool) (w : World) : World :=
  Build_World (local_db w) (faults w) (central w) (online w) (server w)
    (now w) (epoch w) (uuid4 w) (db_file_size w) (config w) b (last_sync_time w).

Definition set_last_sync_time (t : option datetime) (w : World) : World :=
  Build_World (local_db w) (faults w) (central w) (online w) (server w)
    (now w) (epoch w) (uuid4 w) (db_file_size w) (config w) (sync_in_progress w) t.

(** A computation: from a world to an outcome and the world it leaves. *)
Definition M (A : Type) : Type := World -> Res A * World.

Definition ret {A} (a : A) : M A := fun w => (Ok a, w).

Definition bind {A B} (m : M A) (f : A -> M B) : M B :=
  fun w => match m w with
           | (Ok a, w') => f a w'
           | (Raise e, w') => (Raise e, w')
           end.

Definition raise {A} (e : exn) : M A := fun w => (Raise e, w).

Definition lift {A} (r : Res A) : M A := fun w => (r, w).

Definition ask : M World := fun w => (Ok w, w).

Definition modify (f : World -> World) : M unit := fun w => (Ok tt, f w).

(** [try: m except Exception as e: h e]. *)
Definition try_except {A} (m : M A) (h : exn -> M A) : M A :=
  fun w => match m w with
           | (Ok a, w') => (Ok a, w')
           | (Raise e, w') => h e w'
           end.

(** [try: m finally: f]; the outcome of [m] stands unless [f] raises. *)
Definition try_finally {A} (m : M A) (f : M unit) : M A :=
  fun w => match m w with
           | (r, w') =>
               match f w' with
               | (Ok _, w'') => (r, w'')
               | (Raise e, w'') => (Raise e, w'')
               end
           end.

#[global] Instance M_ret : MRet M := @ret.
#[global] Instance M_bind : MBind M := fun A B f m => bind m f.

(** *** [sqlite3] *)

(** One call into [sqlite3]: it raises when the schedule says so. *)
Definition sqlite_call : M unit :=
  fun w => match faults w with
           | true :: fs =>
               (Raise (Exn OperationalError "disk I/O error"), set_faults fs w)
           | false :: fs => (Ok tt, set_faults fs w)
           | [] => (Ok tt, w)
           end.

(** A connection: the writes made through it and not yet committed.  A
    connection dropped without [commit] leaves the file as it was. *)
Definition conn : Type := LocalDb -> LocalDb.

(** [sqlite3.connect(self.local_db_path)]. *)
Definition connect : M conn := sqlite_call;; mret (fun db => db).

(** [cursor.execute] of a SELECT, with its [fetchone]/[fetchall]: the rows
    are read from the file as this connection sees it. *)
Definition query {A} (c : conn) (q : LocalDb -> A) : M A :=
  sqlite_call;; w ← ask; mret (q (c (local_db w))).

(** [cursor.execute] of an INSERT, UPDATE or DELETE.  [check] is the
    constraint the statement may violate. *)
Definition execute (c : conn) (check : LocalDb -> option exn)
  (effect : LocalDb -> LocalDb) : M conn :=
  sqlite_call;;
  w ← ask;
  match check (c (local_db w)) with
  | Some e => raise e
  | None => mret (fun db => effect (c db))
  end.

Definition no_check : LocalDb -> option exn := fun _ => None.

(** [conn.commit()]. *)
Definition commit (c : conn) : M conn :=
  sqlite_call;;
  modify (fun w => set_local_db (c (local_db w)) w);;
  mret (fun db => db).

(** *** [json] *)

Definition is_datetime (v : pyval) : bool :=
  match v with PDatetime _ => true | _ => false end.

(** [json.dumps(d)]: a [datetime] value is not serialisable. *)
Definition json_dumps (d : doc) : Res doc :=
  if existsb (fun kv => is_datetime (snd kv)) (map_to_list d)
  then Raise (Exn TypeError "Object of type datetime is not JSON serializable")
  else Ok d.

Definition json_loads (s : doc) : Res doc := Ok s.

(** [str(n)] of an [int]. *)
Definition str_int (n : Z) : string :=
  match n with
  | 0 => "0"
  | Zpos _ => Iso.decimal n
  | Zneg _ => "-" ++ Iso.decimal (- n)
  end.

End Monad.

Arguments World R : clear implicits.
Arguments M R A : clear implicits.

(** ** [OfflineManager] *)

Module OfflineManager.

Section Impl.

Context {R : Type} `{RemoteStore R}.

#[local] Abbreviation M := (M R).
#[local] Abbreviation World := (World R).

(** The model classes [Patient] and [HealthAssessment]: the identifiers, and
    the remaining attributes as the mapping [to_dict] returns for them. *)
Record Patient := { patient_id : string; patient_attrs : doc }.

Record HealthAssessment := {
  assessment_id : string;
  assessment_patient_id : string;
  assessment_attrs : doc
}.

Definition Patient_to_dict (p : Patient) : doc :=
  <["patient_id" := PStr (patient_id p)]> (patient_attrs p).

(** [Patient.from_dict]: the constructor replaces a missing or empty
    identifier by a fresh one. *)
Definition Patient_from_dict (d : doc) : M Patient :=
  w ← ask;
  let pid := match get d "patient_id" with
             | PStr s => if String.eqb s "" then uuid4 w else s
             | _ => uuid4 w
             end in
  mret {| patient_id := pid; patient_attrs := delete "patient_id" d |}.

Definition HealthAssessment_to_dict (a : HealthAssessment) : doc :=
  <["assessment_id" := PStr (assessment_id a)]>
    (<["patient_id" := PStr (assessment_patient_id a)]> (assessment_attrs a)).

(** [SELECT patient_id FROM patients WHERE patient_id = ?]. *)
Definition patient_exists (pid : string) (db : LocalDb) : bool :=
  existsb (fun r => String.eqb (Patients.patient_id r) pid) (patients db).

(** [UPDATE patients SET data = ?, updated_at = ?, synced = 0 WHERE patient_id = ?]. *)
Definition update_patient (d : doc) (now_ pid : string) : LocalDb -> LocalDb :=
  with_patients (map (fun r =>
    if String.eqb (Patients.patient_id r) pid
    then Patients.Row pid d (Patients.created_at r) now_ 0
    else r)).

(** [INSERT INTO patients (...) VALUES (?, ?, ?, ?, 0)]. *)
Definition insert_patient (pid : string) (d : doc) (now_ : string)
  : LocalDb -> LocalDb :=
  with_patients (fun l => (l ++ [Patients.Row pid d now_ now_ 0])%list).

Definition assessment_exists (aid : string) (db : LocalDb) : bool :=
  existsb (fun r => String.eqb (Assessments.assessment_id r) aid)
    (health_assessments db).

(** [UPDATE health_assessments SET data = ?, synced = 0 WHERE assessment_id = ?]. *)
Definition update_assessment (d : doc) (aid : string) : LocalDb -> LocalDb :=
  with_assessments (map (fun r =>
    if String.eqb (Assessments.assessment_id r) aid
    then Assessments.Row aid (Assessments.patient_id r) d
           (Assessments.created_at r) 0
    else r)).

Definition insert_assessment (aid pid : string) (d : doc) (now_ : string)
  : LocalDb -> LocalDb :=
  with_assessments (fun l => (l ++ [Assessments.Row aid pid d now_ 0])%list).

(** The primary key of [sync_queue]. *)
Definition sync_id_taken (sid : string) (db : LocalDb) : option exn :=
  if existsb (fun r => String.eqb (SyncQueue.sync_id r) sid) (sync_queue db)
  then Some (Exn IntegrityError "UNIQUE constraint failed: sync_queue.sync_id")
  else None.

Definition insert_sync_queue (r : SyncQueue.row) : LocalDb -> LocalDb :=
  with_queue (fun l => (l ++ [r])%list).

(** [OfflineManager._add_to_sync_queue]: the entry is inserted and committed
    through a connection of its own; any exception is logged and turned into
    [False]. *)
Definition _add_to_sync_queue
  (record_type record_id : string) (data : doc) (priority : Z) : M bool :=
  try_except
    (c ← connect;
     w ← ask;
     let sync_id := record_type ++ "_" ++ record_id ++ "_" ++ str_int (epoch w) in
     let now_ := Iso.isoformat (now w) in
     c ← execute c (sync_id_taken sync_id)
           (insert_sync_queue
              (SyncQueue.Row sync_id record_type record_id data priority now_
                 0 None None));
     commit c;;
     mret true)
    (fun e => mret false).

(** [OfflineManager.save_patient_offline]. *)
Definition save_patient_offline (patient : Patient) : M bool :=
  try_except
    (c ← connect;
     patient_data ← lift (json_dumps (Patient_to_dict patient));
     w ← ask;
     let now_ := Iso.isoformat (now w) in
     exists_ ← query c (patient_exists (patient_id patient));
     c ← (if exists_ : bool
          then execute c no_check
                 (update_patient patient_data now_ (patient_id patient))
          else execute c no_check
                 (insert_patient (patient_id patient) patient_data now_));
     _add_to_sync_queue "patient" (patient_id patient) patient_data
       (priority_patients (config w));;
     commit c;;
     mret true)
    (fun e => mret false).

(** [OfflineManager.save_assessment_offline]. *)
Definition save_assessment_offline (assessment : HealthAssessment) : M bool :=
  try_except
    (c ← connect;
     assessment_data ← lift (json_dumps (HealthAssessment_to_dict assessment));
     w ← ask;
     let now_ := Iso.isoformat (now w) in
     exists_ ← query c (assessment_exists (assessment_id assessment));
     c ← (if exists_ : bool
          then execute c no_check
                 (update_assessment assessment_data (assessment_id assessment))
          else execute c no_check
                 (insert_assessment (assessment_id assessment)
                    (assessment_patient_id assessment) assessment_data now_));
     _add_to_sync_queue "health_assessment" (assessment_id assessment)
       assessment_data (priority_health_assessments (config w));;
     commit c;;
     mret true)
    (fun e => mret false).

(** [SELECT data FROM patients WHERE patient_id = ?], [fetchone]. *)
Definition select_patient_data (pid : string) (db : LocalDb) : option doc :=
  match List.filter (fun r => String.eqb (Patients.patient_id r) pid) (patients db) with
  | r :: _ => Some (Patients.data r)
  | [] => None
  end.

(** [OfflineManager.get_patient_offline]: the patient, or [None]. *)
Definition get_patient_offline (pid : string) : M (option Patient) :=
  try_except
    (c ← connect;
     result ← query c (select_patient_data pid);
     match result with
     | Some d =>
         patient_data ← lift (json_loads d);
         p ← Patient_from_dict patient_data;
         mret (Some p)
     | None => mret None
     end)
    (fun e => mret None).

(** [OfflineManager._get_sync_queue_records]; the caller passes no limit
    and gets the default, 50. *)
Definition _get_sync_queue_records (limit : Z) : M (list SyncQueue.row) :=
  try_except
    (c ← connect;
     results ← query c (select_sync_queue limit);
     mret results)
    (fun e => mret []).

(** *** The synchronisation pass *)

(** [UPDATE sync_queue SET retry_count = retry_count + 1, last_attempt = ?
    WHERE sync_id = ?]. *)
Definition bump_attempt (now_ sid : string) : LocalDb -> LocalDb :=
  with_queue (map (fun r =>
    if String.eqb (SyncQueue.sync_id r) sid
    then SyncQueue.Row sid (SyncQueue.record_type r) (SyncQueue.record_id r)
           (SyncQueue.data r) (SyncQueue.priority r) (SyncQueue.created_at r)
           (SyncQueue.retry_count r + 1) (Some now_) (SyncQueue.error_message r)
    else r)).

(** [DELETE FROM sync_queue WHERE sync_id = ?]. *)
Definition delete_sync (sid : string) : LocalDb -> LocalDb :=
  with_queue (List.filter (fun r => negb (String.eqb (SyncQueue.sync_id r) sid))).

(** [UPDATE sync_queue SET error_message = ? WHERE sync_id = ?]. *)
Definition set_error_message (msg : option string) (sid : string)
  : LocalDb -> LocalDb :=
  with_queue (map (fun r =>
    if String.eqb (SyncQueue.sync_id r) sid
    then SyncQueue.Row sid (SyncQueue.record_type r) (SyncQueue.record_id r)
           (SyncQueue.data r) (SyncQueue.priority r) (SyncQueue.created_at r)
           (SyncQueue.retry_count r) (SyncQueue.last_attempt r) msg
    else r)).

(** [UPDATE patients SET synced = 1 WHERE patient_id = ?]. *)
Definition mark_patient_synced (pid : string) : LocalDb -> LocalDb :=
  with_patients (map (fun r =>
    if String.eqb (Patients.patient_id r) pid
    then Patients.Row pid (Patients.data r) (Patients.created_at r)
           (Patients.updated_at r) 1
    else r)).

(** [UPDATE health_assessments SET synced = 1 WHERE assessment_id = ?]. *)
Definition mark_assessment_synced (aid : string) : LocalDb -> LocalDb :=
  with_assessments (map (fun r =>
    if String.eqb (Assessments.assessment_id r) aid
    then Assessments.Row aid (Assessments.patient_id r) (Assessments.data r)
           (Assessments.created_at r) 1
    else r)).

(** [OfflineManager._update_sync_attempt]. *)
Definition _update_sync_attempt (sync_id : string) : M unit :=
  try_except
    (c ← connect;
     w ← ask;
     c ← execute c no_check (bump_attempt (Iso.isoformat (now w)) sync_id);
     commit c;;
     mret tt)
    (fun e => mret tt).

(** [OfflineManager._update_sync_record_status]. *)
Definition _update_sync_record_status
  (sync_id : string) (success : bool) (error_message : option string) : M unit :=
  try_except
    (c ← connect;
     c ← (if success
          then execute c no_check (delete_sync sync_id)
          else execute c no_check (set_error_message error_message sync_id));
     commit c;;
     mret tt)
    (fun e => mret tt).

(** [OfflineManager._mark_record_synced]. *)
Definition _mark_record_synced (record_type record_id : string) : M unit :=
  try_except
    (c ← connect;
     c ← (if String.eqb record_type "patient"
          then execute c no_check (mark_patient_synced record_id)
          else if String.eqb record_type "health_assessment"
          then execute c no_check (mark_assessment_synced record_id)
          else mret c);
     commit c;;
     mret tt)
    (fun e => mret tt).

(** The calls on [self.db]. *)
Definition db_is_connected : M bool := w ← ask; lift (is_connected (central w)).

Definition db_find_one (collection : string) (q : doc) : M (option doc) :=
  fun w => let '(r, c) := find_one collection q (central w) in (r, set_central c w).

Definition db_insert_one (collection : string) (d : doc) : M pyval :=
  fun w => let '(r, c) := insert_one collection d (central w) in (r, set_central c w).

Definition db_update_one (collection : string) (q set_ : doc) : M pyval :=
  fun w => let '(r, c) := update_one collection q set_ (central w) in
           (r, set_central c w).

(** [OfflineManager._check_connectivity]. *)
Definition _check_connectivity : M bool :=
  try_except db_is_connected (fun e => mret false).

(** [if central:] on what [find_one] returned. *)
Definition found (central_ : option doc) : option doc :=
  match central_ with
  | Some d => if Nat.eqb (size d) 0 then None else Some d
  | None => None
  end.

Definition is_not_None (v : pyval) : bool :=
  match v with PNone => false | _ => true end.

(** [OfflineManager._sync_patient]. *)
Definition _sync_patient (patient_id : string) (data : doc) : M bool :=
  try_except
    (central_patient ← db_find_one "patients" {[ "patient_id" := PStr patient_id ]};
     match found central_patient with
     | Some central_patient =>
         if _resolve_conflict "patient" central_patient data
         then result ← db_update_one "patients"
                         {[ "patient_id" := PStr patient_id ]} data;
              mret (is_not_None result)
         else mret true
     | None =>
         result ← db_insert_one "patients" data;
         mret (is_not_None result)
     end)
    (fun e => mret false).

(** [OfflineManager._sync_assessment]. *)
Definition _sync_assessment (assessment_id : string) (data : doc) : M bool :=
  try_except
    (central_assessment ←
       db_find_one "health_assessments" {[ "assessment_id" := PStr assessment_id ]};
     result ← match found central_assessment with
              | Some _ => db_update_one "health_assessments"
                            {[ "assessment_id" := PStr assessment_id ]} data
              | None => db_insert_one "health_assessments" data
              end;
     mret (is_not_None result))
    (fun e => mret false).

(** [OfflineManager._sync_record]. *)
Definition _sync_record (record : SyncQueue.row) : M bool :=
  let sync_id := SyncQueue.sync_id record in
  try_except
    (let record_type := SyncQueue.record_type record in
     let record_id := SyncQueue.record_id record in
     data ← lift (json_loads (SyncQueue.data record));
     _update_sync_attempt sync_id;;
     let finish (result : bool) : M bool :=
       if result
       then _update_sync_record_status sync_id true None;;
            _mark_record_synced record_type record_id;;
            mret true
       else mret false in
     if String.eqb record_type "patient"
     then result ← _sync_patient record_id data; finish result
     else if String.eqb record_type "health_assessment"
     then result ← _sync_assessment record_id data; finish result
     else mret false)
    (fun e => _update_sync_record_status sync_id false (Some (exn_msg e));;
              mret false).

(** The loop of [sync_data] over the batch, with its two counters. *)
Fixpoint sync_records (records : list SyncQueue.row) (synced_count failed_count : Z)
  : M (Z * Z) :=
  match records with
  | [] => mret (synced_count, failed_count)
  | record :: rest =>
      ok ← try_except (_sync_record record)
             (fun e =>
                _update_sync_record_status (SyncQueue.sync_id record) false
                  (Some (exn_msg e));;
                mret false);
      if ok : bool
      then sync_records rest (synced_count + 1) failed_count
      else sync_records rest synced_count (failed_count + 1)
  end.

Definition already_in_progress : doc :=
  {[ "success" := PBool false;
     "message" := PStr "Sync already in progress";
     "synced_records" := PInt 0 ]}.

Definition no_connectivity : doc :=
  {[ "success" := PBool false;
     "message" := PStr "No connectivity to central database";
     "synced_records" := PInt 0 ]}.

Definition sync_completed (synced_count failed_count : Z) (t : datetime) : doc :=
  {[ "success" := PBool true;
     "message" := PStr ("Sync completed: " ++ str_int synced_count ++ " synced, "
                          ++ str_int failed_count ++ " failed");
     "synced_records" := PInt synced_count;
     "failed_records" := PInt failed_count;
     "sync_time" := PStr (Iso.isoformat t) ]}.

Definition sync_error (e : exn) : doc :=
  {[ "success" := PBool false;
     "message" := PStr ("Sync error: " ++ exn_msg e);
     "synced_records" := PInt 0 ]}.

(** [OfflineManager.sync_data]. *)
Definition sync_data : M doc :=
  w ← ask;
  if sync_in_progress w then mret already_in_progress
  else
    modify (set_sync_in_progress true);;
    try_finally
      (try_except
         (connected ← _check_connectivity;
          if negb connected
          then modify (set_sync_in_progress false);;
               mret no_connectivity
          else
            records_to_sync ← _get_sync_queue_records 50;
            '(synced_count, failed_count) ← sync_records records_to_sync 0 0;
            w ← ask;
            modify (set_last_sync_time (Some (now w)));;
            mret (sync_completed synced_count failed_count (now w)))
         (fun e => mret (sync_error e)))
      (modify (set_sync_in_progress false)).

(** *** The retention sweep *)

(** [datetime - timedelta(days=n)]; both the [timedelta] and the resulting
    date have a range. *)
Definition minus_days (d : datetime) (n : Z) : Res datetime :=
  if 999999999 <? Z.abs n
  then Raise (Exn OverflowError
                (if (-2147483648 <=? n) && (n <=? 2147483647)
                 then "days=" ++ str_int n ++ "; must have magnitude <= 999999999"
                 else "Python int too large to convert to C int"))
  else
    let o := Calendar.ymd2ord (year d) (month d) (day d) - n in
    if (1 <=? o) && (o <=? 3652059)
    then let '(y, m, dd) := Calendar.ord2ymd o in
         Ok (Datetime y m dd (hour d) (minute d) (second d) (microsecond d)
               (tzinfo d))
    else Raise (Exn OverflowError "date value out of range").

(** [(datetime.now() - timedelta(days=self.config['max_offline_days'])).isoformat()]. *)
Definition cutoff_date (w : World) : Res string :=
  match minus_days (now w) (max_offline_days (config w)) with
  | Ok d => Ok (Iso.isoformat d)
  | Raise e => Raise e
  end.

(** [DELETE FROM health_assessments WHERE synced = 1 AND created_at < ?]. *)
Definition delete_old_assessments (cutoff : string) : LocalDb -> LocalDb :=
  with_assessments (List.filter (fun r =>
    negb ((Assessments.synced r =? 1)
          && String.ltb (Assessments.created_at r) cutoff))).

(** [SELECT DISTINCT patient_id FROM health_assessments WHERE created_at >= ?]. *)
Definition recent_patient_ids (cutoff : string) (db : LocalDb) : list string :=
  nodup string_dec
    (map Assessments.patient_id
       (List.filter (fun r => negb (String.ltb (Assessments.created_at r) cutoff))
          (health_assessments db))).

(** [DELETE FROM patients WHERE synced = 1 AND updated_at < ?
    AND patient_id NOT IN (...)]. *)
Definition delete_old_patients_except (cutoff : string) (keep : list string)
  : LocalDb -> LocalDb :=
  with_patients (List.filter (fun r =>
    negb ((Patients.synced r =? 1)
          && String.ltb (Patients.updated_at r) cutoff
          && negb (existsb (String.eqb (Patients.patient_id r)) keep)))).

(** [DELETE FROM patients WHERE synced = 1 AND updated_at < ?]. *)
Definition delete_old_patients (cutoff : string) : LocalDb -> LocalDb :=
  with_patients (List.filter (fun r =>
    negb ((Patients.synced r =? 1)
          && String.ltb (Patients.updated_at r) cutoff))).

(** [OfflineManager._clean_old_synced_records]. *)
Definition _clean_old_synced_records : M unit :=
  try_except
    (c ← connect;
     w ← ask;
     cutoff ← lift (cutoff_date w);
     c ← execute c no_check (delete_old_assessments cutoff);
     recent ← query c (recent_patient_ids cutoff);
     c ← (match recent with
          | _ :: _ => execute c no_check (delete_old_patients_except cutoff recent)
          | [] => execute c no_check (delete_old_patients cutoff)
          end);
     commit c;;
     mret tt)
    (fun e => mret tt).

(** [db_size > self.config['max_storage_size_mb'] * 0.9], with [db_size] the
    file size in megabytes; evaluated exactly here, in double precision by
    Python. *)
Definition storage_above_90_percent (w : World) : bool :=
  max_storage_size_mb (config w) * 9 * 1048576 <? db_file_size w * 10.

(** [OfflineManager._manage_storage].  Its second step,
    [_clean_old_resources], works on the table [resources] and the cached
    files only, which are not part of the model. *)
Definition _manage_storage : M unit :=
  try_except
    (w ← ask;
     if storage_above_90_percent w
     then _clean_old_synced_records
     else mret tt)
    (fun e => mret tt).

End Impl.

End OfflineManager.

(** ** [SyncService] *)

Module SyncService.

(** [s.lower()], on ASCII letters. *)
Definition lower_ascii (c : ascii) : ascii :=
  let n := N_of_ascii c in
  if (65 <=? n)%N && (n <=? 90)%N then ascii_of_N (n + 32) else c.

Fixpoint lower (s : string) : string :=
  match s with
  | EmptyString => EmptyString
  | String c r => String (lower_ascii c) (lower r)
  end.

(** [needle in s]. *)
Fixpoint contains (needle s : string) : bool :=
  String.prefix needle s ||
  match s with
  | EmptyString => false
  | String _ r => contains needle r
  end.

Section Impl.

Context {R : Type}.

#[local] Abbreviation M := (M R).
#[local] Abbreviation World := (World R).

(** [SyncService._is_online]: the socket probe. *)
Definition _is_online : M bool := w ← ask; mret (online w).

(** The payload without the keys that start with [_sync_]. *)
Definition clean (data : doc) : doc :=
  filter (fun kv => String.prefix "_sync_" (fst kv) = false) data.

(** [SyncService._sync_with_server].  The exchange with the server is the
    body of the [try]; [server] tells whether it raises and with which
    message.  The body that the source has in that place is a placeholder
    that does not raise: for the source, [server] answers [None] on every
    item. *)
Definition _sync_with_server (data_type : string) (data : doc) : M doc :=
  w ← ask;
  let clean_data := clean data in
  match server w data_type clean_data with
  | None =>
      mret {[ "success" := PBool true;
              "message" := PStr ("Successfully synced " ++ data_type ++ " data") ]}
  | Some msg =>
      let is_permanent := contains "invalid data format" (lower msg) in
      mret {[ "success" := PBool false;
              "error" := PStr msg;
              "permanent_failure" := PBool is_permanent ]}
  end.

(** [SELECT * FROM sync_data WHERE status = 'pending' ORDER BY created_at ASC]. *)
Definition select_pending (db : LocalDb) : list SyncData.row :=
  order_by (A := SyncData.row) CreatedOrder.leb
    (List.filter (fun r => String.eqb (SyncData.status r) "pending")
       (sync_data_table db)).

(** [UPDATE sync_data SET status = ?, modified_at = ? WHERE sync_id = ?]. *)
Definition set_status (st now_ sid : string) : LocalDb -> LocalDb :=
  with_sync_data (map (fun r =>
    if String.eqb (SyncData.sync_id r) sid
    then SyncData.Row sid (SyncData.data_type r) (SyncData.data r) st
           (SyncData.created_at r) now_
    else r)).

(** [DELETE FROM sync_data WHERE status = 'synced' AND modified_at < ?]. *)
Definition delete_old_synced (cutoff : string) : LocalDb -> LocalDb :=
  with_sync_data (List.filter (fun r =>
    negb (String.eqb (SyncData.status r) "synced"
          && String.ltb (SyncData.modified_at r) cutoff))).

(** [SyncService._cleanup_old_data]; the retention period is the
    configured [max_offline_days]. *)
Definition _cleanup_old_data (c : conn) : M conn :=
  w ← ask;
  cutoff ← lift (OfflineManager.cutoff_date w);
  execute c no_check (delete_old_synced cutoff).

(** The loop of [sync_data] over the pending rows. *)
Fixpoint sync_rows (c : conn) (rows : list SyncData.row) (synced failed : Z)
  : M (conn * Z * Z) :=
  match rows with
  | [] => mret (c, synced, failed)
  | row :: rest =>
      let sync_id := SyncData.sync_id row in
      data ← lift (json_loads (SyncData.data row));
      sync_result ← _sync_with_server (SyncData.data_type row) data;
      w ← ask;
      let now_ := Iso.isoformat (now w) in
      if truthy (get sync_result "success")
      then c ← execute c no_check (set_status "synced" now_ sync_id);
           sync_rows c rest (synced + 1) failed
      else
        c ← (if truthy (get sync_result "permanent_failure")
             then execute c no_check (set_status "failed" now_ sync_id)
             else mret c);
        sync_rows c rest synced (failed + 1)
  end.

Definition no_internet : doc :=
  {[ "success" := PBool false;
     "error" := PStr "No internet connection available" ]}.

Definition nothing_pending : doc :=
  {[ "success" := PBool true;
     "message" := PStr "No pending data to synchronize";
     "synced" := PInt 0;
     "failed" := PInt 0 ]}.

Definition synchronization_completed (synced failed : Z) : doc :=
  {[ "success" := PBool true;
     "message" := PStr "Synchronization completed";
     "synced" := PInt synced;
     "failed" := PInt failed ]}.

Definition synchronization_failed (e : exn) : doc :=
  {[ "success" := PBool false;
     "error" := PStr ("Synchronization failed: " ++ exn_msg e) ]}.

(** [SyncService.sync_data]. *)
Definition sync_data (force : bool) : M doc :=
  is_online ← _is_online;
  if negb is_online && negb force then mret no_internet
  else
    try_except
      (c ← connect;
       pending_rows ← query c select_pending;
       match pending_rows with
       | [] => mret nothing_pending
       | _ :: _ =>
           '(c, synced, failed) ← sync_rows c pending_rows 0 0;
           c ← commit c;
           c ← _cleanup_old_data c;
           commit c;;
           mret (synchronization_completed synced failed)
       end)
      (fun e => mret (synchronization_failed e)).

(** [UPDATE sync_data SET status = 'pending', modified_at = ?
    WHERE status = 'failed']. *)
Definition reset_failed (now_ : string) : LocalDb -> LocalDb :=
  with_sync_data (map (fun r =>
    if String.eqb (SyncData.status r) "failed"
    then SyncData.Row (SyncData.sync_id r) (SyncData.data_type r)
           (SyncData.data r) "pending" (SyncData.created_at r) now_
    else r)).

(** [cursor.rowcount] of that statement. *)
Definition count_failed (db : LocalDb) : Z :=
  Z.of_nat (List.length
    (List.filter (fun r => String.eqb (SyncData.status r) "failed")
       (sync_data_table db))).

Definition retried (retried_count : Z) : doc :=
  {[ "success" := PBool true;
     "retried_count" := PInt retried_count;
     "message" := PStr ("Retried " ++ str_int retried_count ++ " failed items") ]}.

Definition retry_error (e : exn) : doc :=
  {[ "success" := PBool false;
     "error" := PStr ("Failed to retry sync: " ++ exn_msg e) ]}.

(** The first half of [retry_failed_sync]: the update, its row count, the
    commit. *)
Definition retry_reset : M Z :=
  c ← connect;
  w ← ask;
  c' ← execute c no_check (reset_failed (Iso.isoformat (now w)));
  let retried_count := count_failed (c (local_db w)) in
  commit c';;
  mret retried_count.

(** [SyncService.retry_failed_sync]. *)
Definition retry_failed_sync : M doc :=
  try_except
    (retried_count ← retry_reset;
     (if 0 <? retried_count then sync_data false;; mret tt else mret tt);;
     mret (retried retried_count))
    (fun e => mret (retry_error e)).

End Impl.

End SyncService.

(** ** An in-memory remote store

    A remote store to run the services on concrete inputs: a connection
    flag and the documents of all collections in insertion order. *)

#[global] Instance datetime_eq_dec : EqDecision datetime.
Proof. solve_decision. Defined.

#[global] Instance pyval_eq_dec : EqDecision pyval.
Proof. solve_decision. Defined.

Module MemoryStore.

Record t := { connected : bool; documents : list (string * doc) }.

(** A document matches a query when it has every field of the query. *)
Definition matches (q d : doc) : bool :=
  forallb (fun kv => bool_decide (d !! fst kv = Some (snd kv))) (map_to_list q).

Definition selects (collection : string) (q : doc) (cd : string * doc) : bool :=
  String.eqb (fst cd) collection && matches q (snd cd).

Definition find (collection : string) (q : doc) (docs : list (string * doc))
  : option doc :=
  match List.filter (selects collection q) docs with
  | cd :: _ => Some (snd cd)
  | [] => None
  end.

Fixpoint update_first (collection : string) (q set_ : doc)
  (docs : list (string * doc)) : list (string * doc) :=
  match docs with
  | [] => []
  | cd :: rest =>
      if selects collection q cd
      then (fst cd, set_ ∪ snd cd) :: rest
      else cd :: update_first collection q set_ rest
  end.

Definition unreachable {A} (st : t) : Res A * t :=
  (Raise (Exn RemoteError "not connected"), st).

#[global] Instance store : RemoteStore t := {
  is_connected st := Ok (connected st);
  find_one collection q st :=
    if connected st then (Ok (find collection q (documents st)), st)
    else unreachable st;
  insert_one collection d st :=
    if connected st
    then (Ok (PDict true), Build_t true (documents st ++ [(collection, d)])%list)
    else unreachable st;
  update_one collection q set_ st :=
    if connected st
    then (Ok (PDict true), Build_t true (update_first collection q set_ (documents st)))
    else unreachable st
}.

End MemoryStore.

(** * The vocabulary of the properties *)

(** A payload whose [updated_at] is the text [s]. *)
Definition stamped (s : string) (rest : doc) : doc :=
  <["updated_at" := PStr s]> rest.

(** [a] may come before [b] in the batch: higher priority first, then
    fewer retries, then the earlier (or the same) [created_at]. *)
Definition queue_before (a b : SyncQueue.row) : Prop :=
  SyncQueue.priority b < SyncQueue.priority a \/
  (SyncQueue.priority a = SyncQueue.priority b /\
   (SyncQueue.retry_count a < SyncQueue.retry_count b \/
    (SyncQueue.retry_count a = SyncQueue.retry_count b /\
     String.leb (SyncQueue.created_at a) (SyncQueue.created_at b) = true))).

(** [a] and [b] have the same sort keys. *)
Definition same_keys (a b : SyncQueue.row) : Prop :=
  SyncQueue.priority a = SyncQueue.priority b /\
  SyncQueue.retry_count a = SyncQueue.retry_count b /\
  SyncQueue.created_at a = SyncQueue.created_at b.

(** [a] stands before [b] in the list [l]. *)
Definition precedes {A} (a b : A) (l : list A) : Prop :=
  exists l1 l2 l3, l = (l1 ++ a :: l2 ++ b :: l3)%list.

(** The operations of the local store and the states they reach from an
    empty store.  Between two operations the environment (fault schedule,
    clock, remote store, file size) may change. *)
Inductive operation :=
  | SavePatient (p : OfflineManager.Patient)
  | SaveAssessment (a : OfflineManager.HealthAssessment)
  | SyncData
  | ManageStorage.

Definition run {R : Type} `{RemoteStore R} (o : operation) (w : World R) : World R :=
  match o with
  | SavePatient p => snd (OfflineManager.save_patient_offline p w)
  | SaveAssessment a => snd (OfflineManager.save_assessment_offline a w)
  | SyncData => snd (OfflineManager.sync_data w)
  | ManageStorage => snd (OfflineManager._manage_storage w)
  end.

Inductive reachable {R : Type} `{RemoteStore R} : World R -> Prop :=
  | reachable_init w :
      local_db w = empty_db -> sync_in_progress w = false -> reachable w
  | reachable_step w o : reachable w -> reachable (run o w)
  | reachable_env w w' :
      reachable w -> local_db w' = local_db w ->
      sync_in_progress w' = sync_in_progress w -> reachable w'.

(** The queue entry [e] after one more attempt at time [now_]. *)
Definition attempted (e : SyncQueue.row) (now_ : string) : SyncQueue.row :=
  SyncQueue.Row (SyncQueue.sync_id e) (SyncQueue.record_type e)
    (SyncQueue.record_id e) (SyncQueue.data e) (SyncQueue.priority e)
    (SyncQueue.created_at e) (SyncQueue.retry_count e + 1) (Some now_)
    (SyncQueue.error_message e).

(** The queue entry [e] with the error message [msg]. *)
Definition noted (e : SyncQueue.row) (msg : option string) : SyncQueue.row :=
  SyncQueue.Row (SyncQueue.sync_id e) (SyncQueue.record_type e)
    (SyncQueue.record_id e) (SyncQueue.data e) (SyncQueue.priority e)
    (SyncQueue.created_at e) (SyncQueue.retry_count e) (SyncQueue.last_attempt e)
    msg.

(** A live queue entry for a record. *)
Definition has_live_entry (record_type record_id : string) (db : LocalDb) : Prop :=
  exists e, In e (sync_queue db) /\
            SyncQueue.record_type e = record_type /\
            SyncQueue.record_id e = record_id.

(** Every pending record ([synced = 0]) has a live queue entry. *)
Definition pending_records_queued (db : LocalDb) : Prop :=
  (forall p, In p (patients db) -> Patients.synced p = 0 ->
             has_live_entry "patient" (Patients.patient_id p) db) /\
  (forall a, In a (health_assessments db) -> Assessments.synced a = 0 ->
             has_live_entry "health_assessment" (Assessments.assessment_id a) db).

(** The committed effect of a retention sweep that ran to its end. *)
Definition swept (cutoff : string) (db : LocalDb) : LocalDb :=
  let db1 := OfflineManager.delete_old_assessments cutoff db in
  match OfflineManager.recent_patient_ids cutoff db1 with
  | [] => OfflineManager.delete_old_patients cutoff db1
  | (_ :: _) as recent => OfflineManager.delete_old_patients_except cutoff recent db1
  end.

(** A patient has an assessment that is not older than the cutoff. *)
Definition has_recent_assessment (cutoff pid : string) (db : LocalDb) : Prop :=
  exists a, In a (health_assessments db) /\
            Assessments.patient_id a = pid /\
            String.ltb (Assessments.created_at a) cutoff = false.

Section SyncServiceVocabulary.

Context {R : Type}.

(** What a pass of [SyncService.sync_data] does to the table for one
    pending row. *)
Definition apply_row (w : World R) (r : SyncData.row) (db : LocalDb) : LocalDb :=
  let now_ := Iso.isoformat (now w) in
  match server w (SyncData.data_type r) (SyncService.clean (SyncData.data r)) with
  | None => SyncService.set_status "synced" now_ (SyncData.sync_id r) db
  | Some msg =>
      if SyncService.contains "invalid data format" (SyncService.lower msg)
      then SyncService.set_status "failed" now_ (SyncData.sync_id r) db
      else db
  end.

Definition apply_rows (w : World R) (rows : list SyncData.row) (db : LocalDb)
  : LocalDb :=
  fold_left (fun d r => apply_row w r d) rows db.

(** The row [r] once the pass has marked it failed at time [now_]. *)
Definition failed_row (r : SyncData.row) (now_ : string) : SyncData.row :=
  SyncData.Row (SyncData.sync_id r) (SyncData.data_type r) (SyncData.data r)
    "failed" (SyncData.created_at r) now_.

(** The row [r] once [retry_failed_sync] has reset it at time [now_]. *)
Definition pending_row (r : SyncData.row) (now_ : string) : SyncData.row :=
  SyncData.Row (SyncData.sync_id r) (SyncData.data_type r) (SyncData.data r)
    "pending" (SyncData.created_at r) now_.

(** [sync_id] is the primary key of [sync_data]. *)
Definition primary_key (db : LocalDb) : Prop :=
  List.NoDup (map SyncData.sync_id (sync_data_table db)).

(** The exchange with the server as the source has it: it accepts every
    item. *)
Definition shipped_exchange (w : World R) : Prop :=
  forall data_type data, server w data_type data = None.

(** The worlds that follow [w]: any number of passes, forced or not, with
    the environment changing in between. *)
Inductive later (w : World R) : World R -> Prop :=
  | later_now : later w w
  | later_pass w' force :
      later w w' -> later w (snd (SyncService.sync_data force w'))
  | later_env w' w'' :
      later w w' -> local_db w'' = local_db w' -> later w w''.

(** Weakest precondition of a computation: [Q] holds of its outcome and of
    the world it leaves. *)
Definition wp {A} (m : M R A) (Q : Res A -> World R -> Prop) (w : World R) : Prop :=
  Q (fst (m w)) (snd (m w)).

End SyncServiceVocabulary.

(** ** Concrete inputs *)

Module Scenario.

(** A world on 2024-03-01 at noon, with the default configuration. *)
Definition world (db : LocalDb) (fs : list bool) (connected online_ : bool)
    (server_ : string -> doc -> option string) (size : Z) (busy : bool)
  : World MemoryStore.t := {|
  local_db := db;
  faults := fs;
  central := MemoryStore.Build_t connected [];
  online := online_;
  server := server_;
  now := Datetime 2024 3 1 12 0 0 0 None;
  epoch := 1709294400;
  uuid4 := "00000000-0000-4000-8000-000000000000";
  db_file_size := size;
  config := default_config;
  sync_in_progress := busy;
  last_sync_time := None
|}.

(** The server of the source: every exchange succeeds. *)
Definition accepting : string -> doc -> option string := fun _ _ => None.

(** An empty store, connected, nothing scheduled to fail. *)
Definition world0 : World MemoryStore.t :=
  world empty_db [] true true accepting 0 false.

(** A patient whose attributes are all JSON values. *)
Definition asha : OfflineManager.Patient := {|
  OfflineManager.patient_id := "p1";
  OfflineManager.patient_attrs :=
    {[ "name" := PStr "Asha"; "updated_at" := PStr "2024-03-01T12:00:00" ]}
|}.

(** The empty store, where the fourth [sqlite3] call raises: the three of
    the saving connection pass, [connect] in [_add_to_sync_queue] fails (as
    it does with "database is locked" when the file is busy). *)
Definition enqueue_fails : World MemoryStore.t :=
  set_faults [false; false; false; true] world0.


(** The same, where the commit of the saving connection then raises too. *)
Definition commit_fails : World MemoryStore.t :=
  set_faults [false; false; false; false; true; true] world0.

(** The store after [asha] was saved without fault. *)
Definition stored : World MemoryStore.t := run (SavePatient asha) world0.

(** One entry in the sync queue. *)
Definition entry : SyncQueue.row :=
  SyncQueue.Row "patient_p1_1709294400" "patient" "p1"
    (OfflineManager.Patient_to_dict asha) 5 "2024-03-01T12:00:00" 0 None None.

Definition queued_db : LocalDb := with_queue (fun _ => [entry]) empty_db.

Definition queued : World MemoryStore.t :=
  world queued_db [] true true accepting 0 false.

(** Three entries in the order of their insertion: an assessment, then
    two patients saved within the same clock reading, which tie on all
    three sort keys. *)
Definition visit_entry : SyncQueue.row :=
  SyncQueue.Row "health_assessment_a1_1709294340" "health_assessment" "a1"
    {[ "patient_id" := PStr "p1" ]} 3 "2024-03-01T11:59:00" 0 None None.

Definition second_entry : SyncQueue.row :=
  SyncQueue.Row "patient_p2_1709294400" "patient" "p2"
    {[ "name" := PStr "Bina" ]} 5 "2024-03-01T12:00:00" 0 None None.

Definition tied : World MemoryStore.t :=
  world (with_queue (fun _ => [visit_entry; entry; second_entry]) empty_db)
    [] true true accepting 0 false.

(** The same store while a pass is in flight. *)
Definition busy : World MemoryStore.t :=
  world queued_db [] true true accepting 0 true.

(** One pending item of [SyncService]. *)
Definition item : SyncData.row :=
  SyncData.Row "patient_1709294400_p1" "patient"
    {[ "id" := PStr "p1"; "_sync_status" := PStr "pending" ]}
    "pending" "2024-03-01T12:00:00" "2024-03-01T12:00:00".

Definition pending_db : LocalDb :=
  with_sync_data (fun _ => [item]) queued_db.

(** No connectivity: the remote store is not connected and the socket
    probe fails. *)
Definition offline : World MemoryStore.t :=
  world pending_db [] false false accepting 0 false.

(** A server that rejects every item for its format. *)
Definition rejecting : string -> doc -> option string :=
  fun _ _ => Some "Invalid data format: age is not a number".

Definition rejected : World MemoryStore.t :=
  world pending_db [] true true rejecting 0 false.

(** One item that an earlier pass has marked failed. *)
Definition failed_item : SyncData.row := failed_row item "2024-02-29T12:00:00".

Definition failed : World MemoryStore.t :=
  world (with_sync_data (fun _ => [failed_item]) empty_db)
    [] true true accepting 0 false.

(** A store above 90% of the 500 MB cap, with cutoff 2024-01-31T12:00:00:
    [p1] is old, synced and has only an old assessment; [p2] is old and
    synced with a recent assessment; [p3] is old and pending. *)
Definition crowded_db : LocalDb := {|
  patients :=
    [ Patients.Row "p1" ∅ "2023-12-01T09:00:00" "2023-12-01T09:00:00" 1;
      Patients.Row "p2" ∅ "2023-12-01T09:00:00" "2023-12-01T09:00:00" 1;
      Patients.Row "p3" ∅ "2023-12-01T09:00:00" "2023-12-01T09:00:00" 0 ];
  health_assessments :=
    [ Assessments.Row "a1" "p1" ∅ "2023-12-02T09:00:00" 1;
      Assessments.Row "a2" "p2" ∅ "2024-02-20T09:00:00" 1 ];
  sync_queue := [];
  sync_data_table := []
|}.

Definition crowded : World MemoryStore.t :=
  world crowded_db [] true true accepting (500 * 1048576) false.

End Scenario.

(** ** Further vocabulary: saving *)

Section SaveVocabulary.

Context {R : Type}.

(** The queue entry that [_add_to_sync_queue] makes at the clock of [w]. *)
Definition new_entry (w : World R) (record_type record_id : string) (d : doc)
    (priority : Z) : SyncQueue.row :=
  SyncQueue.Row
    (record_type ++ "_" ++ record_id ++ "_" ++ str_int (epoch w))
    record_type record_id d priority (Iso.isoformat (now w)) 0 None None.

(** The store once [_add_to_sync_queue] has run without a fault: the entry
    is appended unless its [sync_id] is taken. *)
Definition enqueued (w : World R) (record_type record_id : string) (d : doc)
    (priority : Z) (db : LocalDb) : LocalDb :=
  match OfflineManager.sync_id_taken
          (SyncQueue.sync_id (new_entry w record_type record_id d priority)) db with
  | Some _ => db
  | None => OfflineManager.insert_sync_queue
              (new_entry w record_type record_id d priority) db
  end.

(** The UPDATE or INSERT of [save_patient_offline]. *)
Definition upserted (p : OfflineManager.Patient) (d : doc) (now_ : string)
    (db : LocalDb) : LocalDb :=
  if OfflineManager.patient_exists (OfflineManager.patient_id p) db
  then OfflineManager.update_patient d now_ (OfflineManager.patient_id p) db
  else OfflineManager.insert_patient (OfflineManager.patient_id p) d now_ db.

(** The UPDATE or INSERT of [save_assessment_offline]. *)
Definition upserted_assessment (a : OfflineManager.HealthAssessment) (d : doc)
    (now_ : string) (db : LocalDb) : LocalDb :=
  if OfflineManager.assessment_exists (OfflineManager.assessment_id a) db
  then OfflineManager.update_assessment d (OfflineManager.assessment_id a) db
  else OfflineManager.insert_assessment (OfflineManager.assessment_id a)
         (OfflineManager.assessment_patient_id a) d now_ db.

(** What a save leaves in the store, by what it returns. *)
Definition saved_patient_as (p : OfflineManager.Patient) (w : World R)
    (r : Res bool) (db' : LocalDb) : Prop :=
  let db := local_db w in
  let pid := OfflineManager.patient_id p in
  health_assessments db' = health_assessments db /\
  sync_data_table db' = sync_data_table db /\
  (sync_queue db' = sync_queue db \/
   exists d, json_dumps (OfflineManager.Patient_to_dict p) = Ok d /\
     sync_queue db'
     = (sync_queue db ++ [new_entry w "patient" pid d (priority_patients (config w))])%list) /\
  ((r = Ok true /\
    exists d, json_dumps (OfflineManager.Patient_to_dict p) = Ok d /\
      patients db' = patients (upserted p d (Iso.isoformat (now w)) db)) \/
   (r = Ok false /\ patients db' = patients db)).

Definition saved_assessment_as (a : OfflineManager.HealthAssessment) (w : World R)
    (r : Res bool) (db' : LocalDb) : Prop :=
  let db := local_db w in
  let aid := OfflineManager.assessment_id a in
  patients db' = patients db /\
  sync_data_table db' = sync_data_table db /\
  (sync_queue db' = sync_queue db \/
   exists d, json_dumps (OfflineManager.HealthAssessment_to_dict a) = Ok d /\
     sync_queue db'
     = (sync_queue db ++
        [new_entry w "health_assessment" aid d
           (priority_health_assessments (config w))])%list) /\
  ((r = Ok true /\
    exists d, json_dumps (OfflineManager.HealthAssessment_to_dict a) = Ok d /\
      health_assessments db'
      = health_assessments (upserted_assessment a d (Iso.isoformat (now w)) db)) \/
   (r = Ok false /\ health_assessments db' = health_assessments db)).

End SaveVocabulary.

(** ** Further vocabulary: what a pass may do to the local store *)

(** A queue entry [e'] is the entry [e], possibly after more attempts. *)
Definition entry_kept (e e' : SyncQueue.row) : Prop :=
  SyncQueue.sync_id e' = SyncQueue.sync_id e /\
  SyncQueue.record_type e' = SyncQueue.record_type e /\
  SyncQueue.record_id e' = SyncQueue.record_id e /\
  SyncQueue.data e' = SyncQueue.data e /\
  SyncQueue.priority e' = SyncQueue.priority e /\
  SyncQueue.created_at e' = SyncQueue.created_at e /\
  SyncQueue.retry_count e <= SyncQueue.retry_count e'.

(** A patient row [p'] is the row [p], possibly marked synced. *)
Definition patient_kept (p p' : Patients.row) : Prop :=
  Patients.patient_id p' = Patients.patient_id p /\
  Patients.data p' = Patients.data p /\
  Patients.created_at p' = Patients.created_at p /\
  Patients.updated_at p' = Patients.updated_at p /\
  (Patients.synced p' = Patients.synced p \/ Patients.synced p' = 1).

Definition assessment_kept (a a' : Assessments.row) : Prop :=
  Assessments.assessment_id a' = Assessments.assessment_id a /\
  Assessments.patient_id a' = Assessments.patient_id a /\
  Assessments.data a' = Assessments.data a /\
  Assessments.created_at a' = Assessments.created_at a /\
  (Assessments.synced a' = Assessments.synced a \/ Assessments.synced a' = 1).

(** The store [db'] keeps what [db] holds: no queue entry is new or altered
    but for its attempts, the records are the same rows but for [synced],
    and the table of [SyncService] is the same. *)
Definition pass_keeps (db db' : LocalDb) : Prop :=
  (forall e', In e' (sync_queue db') ->
     exists e, In e (sync_queue db) /\ entry_kept e e') /\
  (List.length (sync_queue db') <= List.length (sync_queue db))%nat /\
  Forall2 patient_kept (patients db) (patients db') /\
  Forall2 assessment_kept (health_assessments db) (health_assessments db') /\
  sync_data_table db' = sync_data_table db.

Section PassVocabulary.

Context {R : Type}.

(** The world [w'] is [w] but for the fault schedule, the remote store and
    a local store that keeps what [w] holds. *)
Definition moved (w w' : World R) : Prop :=
  exists db fs c,
    w' = set_central c (set_local_db db (set_faults fs w)) /\
    pass_keeps (local_db w) db /\
    (faults w = [] -> fs = []).

End PassVocabulary.

(** ** [Database]: the object handed to the services as [db]

    [Database] answers every call with a result dictionary.  Its two
    stores are the MongoDB client and the SQLite file of the fallback; what
    they hold is not modelled, only what the statements inside each [try]
    give back: a value, or an exception. *)

Module Database.

Class Backend (B : Type) := {
  (** The module constant [MONGODB_AVAILABLE]. *)
  MONGODB_AVAILABLE : bool;
  (** The attribute [self.is_connected]. *)
  connected : B -> bool;
  (** [self._connect_mongodb()]: it catches every exception and sets
      [self.is_connected]. *)
  _connect_mongodb : B -> B;
  (** [datetime.now().isoformat()]. *)
  clock : B -> string;
  (** [self.mongo_db[collection].find_one(query)]: the text of the [_id] of
      the document found, if any. *)
  mongo_find_one : string -> doc -> B -> Res (option string) * B;
  (** [self.mongo_db[collection].insert_one(document)]: the text of
      [inserted_id]. *)
  mongo_insert_one : string -> doc -> B -> Res string * B;
  (** [self.mongo_db[collection].update_one(query, update)], by the [$set]
      part of [update]: [matched_count] and [modified_count]. *)
  mongo_update_one : string -> doc -> doc -> B -> Res (Z * Z) * B;
  (** The body of the [try] in [_sqlite_find_one]: the document of the row
      found, if any. *)
  sqlite_select : string -> doc -> B -> Res (option pyval) * B;
  (** The body of the [try] in [_sqlite_insert]: the [id] of the row. *)
  sqlite_insert : string -> doc -> B -> Res pyval * B;
  (** The body of the [try] in [_sqlite_update], by the [$set] part of
      [update]: the row count. *)
  sqlite_update : string -> doc -> doc -> B -> Res Z * B
}.

Section Impl.

Context {B : Type} `{Backend B}.

(** [{'success': False, 'error': str(e)}]. *)
Definition failure (e : exn) : doc :=
  {[ "success" := PBool false; "error" := PStr (exn_msg e) ]}.

(** [Database.is_online]. *)
Definition is_online (st : B) : bool * B :=
  let st' := if negb (connected st) && MONGODB_AVAILABLE
             then _connect_mongodb st else st in
  (connected st', st').

(** [Database._sqlite_find_one]. *)
Definition _sqlite_find_one (collection : string) (query : doc) (st : B) : doc * B :=
  match sqlite_select collection query st with
  | (Ok (Some document), st') =>
      ({[ "success" := PBool true; "document" := document; "online" := PBool false ]},
       st')
  | (Ok None, st') =>
      ({[ "success" := PBool true; "document" := PNone; "online" := PBool false ]},
       st')
  | (Raise e, st') => (failure e, st')
  end.

(** [Database.find_one]. *)
Definition find_one (collection : string) (query : doc) (st : B) : doc * B :=
  let '(online, st) := is_online st in
  if online : bool
  then match mongo_find_one collection query st with
       | (Ok (Some _id), st') =>
           ({[ "success" := PBool true; "document" := PDict true;
               "online" := PBool true ]}, st')
       | (Ok None, st') => _sqlite_find_one collection query st'
       | (Raise e, st') => (failure e, st')
       end
  else _sqlite_find_one collection query st.

(** [Database._sqlite_insert]. *)
Definition _sqlite_insert (collection : string) (document : doc) (st : B) : doc * B :=
  match sqlite_insert collection document st with
  | (Ok id, st') =>
      ({[ "success" := PBool true; "id" := id; "online" := PBool false ]}, st')
  | (Raise e, st') => (failure e, st')
  end.

(** [if 'created_at' not in document: document['created_at'] = ...]. *)
Definition with_created_at (now_ : string) (document : doc) : doc :=
  match document !! "created_at" with
  | Some _ => document
  | None => <["created_at" := PStr now_]> document
  end.

(** [Database.insert_one]. *)
Definition insert_one (collection : string) (document : doc) (st : B) : doc * B :=
  let document := with_created_at (clock st) document in
  let '(online, st) := is_online st in
  if online : bool
  then match mongo_insert_one collection document st with
       | (Ok id, st') =>
           ({[ "success" := PBool true; "id" := PStr id; "online" := PBool true ]},
            st')
       | (Raise e, st') => (failure e, st')
       end
  else _sqlite_insert collection document st.

(** [Database._sqlite_update]; [update_one] passes an [update] that has a
    [$set] part. *)
Definition _sqlite_update (collection : string) (query set_ : doc) (st : B)
  : doc * B :=
  match sqlite_update collection query set_ st with
  | (Ok modified_count, st') =>
      ({[ "success" := PBool true; "matched_count" := PInt modified_count;
          "modified_count" := PInt modified_count; "online" := PBool false ]}, st')
  | (Raise e, st') => (failure e, st')
  end.

(** [Database.update_one], for an [update] of the form [{'$set': set_}]. *)
Definition update_one (collection : string) (query set_ : doc) (st : B) : doc * B :=
  let set_ := <["updated_at" := PStr (clock st)]> set_ in
  let '(online, st) := is_online st in
  if online : bool
  then match mongo_update_one collection query set_ st with
       | (Ok (matched_count, modified_count), st') =>
           ({[ "success" := PBool true; "matched_count" := PInt matched_count;
               "modified_count" := PInt modified_count; "online" := PBool true ]},
            st')
       | (Raise e, st') => (failure e, st')
       end
  else _sqlite_update collection query set_ st.

End Impl.

End Database.

(** [Database] as the remote store of the services: [is_connected] is read
    as an attribute; the result dictionaries of [insert_one] and
    [update_one] are values other than [None]. *)
#[global] Instance Database_store {B : Type} `{Database.Backend B} : RemoteStore B :=
  Build_RemoteStore B
    (fun st => Ok (Database.connected st))
    (fun collection query st =>
       let '(result, st') := Database.find_one collection query st in
       (Ok (Some result), st'))
    (fun collection document st =>
       let '(result, st') := Database.insert_one collection document st in
       (Ok (PDict true), st'))
    (fun collection query set_ st =>
       let '(result, st') := Database.update_one collection query set_ st in
       (Ok (PDict true), st')).

(** The result dictionary of a call: it is not empty, has a [success]
    flag and no [updated_at]. *)
Definition is_result (result : doc) : Prop :=
  size result <> 0%nat /\
  result !! "updated_at" = None /\
  exists b, result !! "success" = Some (PBool b).

(** A backend for concrete runs: MongoDB is connected and has no document,
    its writes raise; the SQLite fallback finds and changes nothing. *)
Module WriteFails.

Definition lost {A} (st : unit) : Res A * unit :=
  (Raise (Exn RemoteError "connection lost"), st).

#[global] Instance backend : Database.Backend unit := {|
  Database.MONGODB_AVAILABLE := true;
  Database.connected := fun _ => true;
  Database._connect_mongodb := fun st => st;
  Database.clock := fun _ => "2024-03-01T12:00:00";
  Database.mongo_find_one := fun _ _ st => (Ok None, st);
  Database.mongo_insert_one := fun _ _ st => lost st;
  Database.mongo_update_one := fun _ _ _ st => lost st;
  Database.sqlite_select := fun _ _ st => (Ok None, st);
  Database.sqlite_insert := fun _ _ st => (Ok PNone, st);
  Database.sqlite_update := fun _ _ _ st => (Ok 0, st)
|}.

(** The store that holds [Scenario.asha], pending and queued, in front of
    that backend. *)
Definition world : World unit := {|
  local_db := local_db Scenario.stored;
  faults := [];
  central := tt;
  online := true;
  server := Scenario.accepting;
  now := Datetime 2024 3 1 12 0 0 0 None;
  epoch := 1709294400;
  uuid4 := "00000000-0000-4000-8000-000000000000";
  db_file_size := 0;
  config := default_config;
  sync_in_progress := false;
  last_sync_time := None
|}.

End WriteFails.

(** ** A remote store that refuses what it is sent

    It holds no document and validates every write: [insert_one] and
    [update_one] raise. *)
Module Refusing.

Inductive t := validator.

Definition invalid {A} (st : t) : Res A * t :=
  (Raise (Exn ValueError "Invalid data format: age is not a number"), st).

#[global] Instance store : RemoteStore t := {
  is_connected _ := Ok true;
  find_one _ _ st := (Ok None, st);
  insert_one _ _ st := invalid st;
  update_one _ _ _ st := invalid st
}.

(** The queue of [Scenario.queued] in front of that store. *)
Definition world : World t := {|
  local_db := Scenario.queued_db;
  faults := [];
  central := validator;
  online := true;
  server := Scenario.accepting;
  now := Datetime 2024 3 1 12 0 0 0 None;
  epoch := 1709294400;
  uuid4 := "00000000-0000-4000-8000-000000000000";
  db_file_size := 0;
  config := default_config;
  sync_in_progress := false;
  last_sync_time := None
|}.

End Refusing.

(** ** The constructors of the model classes *)

Module Models.

Section Impl.

Context {R : Type}.

(** [x or default]. *)
Definition or_else (x default : pyval) : pyval :=
  if truthy x then x else default.

(** [patient_id or str(uuid.uuid4())]. *)
Definition id_or_uuid4 (id : option string) (w : World R) : string :=
  match id with
  | Some s => if String.eqb s "" then uuid4 w else s
  | None => uuid4 w
  end.

(** [Patient.__init__], then [to_dict]: [patient_id], [created_at] and
    [updated_at] have defaults; [fields] holds the other attributes. *)
Definition Patient (fields : doc) (patient_id : option string)
    (created_at updated_at : pyval) : M R OfflineManager.Patient :=
  w ← ask;
  mret {| OfflineManager.patient_id := id_or_uuid4 patient_id w;
          OfflineManager.patient_attrs :=
            <["created_at" := or_else created_at (PDatetime (now w))]>
              (<["updated_at" := or_else updated_at (PDatetime (now w))]> fields) |}.

(** [HealthAssessment.__init__], then [to_dict]: [assessment_id] and
    [assessment_date] have defaults that matter here; [fields] holds the
    other attributes. *)
Definition HealthAssessment (fields : doc) (patient_id : string)
    (assessment_id : option string) (assessment_date : pyval)
  : M R OfflineManager.HealthAssessment :=
  w ← ask;
  mret {| OfflineManager.assessment_id := id_or_uuid4 assessment_id w;
          OfflineManager.assessment_patient_id := patient_id;
          OfflineManager.assessment_attrs :=
            <["assessment_date" := or_else assessment_date (PDatetime (now w))]>
              fields |}.

End Impl.

End Models.

(** ** [SyncService]: the items it stores *)

Module SyncServiceData.

(** What [get_offline_data] returns: [count] and the items, or the error. *)
Inductive offline_data :=
  | Retrieved (count : Z) (data : list SyncData.row)
  | NotRetrieved (error : string).

Section Impl.

Context {R : Type}.

(** [str(v)] for the values whose text the model of values does not
    determine: a dictionary, a [datetime]. *)
Variable str_other : pyval -> string.

(** The attribute [self.sync_enabled]. *)
Variable sync_enabled : bool.

#[local] Abbreviation M := (M R).

(** [str(v)], as an f-string prints [v]. *)
Definition py_str (v : pyval) : string :=
  match v with
  | PStr s => s
  | PInt n => str_int n
  | PBool true => "True"
  | PBool false => "False"
  | PNone => "None"
  | _ => str_other v
  end.

(** [f"{data_type}_{int(time.time())}_{data.get('id', 'new')}"]. *)
Definition new_sync_id (data_type : string) (epoch_ : Z) (data : doc) : string :=
  data_type ++ "_" ++ str_int epoch_ ++ "_" ++
  match data !! "id" with
  | Some v => py_str v
  | None => "new"
  end.

(** The copy of [data] with the four [_sync_] keys. *)
Definition with_metadata (sync_id now_ : string) (data : doc) : doc :=
  <["_sync_id" := PStr sync_id]>
    (<["_sync_modified" := PStr now_]>
       (<["_sync_created" := PStr now_]>
          (<["_sync_status" := PStr "pending"]> data))).

(** [INSERT OR REPLACE INTO sync_data (...) VALUES (...)]: a row with the
    same primary key is deleted first. *)
Definition insert_or_replace (r : SyncData.row) : LocalDb -> LocalDb :=
  with_sync_data (fun l =>
    (List.filter (fun x => negb (String.eqb (SyncData.sync_id x) (SyncData.sync_id r))) l
     ++ [r])%list).

Definition saved (sync_id : string) : doc :=
  {[ "success" := PBool true;
     "sync_id" := PStr sync_id;
     "message" := PStr "Data saved for synchronization" ]}.

Definition not_saved (e : exn) : doc :=
  {[ "success" := PBool false;
     "error" := PStr ("Failed to save offline data: " ++ exn_msg e) ]}.

(** [SyncService.save_offline_data]. *)
Definition save_offline_data (data_type : string) (data : doc) : M doc :=
  try_except
    (w ← ask;
     let now_ := Iso.isoformat (now w) in
     let sync_id := new_sync_id data_type (epoch w) data in
     let sync_data := with_metadata sync_id now_ data in
     c ← connect;
     data_json ← lift (json_dumps sync_data);
     c ← execute c no_check
           (insert_or_replace
              (SyncData.Row sync_id data_type data_json "pending" now_ now_));
     commit c;;
     mret (saved sync_id))
    (fun e => mret (not_saved e)).

(** [if data_type:] on an optional text. *)
Definition given (s : option string) : option string :=
  match s with
  | Some x => if String.eqb x "" then None else Some x
  | None => None
  end.

(** [SELECT * FROM sync_data WHERE 1=1 [AND data_type = ?] [AND sync_id = ?]]. *)
Definition select_offline_data (data_type sync_id : option string) (db : LocalDb)
  : list SyncData.row :=
  List.filter
    (fun r =>
       match given data_type with
       | Some t => String.eqb (SyncData.data_type r) t
       | None => true
       end &&
       match given sync_id with
       | Some s => String.eqb (SyncData.sync_id r) s
       | None => true
       end)
    (sync_data_table db).

(** The loop of [get_offline_data] over the rows, with its [json.loads]. *)
Fixpoint loaded (rows : list SyncData.row) : Res (list SyncData.row) :=
  match rows with
  | [] => Ok []
  | r :: rest =>
      match json_loads (SyncData.data r) with
      | Raise e => Raise e
      | Ok data =>
          match loaded rest with
          | Raise e => Raise e
          | Ok results =>
              Ok (SyncData.Row (SyncData.sync_id r) (SyncData.data_type r) data
                    (SyncData.status r) (SyncData.created_at r)
                    (SyncData.modified_at r) :: results)
          end
      end
  end.

(** [SyncService.get_offline_data]. *)
Definition get_offline_data (data_type sync_id : option string) : M offline_data :=
  try_except
    (c ← connect;
     rows ← query c (select_offline_data data_type sync_id);
     results ← lift (loaded rows);
     mret (Retrieved (Z.of_nat (List.length results)) results))
    (fun e => mret (NotRetrieved ("Failed to retrieve offline data: " ++ exn_msg e))).

(** [SELECT status, COUNT( * ) FROM sync_data GROUP BY status], then
    [status_counts.get(st, 0)]. *)
Definition status_count (st : string) (db : LocalDb) : Z :=
  Z.of_nat (List.length
    (List.filter (fun r => String.eqb (SyncData.status r) st) (sync_data_table db))).

(** [MAX] and [MIN] of a TEXT column; NULL on no row. *)
Definition text_max (l : list string) : pyval :=
  match l with
  | [] => PNone
  | x :: rest => PStr (fold_left (fun m y => if String.ltb m y then y else m) rest x)
  end.

Definition text_min (l : list string) : pyval :=
  match l with
  | [] => PNone
  | x :: rest => PStr (fold_left (fun m y => if String.ltb y m then y else m) rest x)
  end.

(** [SELECT MAX(modified_at) FROM sync_data WHERE status = 'synced']. *)
Definition last_sync (db : LocalDb) : pyval :=
  text_max (map SyncData.modified_at
    (List.filter (fun r => String.eqb (SyncData.status r) "synced")
       (sync_data_table db))).

(** [SELECT MIN(created_at) FROM sync_data WHERE status = 'pending']. *)
Definition oldest_pending (db : LocalDb) : pyval :=
  text_min (map SyncData.created_at
    (List.filter (fun r => String.eqb (SyncData.status r) "pending")
       (sync_data_table db))).

(** [SyncService.get_sync_status]. *)
Definition get_sync_status : M doc :=
  try_except
    (c ← connect;
     status_counts ← query c (fun db st => status_count st db);
     last_sync_ ← query c last_sync;
     oldest_pending_ ← query c oldest_pending;
     is_online ← SyncService._is_online;
     mret {[ "success" := PBool true;
             "is_online" := PBool is_online;
             "pending_count" := PInt (status_counts "pending");
             "synced_count" := PInt (status_counts "synced");
             "failed_count" := PInt (status_counts "failed");
             "last_sync" := last_sync_;
             "oldest_pending" := oldest_pending_;
             "sync_enabled" := PBool sync_enabled ]})
    (fun e => mret {[ "success" := PBool false;
                      "error" := PStr ("Failed to get sync status: " ++ exn_msg e) ]}).

End Impl.

End SyncServiceData.

(** ** Further vocabulary: the table of [SyncService] *)

Section ItemVocabulary.

Context {R : Type}.

(** The exchange with the server succeeds for [r]. *)
Definition accepted (w : World R) (r : SyncData.row) : bool :=
  match server w (SyncData.data_type r) (SyncService.clean (SyncData.data r)) with
  | None => true
  | Some _ => false
  end.

End ItemVocabulary.

(** Every row carries one of the three statuses the service writes. *)
Definition known_statuses (db : LocalDb) : Prop :=
  forall r, In r (sync_data_table db) ->
    SyncData.status r = "pending" \/ SyncData.status r = "synced" \/
    SyncData.status r = "failed".

(** ** Further concrete inputs *)

Module Cases.

(** [Scenario.asha] after a change of name. *)
Definition asha_renamed : OfflineManager.Patient := {|
  OfflineManager.patient_id := "p1";
  OfflineManager.patient_attrs :=
    {[ "name" := PStr "Asha Devi"; "updated_at" := PStr "2024-03-01T12:00:00" ]}
|}.

(** The store after [asha] was saved while the queue insert failed. *)
Definition saved_unqueued : World MemoryStore.t :=
  set_faults [] (run (SavePatient Scenario.asha) Scenario.enqueue_fails).

(** A patient whose [created_at] is a [datetime]. *)
Definition dated : OfflineManager.Patient := {|
  OfflineManager.patient_id := "p1";
  OfflineManager.patient_attrs :=
    {[ "name" := PStr "Asha";
       "created_at" := PDatetime (Datetime 2024 3 1 12 0 0 0 None) ]}
|}.

(** An assessment of patient [p1], and the same assessment naming [p2]. *)
Definition visit : OfflineManager.HealthAssessment := {|
  OfflineManager.assessment_id := "a1";
  OfflineManager.assessment_patient_id := "p1";
  OfflineManager.assessment_attrs := {[ "severity" := PStr "Low" ]}
|}.

Definition visit_moved : OfflineManager.HealthAssessment := {|
  OfflineManager.assessment_id := "a1";
  OfflineManager.assessment_patient_id := "p2";
  OfflineManager.assessment_attrs := {[ "severity" := PStr "High" ]}
|}.

Definition visited : World MemoryStore.t :=
  set_faults [] (run (SaveAssessment visit) Scenario.enqueue_fails).

Definition visit_row : Assessments.row :=
  Assessments.Row "a1" "p1" (OfflineManager.HealthAssessment_to_dict visit)
    "2024-03-01T12:00:00" 0.

(** A queue entry of a type the pass does not know. *)
Definition stray : SyncQueue.row :=
  SyncQueue.Row "resource_r1_1709294400" "resource" "r1" ∅ 1
    "2024-03-01T12:00:00" 0 None None.

Definition strayed : World MemoryStore.t :=
  Scenario.world (with_queue (fun _ => [stray]) empty_db) [] true true
    Scenario.accepting 0 false.

(** The store that holds [Scenario.asha], pending and queued, while the
    remote store is not connected. *)
Definition cut_off : World MemoryStore.t :=
  Scenario.world (local_db Scenario.stored) [] false true Scenario.accepting 0 false.

(** The same store while the remote store holds a later version. *)
Definition remote_version : doc :=
  stamped "2024-06-01T00:00:00"
    {[ "patient_id" := PStr "p1"; "name" := PStr "Asha Kumari" ]}.

Definition remote_ahead : World MemoryStore.t :=
  set_central (MemoryStore.Build_t true [("patients", remote_version)])
    (Scenario.world (local_db Scenario.stored) [] true true Scenario.accepting 0 false).

(** An old synced patient whose only assessment is old and pending; the
    cutoff is 2024-01-31T12:00:00. *)
Definition old_patient : Patients.row :=
  Patients.Row "p1" ∅ "2023-12-01T09:00:00" "2023-12-01T09:00:00" 1.

Definition old_pending_visit : Assessments.row :=
  Assessments.Row "a1" "p1" ∅ "2023-12-02T09:00:00" 0.

Definition orphaning : World MemoryStore.t :=
  Scenario.world
    {| patients := [old_patient];
       health_assessments := [old_pending_visit];
       sync_queue := [];
       sync_data_table := [] |}
    [] true true Scenario.accepting 0 false.

(** One pending item, with connectivity. *)
Definition pending_online : World MemoryStore.t :=
  Scenario.world Scenario.pending_db [] true true Scenario.accepting 0 false.

(** What the constructors of the model classes build at the clock of
    [Scenario.world0] when no timestamp is passed. *)
Definition constructed_patient : OfflineManager.Patient := {|
  OfflineManager.patient_id := "p1";
  OfflineManager.patient_attrs :=
    <["created_at" := PDatetime (Datetime 2024 3 1 12 0 0 0 None)]>
      (<["updated_at" := PDatetime (Datetime 2024 3 1 12 0 0 0 None)]>
         {[ "name" := PStr "Asha" ]})
|}.

Definition constructed_visit : OfflineManager.HealthAssessment := {|
  OfflineManager.assessment_id := "a1";
  OfflineManager.assessment_patient_id := "p1";
  OfflineManager.assessment_attrs :=
    <["assessment_date" := PDatetime (Datetime 2024 3 1 12 0 0 0 None)]>
      {[ "severity" := PStr "Low" ]}
|}.

(** One failed item, and no connectivity. *)
Definition failed_offline : World MemoryStore.t :=
  Scenario.world
    (with_sync_data
       (fun _ => [failed_row Scenario.item "2024-02-29T12:00:00"]) empty_db)
    [] false false Scenario.accepting 0 false.

(** Two new records without an [id]. *)
Definition first_record : doc := {[ "name" := PStr "Asha" ]}.

Definition second_record : doc := {[ "name" := PStr "Bina" ]}.

(** The text of a value that the model of values does not determine. *)
Definition no_text : pyval -> string := fun _ => "".

End Cases.

(** * Properties *)

Arguments OfflineManager.recent_patient_ids : simpl never.
Arguments OfflineManager.delete_old_assessments : simpl never.
Arguments OfflineManager.delete_old_patients : simpl never.
Arguments OfflineManager.delete_old_patients_except : simpl never.
Arguments SyncService.clean : simpl never.
Arguments SyncService.contains : simpl never.
Arguments SyncService.lower : simpl never.
Arguments Iso.isoformat : simpl never.

(** Unfolds the monad down to the fault schedule. *)
Ltac run_monad :=
  unfold try_except, try_finally, connect, query, execute, commit, no_check,
    mbind, M_bind, bind, mret, M_ret, ret, ask, lift, modify, raise,
    sqlite_call; cbn.

(** Splits on the fault schedule wherever a [sqlite3] call consults it. *)
Ltac fault_cases :=
  repeat (cbn; match goal with
   | Hf : faults ?w = _ |- context [faults ?w] => rewrite Hf
   | |- context [match faults ?w with _ => _ end] =>
       let Hf := fresh "Hf" in destruct (faults w) as [|[] ?] eqn:Hf
   | |- context [match ?fs with [] => _ | _ :: _ => _ end] =>
       is_var fs; destruct fs as [|[] ?]
   end).

(** ** The conflict resolver *)

Section ConflictResolver.

Lemma get_stamped s rest : get (stamped s rest) "updated_at" = PStr s.
Proof. unfold get, stamped. by rewrite lookup_insert_eq. Qed.

(** Two texts that [fromisoformat] reads as naive datetimes: the local
    version is used exactly when it is strictly later. *)
Lemma resolve_conflict_naive record_type sc sl dc dl restc restl :
  Iso.fromisoformat (Iso.replace_Z sc) = Some dc ->
  Iso.fromisoformat (Iso.replace_Z sl) = Some dl ->
  tzinfo dc = None -> tzinfo dl = None ->
  _resolve_conflict record_type (stamped sc restc) (stamped sl restl)
  = (Calendar.civil_us dc <? Calendar.civil_us dl).
Proof.
  intros Hc Hl Tc Tl.
  unfold _resolve_conflict, resolve_conflict_body.
  rewrite !get_stamped. cbn [truthy parse_if_str].
  assert (Nc : sc <> "") by (intros ->; discriminate Hc).
  assert (Nl : sl <> "") by (intros ->; discriminate Hl).
  apply String.eqb_neq in Nc, Nl. rewrite Nc, Nl. cbn [negb orb].
  rewrite Hc, Hl. cbn [py_gt]. unfold datetime_gt. by rewrite Tc, Tl.
Qed.

(** A missing or falsy timestamp on either side: the local version is used. *)
Lemma resolve_conflict_missing record_type central_data local_data :
  truthy (get central_data "updated_at") = false \/
  truthy (get local_data "updated_at") = false ->
  _resolve_conflict record_type central_data local_data = true.
Proof.
  intros Hm. unfold _resolve_conflict, resolve_conflict_body.
  destruct Hm as [-> | ->]; cbn [negb orb]; [done|].
  by rewrite orb_true_r.
Qed.

(** A text that [fromisoformat] refuses, on either side: the local version
    is used. *)
Lemma resolve_conflict_unparseable record_type sc sl restc restl :
  Iso.fromisoformat (Iso.replace_Z sc) = None \/
  Iso.fromisoformat (Iso.replace_Z sl) = None ->
  _resolve_conflict record_type (stamped sc restc) (stamped sl restl) = true.
Proof.
  intros Hu. unfold _resolve_conflict, resolve_conflict_body.
  rewrite !get_stamped. cbn [truthy parse_if_str].
  destruct (negb (negb (sc =? "")%string) || negb (negb (sl =? "")%string));
    [done|].
  destruct Hu as [-> | Hl]; [done|].
  destruct (Iso.fromisoformat (Iso.replace_Z sc)); [|done].
  by rewrite Hl.
Qed.

(** C1 (the code departs from the claim).  Local and remote carry the same
    [updated_at], 2024-01-01T00:00:00, and differ in another field:
    [_resolve_conflict] answers [False], the remote version is kept, where
    the claim has the tie go to the local version. *)
Theorem resolve_conflict_tie_keeps_remote :
  _resolve_conflict "patient"
    (stamped "2024-01-01T00:00:00" {[ "name" := PStr "Asha" ]})
    (stamped "2024-01-01T00:00:00" {[ "name" := PStr "Asha Devi" ]})
  = false.
Proof.
  erewrite resolve_conflict_naive; [| reflexivity..]. reflexivity.
Qed.

End ConflictResolver.

(** ** The order of the batch *)

Section OrderByFacts.

Context {A : Type} (leb : A -> A -> bool).

Lemma insert_row_Permutation (x : A) (rows : list A) :
  Permutation (x :: rows) (insert_row leb x rows).
Proof.
  induction rows as [|y rows IH]; cbn; [done|].
  destruct (leb x y); [done|].
  etransitivity; [apply perm_swap|]. by constructor.
Qed.

Lemma order_by_Permutation (rows : list A) :
  Permutation rows (order_by leb rows).
Proof.
  induction rows as [|x rows IH]; cbn; [done|].
  etransitivity; [|apply insert_row_Permutation]. by constructor.
Qed.

Lemma insert_row_sorted (x : A) (rows : list A) :
  (forall a b, leb a b = true \/ leb b a = true) ->
  Transitive (fun a b => is_true (leb a b)) ->
  StronglySorted (fun a b => is_true (leb a b)) rows ->
  StronglySorted (fun a b => is_true (leb a b)) (insert_row leb x rows).
Proof.
  intros Htotal Htrans Hs.
  induction Hs as [|y rows Hs IH Hy]; cbn; [repeat constructor|].
  destruct (leb x y) eqn:Hxy.
  - constructor; [by constructor|]. constructor; [exact Hxy|].
    eapply List.Forall_impl; [|exact Hy]. intros b Hyb.
    eapply Htrans; [exact Hxy|exact Hyb].
  - constructor; [exact IH|].
    eapply Permutation_Forall; [apply insert_row_Permutation|].
    constructor; [|exact Hy].
    destruct (Htotal x y) as [Hle|Hle]; [congruence|exact Hle].
Qed.

Lemma order_by_sorted (rows : list A) :
  (forall a b, leb a b = true \/ leb b a = true) ->
  Transitive (fun a b => is_true (leb a b)) ->
  StronglySorted (fun a b => is_true (leb a b)) (order_by leb rows).
Proof.
  intros Htotal Htrans. induction rows as [|x rows IH]; cbn; [constructor|].
  by apply insert_row_sorted.
Qed.

Lemma precedes_cons (a b x : A) (l : list A) :
  precedes a b l -> precedes a b (x :: l).
Proof. intros (l1 & l2 & l3 & ->). by exists (x :: l1), l2, l3. Qed.

Lemma precedes_head (a b : A) (l : list A) :
  In b l -> precedes a b (a :: l).
Proof.
  intros Hin. apply in_split in Hin as (l2 & l3 & ->). by exists [], l2, l3.
Qed.

Lemma precedes_inv (a b x : A) (l : list A) :
  precedes a b (x :: l) -> (a = x /\ In b l) \/ precedes a b l.
Proof.
  intros (l1 & l2 & l3 & Heq). destruct l1 as [|y l1]; cbn in Heq.
  - injection Heq as Hx Hl. subst. left. split; [done|].
    apply in_or_app. right. by left.
  - injection Heq as Hx Hl. subst. right. by exists l1, l2, l3.
Qed.

Lemma precedes_In_l (a b : A) (l : list A) : precedes a b l -> In a l.
Proof.
  intros (l1 & l2 & l3 & ->). apply in_or_app. right. by left.
Qed.

Lemma precedes_In_r (a b : A) (l : list A) : precedes a b l -> In b l.
Proof.
  intros (l1 & l2 & l3 & ->). apply in_or_app. right. right.
  apply in_or_app. right. by left.
Qed.

Lemma precedes_firstn (a b : A) (n : nat) (l : list A) :
  precedes a b (firstn n l) -> precedes a b l.
Proof.
  intros (l1 & l2 & l3 & Heq). exists l1, l2, (l3 ++ skipn n l)%list.
  rewrite <- (firstn_skipn n l) at 1. rewrite Heq.
  rewrite <- app_assoc. cbn. by rewrite <- app_assoc.
Qed.

(** A row that stands before [b] after the insertion of [x] stood before
    it already, or is [x]; and [x] is put behind a row only if it comes
    after that row in the order. *)
Lemma insert_row_precedes (a b x : A) (rows : list A) :
  precedes a b (insert_row leb x rows) ->
  (a = x /\ In b rows) \/ (b = x /\ leb x a = false) \/ precedes a b rows.
Proof.
  induction rows as [|y rows IH]; cbn.
  - intros Hp. apply precedes_inv in Hp as [[_ []]|(l1 & l2 & l3 & Heq)].
    by destruct l1.
  - destruct (leb x y) eqn:Hxy; intros Hp.
    + apply precedes_inv in Hp as [[-> Hin]|Hp]; [by left|by right; right].
    + apply precedes_inv in Hp as [[-> Hin]|Hp].
      * eapply Permutation_in in Hin;
          [|apply Permutation_sym, insert_row_Permutation].
        destruct Hin as [<-|Hin]; [right; left; by split|].
        right; right. by apply precedes_head.
      * destruct (IH Hp) as [[-> Hin]|[Hb|Hp']].
        -- left. split; [done|by right].
        -- by right; left.
        -- right; right. by apply precedes_cons.
Qed.

(** [ORDER BY] is stable: of two rows that tie, the one that stands first
    in the result stood first in the table. *)
Lemma order_by_stable (a b : A) (rows : list A) :
  precedes a b (order_by leb rows) -> leb b a = true -> precedes a b rows.
Proof.
  intros Hp Hba. induction rows as [|x rows IH]; cbn in Hp.
  - destruct Hp as (l1 & l2 & l3 & Heq). by destruct l1.
  - apply insert_row_precedes in Hp as [[-> Hin]|[[-> Hxa]|Hp]].
    + apply precedes_head. eapply Permutation_in; [|exact Hin].
      apply Permutation_sym, order_by_Permutation.
    + congruence.
    + by apply precedes_cons, IH.
Qed.

End OrderByFacts.

Section DequeueOrder.

Context {R : Type} `{RemoteStore R}.

Lemma ascii_compare_cases (x y : ascii) :
  (Ascii.compare x y = Lt /\ (N_of_ascii x < N_of_ascii y)%N) \/
  (Ascii.compare x y = Eq /\ N_of_ascii x = N_of_ascii y) \/
  (Ascii.compare x y = Gt /\ (N_of_ascii y < N_of_ascii x)%N).
Proof.
  unfold Ascii.compare.
  destruct (N.compare_spec (N_of_ascii x) (N_of_ascii y)); auto.
Qed.

Lemma string_compare_trans (a b c : string) :
  String.compare a b <> Gt -> String.compare b c <> Gt ->
  String.compare a c <> Gt.
Proof.
  revert b c. induction a as [|x a IH]; intros [|y b] [|z c]; simpl;
    try congruence.
  destruct (ascii_compare_cases x y) as [[-> Hxy]|[[-> Hxy]|[-> Hxy]]];
  destruct (ascii_compare_cases y z) as [[-> Hyz]|[[-> Hyz]|[-> Hyz]]];
  destruct (ascii_compare_cases x z) as [[-> Hxz]|[[-> Hxz]|[-> Hxz]]];
    try congruence; try lia.
  apply IH.
Qed.

Lemma string_leb_trans (a b c : string) :
  String.leb a b = true -> String.leb b c = true -> String.leb a c = true.
Proof.
  unfold String.leb. intros Hab Hbc.
  pose proof (string_compare_trans a b c) as Ht.
  destruct (String.compare a b), (String.compare b c), (String.compare a c);
    try done; exfalso; apply Ht; congruence.
Qed.

Lemma queue_leb_iff (a b : SyncQueue.row) :
  QueueOrder.leb a b = true <-> queue_before a b.
Proof.
  unfold QueueOrder.leb, queue_before.
  destruct (Z.ltb_spec (SyncQueue.priority b) (SyncQueue.priority a));
    [intuition lia|].
  destruct (Z.ltb_spec (SyncQueue.priority a) (SyncQueue.priority b));
    [intuition (try lia; discriminate)|].
  destruct (Z.ltb_spec (SyncQueue.retry_count a) (SyncQueue.retry_count b));
    [intuition lia|].
  destruct (Z.ltb_spec (SyncQueue.retry_count b) (SyncQueue.retry_count a));
    [intuition (try lia; discriminate)|].
  intuition lia.
Qed.

Lemma queue_before_trans (a b c : SyncQueue.row) :
  queue_before a b -> queue_before b c -> queue_before a c.
Proof.
  unfold queue_before. intros Hab Hbc.
  destruct Hab as [?|[? [?|[? Hs1]]]], Hbc as [?|[? [?|[? Hs2]]]];
    try (left; lia); try (right; split; [lia|left; lia]).
  right. split; [lia|]. right. split; [lia|].
  eapply string_leb_trans; eassumption.
Qed.

Lemma queue_leb_transitive :
  Transitive (fun a b => is_true (QueueOrder.leb a b)).
Proof.
  intros a b c Hab Hbc. unfold is_true in *.
  rewrite queue_leb_iff in *. eapply queue_before_trans; eassumption.
Qed.

Lemma StronglySorted_firstn {A} (P : A -> A -> Prop) (n : nat) (l : list A) :
  StronglySorted P l -> StronglySorted P (firstn n l).
Proof.
  intros Hs. revert n. induction Hs as [|x l Hs IH Hx]; intros [|n]; simpl;
    try constructor.
  - apply IH.
  - by apply Forall_take.
Qed.

Lemma StronglySorted_impl {A} (P Q : A -> A -> Prop) (l : list A) :
  (forall a b, P a b -> Q a b) -> StronglySorted P l -> StronglySorted Q l.
Proof.
  intros HPQ Hs. induction Hs as [|x l Hs IH Hx]; constructor; [done|].
  eapply List.Forall_impl; [|exact Hx]. intros; by apply HPQ.
Qed.

(** What the SELECT returns is in batch order, and a limit that is not
    negative bounds its length. *)
Lemma select_sync_queue_sorted (limit : Z) (db : LocalDb) :
  StronglySorted queue_before (select_sync_queue limit db).
Proof.
  unfold select_sync_queue, sql_limit.
  assert (Hs : StronglySorted queue_before
                 (order_by (A := SyncQueue.row) QueueOrder.leb (sync_queue db))).
  { eapply StronglySorted_impl;
      [|apply order_by_sorted;
        [apply QueueOrder.leb_total|apply queue_leb_transitive]].
    intros a b Hab. by apply queue_leb_iff. }
  destruct (limit <? 0); [done|]. by apply StronglySorted_firstn.
Qed.

Lemma select_sync_queue_length (limit : Z) (db : LocalDb) :
  0 <= limit -> Z.of_nat (List.length (select_sync_queue limit db)) <= limit.
Proof.
  intros Hl. unfold select_sync_queue, sql_limit.
  destruct (Z.ltb_spec limit 0); [lia|].
  pose proof (firstn_le_length (Z.to_nat limit)
                (order_by (A := SyncQueue.row) QueueOrder.leb (sync_queue db))).
  lia.
Qed.

(** What [_get_sync_queue_records] returns: the SELECT of the committed
    queue, or the empty list when [sqlite3] raised. *)
Lemma get_sync_queue_records_cases (limit : Z) (w : World R) :
  exists w',
    (OfflineManager._get_sync_queue_records limit w
       = (Ok (select_sync_queue limit (local_db w)), w') \/
     OfflineManager._get_sync_queue_records limit w = (Ok [], w')) /\
    local_db w' = local_db w /\
    sync_in_progress w' = sync_in_progress w.
Proof.
  unfold OfflineManager._get_sync_queue_records, try_except, connect, query,
    mbind, M_bind, bind, mret, M_ret, ret, ask, sqlite_call.
  destruct (faults w) as [|[] fs] eqn:Hf; cbn; rewrite ?Hf; cbn; eauto 6.
  destruct fs as [|[] fs]; cbn; eauto 6.
Qed.

(** Of two entries with the same sort keys, the one that stands first in
    the SELECT was inserted first. *)
Lemma select_sync_queue_stable (limit : Z) (db : LocalDb) (a b : SyncQueue.row) :
  precedes a b (select_sync_queue limit db) -> same_keys a b ->
  precedes a b (sync_queue db).
Proof.
  intros Hp (Hprio & Hretry & Hcreated).
  apply (order_by_stable QueueOrder.leb).
  - unfold select_sync_queue, sql_limit in Hp.
    destruct (limit <? 0); [exact Hp|]. by eapply precedes_firstn.
  - apply queue_leb_iff. right. split; [done|]. right. split; [done|].
    rewrite Hcreated.
    by destruct (String.leb_total (SyncQueue.created_at b) (SyncQueue.created_at b)).
Qed.

(** C2.  For every state of the queue and every limit that is not negative,
    [_get_sync_queue_records] returns a batch that is sorted by priority
    descending, then by retry count ascending, then by [created_at]
    ascending; entries that tie on all three keys stand in the order of
    their insertion; and the batch has at most [limit] entries. *)
Theorem dequeue_batch_sorted_and_bounded (limit : Z) (w : World R) :
  0 <= limit ->
  exists rows w',
    OfflineManager._get_sync_queue_records limit w = (Ok rows, w') /\
    StronglySorted queue_before rows /\
    (forall a b, precedes a b rows -> same_keys a b ->
                 precedes a b (sync_queue (local_db w))) /\
    Z.of_nat (List.length rows) <= limit.
Proof.
  intros Hlimit.
  destruct (get_sync_queue_records_cases limit w) as (w' & [Hr|Hr] & _).
  - eexists _, w'. split; [exact Hr|]. split; [apply select_sync_queue_sorted|].
    split; [apply select_sync_queue_stable|by apply select_sync_queue_length].
  - exists [], w'. split; [exact Hr|]. split; [constructor|].
    split; [|cbn; lia].
    intros a b (l1 & l2 & l3 & Heq). by destruct l1.
Qed.

End DequeueOrder.

(** C2 on a queue of three entries, two of them tied, with the limit 50 of
    the caller. *)
Lemma dequeue_batch_sorted_and_bounded_witness :
  0 <= 50 /\
  exists rows w',
    OfflineManager._get_sync_queue_records 50 Scenario.tied = (Ok rows, w') /\
    StronglySorted queue_before rows /\
    (forall a b, precedes a b rows -> same_keys a b ->
                 precedes a b (sync_queue (local_db Scenario.tied))) /\
    Z.of_nat (List.length rows) <= 50.
Proof.
  split; [lia|].
  apply (dequeue_batch_sorted_and_bounded 50 Scenario.tied). lia.
Defined.

(** On that queue the batch is the two patients in the order of their
    insertion, then the assessment. *)
Lemma tied_entries_leave_in_insertion_order :
  fst (OfflineManager._get_sync_queue_records 50 Scenario.tied)
    = Ok [Scenario.entry; Scenario.second_entry; Scenario.visit_entry].
Proof. vm_compute. reflexivity. Qed.

(** ** The single-flight gate and the connectivity check *)

Section SyncGate.

Context {R : Type} `{RemoteStore R}.

Lemma set_sync_in_progress_same (w : World R) :
  set_sync_in_progress (sync_in_progress w) w = w.
Proof. by destruct w. Qed.

Lemma set_sync_in_progress_twice (a b : bool) (w : World R) :
  set_sync_in_progress a (set_sync_in_progress b w) = set_sync_in_progress a w.
Proof. by destruct w. Qed.

(** The probe reads the connection attribute and leaves the world alone. *)
Lemma check_connectivity_pure (w : World R) :
  exists b, OfflineManager._check_connectivity w = (Ok b, w).
Proof.
  unfold OfflineManager._check_connectivity, OfflineManager.db_is_connected,
    try_except, mbind, M_bind, bind, ask, lift, mret, M_ret, ret.
  cbn. destruct (is_connected (central w)); eauto.
Qed.

(** [try: ... except Exception] with a handler that returns: no exception
    leaves it. *)
Lemma try_except_returns {A} (m : M R A) (h : exn -> A) (w : World R) :
  exists a w', try_except m (fun e => mret (h e)) w = (Ok a, w').
Proof.
  unfold try_except. destruct (m w) as [[a|e] w']; cbn; eauto.
Qed.

(** C3.  With the in-progress flag set, [sync_data] returns the "Sync
    already in progress" result at once and leaves the world as it was: no
    queue entry is touched and no retry count incremented. *)
Theorem sync_in_progress_returns_immediately (w : World R) :
  sync_in_progress w = true ->
  OfflineManager.sync_data w = (Ok OfflineManager.already_in_progress, w) /\
  get OfflineManager.already_in_progress "message"
    = PStr "Sync already in progress".
Proof.
  intros Hflag. split; [|reflexivity].
  unfold OfflineManager.sync_data, mbind, M_bind, bind, ask. cbn.
  by rewrite Hflag.
Qed.

(** C10.  A call of [sync_data] that finds the flag clear, and so sets it,
    returns a result (it never raises) with the flag clear again, whatever
    the remote store, the storage faults and the queue. *)
Theorem sync_gate_released (w : World R) :
  sync_in_progress w = false ->
  exists result w',
    OfflineManager.sync_data w = (Ok result, w') /\
    sync_in_progress w' = false.
Proof.
  intros Hflag.
  unfold OfflineManager.sync_data, mbind, M_bind, bind, ask. cbn.
  rewrite Hflag. cbn. unfold try_finally.
  match goal with
  | |- context [try_except ?m (fun e => mret (OfflineManager.sync_error e)) ?w0] =>
      destruct (try_except_returns m OfflineManager.sync_error w0)
        as (a & w' & Hrun)
  end.
  unfold mret, M_ret in Hrun |- *. rewrite Hrun. cbn.
  eexists _, _. split; [reflexivity|]. by destruct w'.
Qed.

End SyncGate.

(** C3 on a store with one queued entry and a pass in flight. *)
Lemma sync_in_progress_returns_immediately_witness :
  sync_in_progress Scenario.busy = true /\
  OfflineManager.sync_data Scenario.busy
    = (Ok OfflineManager.already_in_progress, Scenario.busy).
Proof.
  split; [reflexivity|].
  apply (sync_in_progress_returns_immediately Scenario.busy). reflexivity.
Defined.

(** C10 on a connected store with one queued entry. *)
Lemma sync_gate_released_witness :
  sync_in_progress Scenario.queued = false /\
  exists result w',
    OfflineManager.sync_data Scenario.queued = (Ok result, w') /\
    sync_in_progress w' = false.
Proof.
  split; [reflexivity|].
  apply (sync_gate_released Scenario.queued). reflexivity.
Defined.

(** ** A pass without connectivity *)

Section OfflinePass.

Context {R : Type} `{RemoteStore R}.

(** C7, as amended.  When the connectivity probe reports offline, a pass of
    [OfflineManager.sync_data] (gate free) and a pass of
    [SyncService.sync_data] without [force] return at once with
    [success = False] and leave the whole world, every queue entry
    included, as it was.  The first result counts zero synced records and
    carries no failed count; the second carries an error and no count. *)
Theorem offline_pass_changes_nothing (w : World R) :
  sync_in_progress w = false ->
  OfflineManager._check_connectivity w = (Ok false, w) ->
  online w = false ->
  (OfflineManager.sync_data w = (Ok OfflineManager.no_connectivity, w) /\
   OfflineManager.no_connectivity !! "success" = Some (PBool false) /\
   OfflineManager.no_connectivity !! "synced_records" = Some (PInt 0) /\
   OfflineManager.no_connectivity !! "failed_records" = None) /\
  (SyncService.sync_data false w = (Ok SyncService.no_internet, w) /\
   SyncService.no_internet !! "success" = Some (PBool false) /\
   SyncService.no_internet !! "synced" = None /\
   SyncService.no_internet !! "failed" = None).
Proof.
  intros Hflag Hprobe Honline. split; (split; [|repeat split; reflexivity]).
  - unfold OfflineManager.sync_data, mbind, M_bind, bind, ask. cbn.
    rewrite Hflag. cbn. unfold try_finally, try_except.
    assert (Hp : OfflineManager._check_connectivity (set_sync_in_progress true w)
                 = (Ok false, set_sync_in_progress true w)).
    { revert Hprobe.
      unfold OfflineManager._check_connectivity, OfflineManager.db_is_connected,
        try_except, mbind, M_bind, bind, ask, lift, mret, M_ret, ret. cbn.
      destruct (is_connected (central w)) as [[]|]; intros [=]; reflexivity. }
    rewrite Hp. cbn. rewrite !set_sync_in_progress_twice.
    by rewrite <- Hflag, set_sync_in_progress_same.
  - unfold SyncService.sync_data, SyncService._is_online, mbind, M_bind, bind,
      ask, mret, M_ret, ret. cbn. by rewrite Honline.
Qed.

End OfflinePass.

(** C7, as amended, on a store without connectivity. *)
Lemma offline_pass_changes_nothing_witness :
  sync_in_progress Scenario.offline = false /\
  OfflineManager._check_connectivity Scenario.offline = (Ok false, Scenario.offline) /\
  online Scenario.offline = false /\
  OfflineManager.sync_data Scenario.offline
    = (Ok OfflineManager.no_connectivity, Scenario.offline) /\
  SyncService.sync_data false Scenario.offline
    = (Ok SyncService.no_internet, Scenario.offline).
Proof.
  split; [reflexivity|]. split; [reflexivity|]. split; [reflexivity|].
  destruct (offline_pass_changes_nothing Scenario.offline)
    as [[Hmanager _] [Hservice _]]; [reflexivity..|].
  split; assumption.
Defined.

(** C7, the claim as stated fails.  [SyncService.sync_data] with
    [force=True], the call the administration route makes, skips the
    connectivity probe: without connectivity the pass runs, reports one
    synced record and changes the pending item to synced. *)
Lemma forced_pass_runs_without_connectivity :
  online Scenario.offline = false /\
  fst (SyncService.sync_data true Scenario.offline)
    = Ok (SyncService.synchronization_completed 1 0) /\
  map SyncData.status (sync_data_table (local_db Scenario.offline))
    = ["pending"] /\
  map SyncData.status
    (sync_data_table (local_db (snd (SyncService.sync_data true Scenario.offline))))
    = ["synced"].
Proof. repeat split; vm_compute; reflexivity. Qed.

(** ** Saving a record and its queue entry *)

Section Save.


(** C5 (the code departs from the claim).  One save whose queue insert
    raises reaches a state with a pending patient and an empty queue. *)
Theorem pending_record_without_queue_entry :
  let w := run (SavePatient Scenario.asha) Scenario.enqueue_fails in
  reachable w /\
  map Patients.synced (patients (local_db w)) = [0] /\
  sync_queue (local_db w) = [] /\
  ~ pending_records_queued (local_db w).
Proof.
  cbv zeta. split; [|split; [|split]].
  - apply reachable_step, reachable_init; reflexivity.
  - vm_compute. reflexivity.
  - vm_compute. reflexivity.
  - intros [Hp _].
    remember (local_db (run (SavePatient Scenario.asha) Scenario.enqueue_fails))
      as db eqn:Hdb.
    vm_compute in Hdb. subst db.
    destruct (Hp _ (or_introl eq_refl) eq_refl) as (e & Hin & _).
    destruct Hin.
Qed.

End Save.

(** ** Storage errors *)

Section StorageErrors.

Context {R : Type} `{RemoteStore R}.

Lemma add_to_sync_queue_connect_fails record_type record_id data priority
    (fs : list bool) (w : World R) :
  OfflineManager._add_to_sync_queue record_type record_id data priority
    (set_faults (true :: fs) w) = (Ok false, set_faults fs w).
Proof. reflexivity. Qed.

Lemma add_to_sync_queue_insert_fails record_type record_id data priority
    (fs : list bool) (w : World R) :
  OfflineManager._add_to_sync_queue record_type record_id data priority
    (set_faults (false :: true :: fs) w) = (Ok false, set_faults fs w).
Proof. reflexivity. Qed.


End StorageErrors.

(** When [connect] raises in [_add_to_sync_queue] and nothing else does,
    every save of a serialisable patient returns [True] with the record
    committed and the queue as it was. *)

Arguments OfflineManager.patient_exists : simpl never.
Arguments OfflineManager.update_patient : simpl never.
Arguments OfflineManager.insert_patient : simpl never.

Section EnqueueFailure.

Context {R : Type} `{RemoteStore R}.

Lemma upsert_exists (pid : string) (d : doc) (now_ : string) (db : LocalDb) :
  OfflineManager.patient_exists pid
    (if OfflineManager.patient_exists pid db
     then OfflineManager.update_patient d now_ pid db
     else OfflineManager.insert_patient pid d now_ db) = true.
Proof.
  unfold OfflineManager.patient_exists at 1.
  destruct (OfflineManager.patient_exists pid db) eqn:He.
  - unfold OfflineManager.patient_exists in He.
    apply List.existsb_exists in He as (r & Hin & Hr).
    apply List.existsb_exists. unfold OfflineManager.update_patient. cbn.
    exists (Patients.Row pid d (Patients.created_at r) now_ 0). split.
    + apply List.in_map_iff. exists r. by rewrite Hr.
    + cbn. apply String.eqb_refl.
  - apply List.existsb_exists. unfold OfflineManager.insert_patient. cbn.
    exists (Patients.Row pid d now_ now_ 0). split.
    + apply List.in_app_iff. right. by left.
    + cbn. apply String.eqb_refl.
Qed.

Lemma save_swallows_enqueue_failure
    (p : OfflineManager.Patient) (d : doc) (fs : list bool) (w : World R) :
  json_dumps (OfflineManager.Patient_to_dict p) = Ok d ->
  let '(r, w') := OfflineManager.save_patient_offline p
       (set_faults (false :: false :: false :: true :: false :: fs) w) in
  r = Ok true /\
  OfflineManager.patient_exists (OfflineManager.patient_id p) (local_db w') = true /\
  sync_queue (local_db w') = sync_queue (local_db w).
Proof.
  intros Hd. unfold OfflineManager.save_patient_offline. run_monad.
  rewrite Hd. cbn.
  pose proof (upsert_exists (OfflineManager.patient_id p) d
                (Iso.isoformat (now w)) (local_db w)) as Hex.
  destruct (OfflineManager.patient_exists _ (local_db w)); cbn;
    rewrite add_to_sync_queue_connect_fails; cbn; (split; [done|split; [exact Hex|]]).
  - unfold OfflineManager.update_patient. reflexivity.
  - unfold OfflineManager.insert_patient. reflexivity.
Qed.

(** The same when the helper's [connect] passes and its INSERT raises. *)
Lemma save_swallows_insert_failure
    (p : OfflineManager.Patient) (d : doc) (fs : list bool) (w : World R) :
  json_dumps (OfflineManager.Patient_to_dict p) = Ok d ->
  let '(r, w') := OfflineManager.save_patient_offline p
       (set_faults (false :: false :: false :: false :: true :: false :: fs) w) in
  r = Ok true /\
  OfflineManager.patient_exists (OfflineManager.patient_id p) (local_db w') = true /\
  sync_queue (local_db w') = sync_queue (local_db w).
Proof.
  intros Hd. unfold OfflineManager.save_patient_offline. run_monad.
  rewrite Hd. cbn.
  pose proof (upsert_exists (OfflineManager.patient_id p) d
                (Iso.isoformat (now w)) (local_db w)) as Hex.
  destruct (OfflineManager.patient_exists _ (local_db w)); cbn;
    rewrite add_to_sync_queue_insert_fails; cbn; (split; [done|split; [exact Hex|]]).
  - unfold OfflineManager.update_patient. reflexivity.
  - unfold OfflineManager.insert_patient. reflexivity.
Qed.

End EnqueueFailure.


(** On the empty store, at the schedule of a real run whose commit raises:
    the save returns [False] and the store is still empty. *)
Lemma failed_commit_leaves_the_store_empty :
  OfflineManager.save_patient_offline Scenario.asha Scenario.commit_fails
    = (Ok false, Scenario.world0).
Proof. vm_compute. reflexivity. Qed.


(** ** The retention sweep *)

Section Retention.

Context {R : Type} `{RemoteStore R}.

Lemma clean_runs (w : World R) (cutoff : string) :
  faults w = [] -> OfflineManager.cutoff_date w = Ok cutoff ->
  OfflineManager._clean_old_synced_records w
   = (Ok tt, set_local_db (swept cutoff (local_db w)) w).
Proof.
  intros Hf Hc. unfold OfflineManager._clean_old_synced_records. run_monad.
  rewrite Hf, Hc. unfold swept. cbn. rewrite Hf. cbn. rewrite Hf. cbn.
  destruct (OfflineManager.recent_patient_ids cutoff _);
    fault_cases; reflexivity.
Qed.

(** Whatever fails, the sweep returns, and it has either changed nothing or
    done all its deletions. *)
Lemma clean_cases (w : World R) :
  exists w', OfflineManager._clean_old_synced_records w = (Ok tt, w') /\
    sync_in_progress w' = sync_in_progress w /\
    (local_db w' = local_db w \/
     exists cutoff, local_db w' = swept cutoff (local_db w)).
Proof.
  unfold OfflineManager._clean_old_synced_records. run_monad.
  destruct (faults w) as [|[] fs] eqn:Hf; cbn; eauto.
  - destruct (OfflineManager.cutoff_date w) as [cutoff|]; cbn; eauto.
    assert (Hs : forall w' : World R, local_db w' = swept cutoff (local_db w) ->
       local_db w' = local_db w \/ exists c, local_db w' = swept c (local_db w))
      by eauto.
    unfold swept in Hs. cbv zeta in Hs. rewrite Hf. cbn. rewrite Hf. cbn.
    destruct (OfflineManager.recent_patient_ids cutoff _);
      fault_cases; eexists; (split; [reflexivity|]); split; try reflexivity;
      apply Hs; reflexivity.
  - destruct (OfflineManager.cutoff_date _) as [cutoff|] eqn:Hc; cbn; eauto.
    assert (Hs : forall w' : World R, local_db w' = swept cutoff (local_db w) ->
       local_db w' = local_db w \/ exists c, local_db w' = swept c (local_db w))
      by eauto.
    unfold swept in Hs. cbv zeta in Hs.
    destruct fs as [|[] fs]; cbn; eauto.
    + destruct (OfflineManager.recent_patient_ids cutoff _);
      fault_cases; eexists; (split; [reflexivity|]); split; try reflexivity;
      first [left; reflexivity | apply Hs; reflexivity].
    + destruct fs as [|[] fs]; cbn; eauto;
      destruct (OfflineManager.recent_patient_ids cutoff _);
      fault_cases; eexists; (split; [reflexivity|]); split; try reflexivity;
      first [left; reflexivity | apply Hs; reflexivity].
Qed.

Lemma swept_queue cutoff db : sync_queue (swept cutoff db) = sync_queue db.
Proof.
  unfold swept. cbv zeta.
  by destruct (OfflineManager.recent_patient_ids _ _).
Qed.

Lemma swept_assessments cutoff db (a : Assessments.row) :
  In a (health_assessments (swept cutoff db)) <->
  In a (health_assessments db) /\
  ~ (Assessments.synced a = 1 /\ String.ltb (Assessments.created_at a) cutoff = true).
Proof.
  assert (Ha : health_assessments (swept cutoff db)
               = health_assessments (OfflineManager.delete_old_assessments cutoff db)).
  { unfold swept. cbv zeta. by destruct (OfflineManager.recent_patient_ids _ _). }
  rewrite Ha. unfold OfflineManager.delete_old_assessments. cbn.
  rewrite List.filter_In, negb_true_iff, andb_false_iff, Z.eqb_neq.
  destruct (String.ltb (Assessments.created_at a) cutoff); intuition congruence.
Qed.

Lemma recent_patient_ids_spec cutoff db pid :
  In pid (OfflineManager.recent_patient_ids cutoff
            (OfflineManager.delete_old_assessments cutoff db)) <->
  has_recent_assessment cutoff pid db.
Proof.
  unfold OfflineManager.recent_patient_ids, OfflineManager.delete_old_assessments,
    has_recent_assessment. cbn.
  rewrite nodup_In, List.in_map_iff. split.
  - intros (a & Hid & Hin). apply List.filter_In in Hin as [Hin Hrecent].
    apply List.filter_In in Hin as [Hin _]. apply negb_true_iff in Hrecent. eauto.
  - intros (a & Hin & Hid & Hrecent). exists a. split; [done|].
    apply List.filter_In. rewrite Hrecent. split; [|done].
    apply List.filter_In. rewrite Hrecent, andb_false_r. by split.
Qed.

Lemma existsb_eqb_In (pid : string) (l : list string) :
  existsb (String.eqb pid) l = true <-> In pid l.
Proof.
  rewrite List.existsb_exists. split.
  - intros (x & Hin & Heq). by apply String.eqb_eq in Heq as ->.
  - intros Hin. exists pid. by rewrite String.eqb_refl.
Qed.

Lemma swept_patients cutoff db (p : Patients.row) :
  In p (patients (swept cutoff db)) <->
  In p (patients db) /\
  ~ (Patients.synced p = 1 /\ String.ltb (Patients.updated_at p) cutoff = true /\
     ~ has_recent_assessment cutoff (Patients.patient_id p) db).
Proof.
  pose proof (recent_patient_ids_spec cutoff db (Patients.patient_id p)) as Hr.
  assert (Hp : patients (swept cutoff db)
    = List.filter (fun r => negb ((Patients.synced r =? 1)
          && String.ltb (Patients.updated_at r) cutoff
          && negb (existsb (String.eqb (Patients.patient_id r))
                     (OfflineManager.recent_patient_ids cutoff
                        (OfflineManager.delete_old_assessments cutoff db)))))
        (patients db)).
  { unfold swept. cbv zeta.
    destruct (OfflineManager.recent_patient_ids cutoff _); [|reflexivity].
    unfold OfflineManager.delete_old_patients. cbn.
    apply List.filter_ext. intros r. by rewrite andb_true_r. }
  rewrite Hp, List.filter_In. rewrite <- existsb_eqb_In in Hr.
  destruct (Z.eqb_spec (Patients.synced p) 1) as [Hs|Hs];
    destruct (String.ltb (Patients.updated_at p) cutoff);
    destruct (existsb _ _); cbn; intuition (try congruence).
Qed.

Lemma manage_storage_runs (w : World R) (cutoff : string) :
  OfflineManager.storage_above_90_percent w = true ->
  faults w = [] -> OfflineManager.cutoff_date w = Ok cutoff ->
  OfflineManager._manage_storage w
    = (Ok tt, set_local_db (swept cutoff (local_db w)) w).
Proof.
  intros Ha Hf Hc. unfold OfflineManager._manage_storage, try_except, mbind,
    M_bind, bind, ask. cbn. rewrite Ha.
  by rewrite (clean_runs w cutoff Hf Hc).
Qed.

(** Whatever the size of the file and whatever fails, [_manage_storage]
    deletes no pending record and no queue entry. *)
Lemma manage_storage_keeps_pending (w : World R) :
  let db := local_db w in
  let db' := local_db (snd (OfflineManager._manage_storage w)) in
  (forall p, In p (patients db) -> Patients.synced p <> 1 -> In p (patients db')) /\
  (forall a, In a (health_assessments db) -> Assessments.synced a <> 1 ->
             In a (health_assessments db')) /\
  sync_queue db' = sync_queue db.
Proof.
  cbv zeta.
  assert (Hc : local_db (snd (OfflineManager._manage_storage w)) = local_db w \/
               exists cutoff, local_db (snd (OfflineManager._manage_storage w))
                              = swept cutoff (local_db w)).
  { unfold OfflineManager._manage_storage, try_except, mbind, M_bind, bind, ask.
    cbn. destruct (OfflineManager.storage_above_90_percent w); [|by left].
    destruct (clean_cases w) as (w' & -> & _ & Hdb). exact Hdb. }
  destruct Hc as [-> | [cutoff ->]]; [done|].
  split; [|split].
  - intros p Hin Hs. apply swept_patients. split; [done|]. by intros [? _].
  - intros a Hin Hs. apply swept_assessments. split; [done|]. by intros [? _].
  - apply swept_queue.
Qed.

(** C9.  When the file is above 90% of the cap and the sweep runs to its
    end, with [cutoff] the retention cutoff: a health assessment remains
    exactly when it is not both synced and created before the cutoff; a
    patient remains exactly when it is not all of synced, updated before
    the cutoff and without an assessment created at or after the cutoff;
    no pending record is deleted and the sync queue is untouched. *)
Theorem retention_sweep (w : World R) (cutoff : string) :
  OfflineManager.storage_above_90_percent w = true ->
  faults w = [] ->
  OfflineManager.cutoff_date w = Ok cutoff ->
  let db := local_db w in
  let db' := local_db (snd (OfflineManager._manage_storage w)) in
  (forall a, In a (health_assessments db') <->
     In a (health_assessments db) /\
     ~ (Assessments.synced a = 1 /\
        String.ltb (Assessments.created_at a) cutoff = true)) /\
  (forall p, In p (patients db') <->
     In p (patients db) /\
     ~ (Patients.synced p = 1 /\
        String.ltb (Patients.updated_at p) cutoff = true /\
        ~ has_recent_assessment cutoff (Patients.patient_id p) db)) /\
  (forall p, In p (patients db) -> Patients.synced p <> 1 -> In p (patients db')) /\
  (forall a, In a (health_assessments db) -> Assessments.synced a <> 1 ->
             In a (health_assessments db')) /\
  sync_queue db' = sync_queue db.
Proof.
  intros Ha Hf Hc. cbv zeta.
  rewrite (manage_storage_runs w cutoff Ha Hf Hc). cbn.
  split; [intros a; apply swept_assessments|].
  split; [intros p; apply swept_patients|].
  split; [|split].
  - intros p Hin Hs. apply swept_patients. split; [done|]. by intros [? _].
  - intros a Hin Hs. apply swept_assessments. split; [done|]. by intros [? _].
  - apply swept_queue.
Qed.

End Retention.

(** C9 on a store above the threshold: the old synced assessment [a1] and
    the old synced patient [p1] go; [p2], old and synced but with the
    recent assessment [a2], stays, and so does the pending [p3]. *)
Lemma retention_sweep_witness :
  OfflineManager.storage_above_90_percent Scenario.crowded = true /\
  faults Scenario.crowded = [] /\
  OfflineManager.cutoff_date Scenario.crowded = Ok "2024-01-31T12:00:00" /\
  (forall p,
     In p (patients (local_db (snd (OfflineManager._manage_storage Scenario.crowded)))) <->
     In p (patients (local_db Scenario.crowded)) /\
     ~ (Patients.synced p = 1 /\
        String.ltb (Patients.updated_at p) "2024-01-31T12:00:00" = true /\
        ~ has_recent_assessment "2024-01-31T12:00:00" (Patients.patient_id p)
            (local_db Scenario.crowded))) /\
  map Patients.patient_id
    (patients (local_db (snd (OfflineManager._manage_storage Scenario.crowded))))
    = ["p2"; "p3"] /\
  map Assessments.assessment_id
    (health_assessments
       (local_db (snd (OfflineManager._manage_storage Scenario.crowded))))
    = ["a2"].
Proof.
  split; [reflexivity|]. split; [reflexivity|]. split; [reflexivity|].
  split; [|split; vm_compute; reflexivity].
  destruct (retention_sweep Scenario.crowded "2024-01-31T12:00:00")
    as (_ & Hpatients & _); [reflexivity..|].
  exact Hpatients.
Defined.

(** ** The table of [SyncService] under a pass *)

Section PermanentFailure.
Context {R : Type}.

Lemma sync_with_server_spec (w : World R) (t : string) (d : doc) :
  exists res, SyncService._sync_with_server t d w = (Ok res, w) /\
    match server w t (SyncService.clean d) with
    | None => truthy (get res "success") = true
    | Some msg => truthy (get res "success") = false /\
        truthy (get res "permanent_failure")
        = SyncService.contains "invalid data format" (SyncService.lower msg)
    end.
Proof.
  unfold SyncService._sync_with_server, mbind, M_bind, bind, ask, mret, M_ret, ret.
  cbn. destruct (server w t (SyncService.clean d)) as [msg|]; eexists; (split; [reflexivity|]).
  - split; vm_compute; reflexivity.
  - vm_compute; reflexivity.
Qed.

Lemma bind_run {A B} (m : M R A) (f : A -> M R B) (w : World R) :
  bind m f w = match m w with
               | (Ok a, w') => f a w'
               | (Raise e, w') => (Raise e, w')
               end.
Proof. reflexivity. Qed.

Lemma sync_rows_spec (rows : list SyncData.row) :
  forall (c : conn) (s f : Z) (w : World R),
  exists fs,
    (exists e, SyncService.sync_rows c rows s f w = (Raise e, set_faults fs w) /\
               faults w <> []) \/
    (exists c' s' f',
       SyncService.sync_rows c rows s f w = (Ok (c', s', f'), set_faults fs w) /\
       (faults w = [] -> fs = []) /\
       forall db, c' db = apply_rows w rows (c db)).
Proof.
  induction rows as [|r rows IH]; intros c s f w.
  - exists (faults w). right. exists c, s, f. cbn.
    split; [by destruct w|]. split; done.
  - assert (Hstep : forall st s1 f1,
      (forall db, apply_row w r db
                  = SyncService.set_status st (Iso.isoformat (now w))
                      (SyncData.sync_id r) db) ->
      exists fs,
        (exists e,
           bind (execute c no_check
                   (SyncService.set_status st (Iso.isoformat (now w))
                      (SyncData.sync_id r)))
             (fun c1 => SyncService.sync_rows c1 rows s1 f1) w = (Raise e, set_faults fs w) /\
           faults w <> []) \/
        (exists c' s' f',
           bind (execute c no_check
                   (SyncService.set_status st (Iso.isoformat (now w))
                      (SyncData.sync_id r)))
             (fun c1 => SyncService.sync_rows c1 rows s1 f1) w
             = (Ok (c', s', f'), set_faults fs w) /\
           (faults w = [] -> fs = []) /\
           forall db, c' db = apply_rows w (r :: rows) (c db))).
    { intros st s1 f1 Hrow.
      unfold execute, mbind, M_bind, bind, sqlite_call, ask, no_check, mret,
        M_ret, ret.
      destruct (faults w) as [|[] fs] eqn:Hf; cbn.
      - destruct (IH (fun db => SyncService.set_status st (Iso.isoformat (now w))
                                  (SyncData.sync_id r) (c db)) s1 f1 w)
          as (fs' & [(e & He & Hne)|(c' & s' & f' & He & Hfs & Hc)]);
          exists fs'; [left; exists e; split; [exact He|first [exact Hne|congruence|done]]|right].
        exists c', s', f'. split; [exact He|]. split; [intros _; by apply Hfs|].
        intros db. rewrite Hc. cbn [apply_rows fold_left]. by rewrite Hrow.
      - exists fs. left. eexists. split; [reflexivity|done].
      - destruct (IH (fun db => SyncService.set_status st (Iso.isoformat (now w))
                                  (SyncData.sync_id r) (c db)) s1 f1
                    (set_faults fs w))
          as (fs' & [(e & He & Hne)|(c' & s' & f' & He & Hfs & Hc)]);
          exists fs'; [left; exists e; split; [exact He|first [exact Hne|congruence|done]]|right].
        exists c', s', f'. split; [exact He|]. split; [discriminate|].
        intros db. rewrite Hc. cbn [apply_rows fold_left]. by rewrite Hrow. }
    cbn [SyncService.sync_rows]. unfold mbind, M_bind.
    destruct (sync_with_server_spec w (SyncData.data_type r) (SyncData.data r))
      as (res & Hrun & Hres).
    rewrite bind_run. cbv beta iota delta [lift json_loads].
    rewrite bind_run, Hrun. cbv beta iota.
    rewrite bind_run. cbv beta iota delta [ask].
    destruct (server w (SyncData.data_type r) (SyncService.clean (SyncData.data r)))
      as [msg|] eqn:Hsrv.
    + destruct Hres as [-> ->].
      destruct (SyncService.contains _ _) eqn:Hperm; cbv beta iota.
      * apply Hstep. intros db. unfold apply_row. by rewrite Hsrv, Hperm.
      * rewrite bind_run. cbv beta iota delta [mret M_ret ret].
        destruct (IH c s (f + 1) w)
          as (fs' & [(e & He & Hne)|(c' & s' & f' & He & Hfs & Hc)]);
          exists fs'; [left; exists e; split; [exact He|first [exact Hne|congruence|done]]|right].
        exists c', s', f'. split; [exact He|]. split; [exact Hfs|].
        intros db. rewrite Hc. cbn [apply_rows fold_left]. unfold apply_row at 2.
        by rewrite Hsrv, Hperm.
    + rewrite Hres. cbv beta iota. apply Hstep. intros db. unfold apply_row.
      by rewrite Hsrv.
Qed.


Lemma wp_ret {A} (a : A) Q (w : World R) : Q (Ok a) w -> wp (mret a) Q w.
Proof. done. Qed.

Lemma wp_bind {A B} (m : M R A) (f : A -> M R B) Q (w : World R) :
  wp m (fun r w' => match r with
                    | Ok a => wp (f a) Q w'
                    | Raise e => Q (Raise e) w'
                    end) w ->
  wp (m ≫= f) Q w.
Proof.
  unfold wp, mbind, M_bind, bind. by destruct (m w) as [[a|e] w'].
Qed.

Lemma wp_try_except {A} (m : M R A) (h : exn -> M R A) Q (w : World R) :
  wp m (fun r w' => match r with
                    | Ok a => Q (Ok a) w'
                    | Raise e => wp (h e) Q w'
                    end) w ->
  wp (try_except m h) Q w.
Proof.
  unfold wp, try_except. by destruct (m w) as [[a|e] w'].
Qed.

Lemma wp_ask Q (w : World R) : Q (Ok w) w -> wp ask Q w.
Proof. done. Qed.

Lemma wp_lift {A} (r : Res A) Q (w : World R) : Q r w -> wp (lift r) Q w.
Proof. done. Qed.

Lemma wp_sqlite_call Q (w : World R) :
  (forall fs, (faults w = [] -> fs = []) -> Q (Ok tt) (set_faults fs w)) ->
  (forall e fs, faults w <> [] -> Q (Raise e) (set_faults fs w)) ->
  wp sqlite_call Q w.
Proof.
  intros Hok Hraise. unfold wp, sqlite_call.
  destruct (faults w) as [|[] fs] eqn:Hf; cbn.
  - specialize (Hok [] (fun _ => eq_refl)).
    assert (Hw : set_faults [] w = w) by (destruct w; cbn in *; by subst).
    by rewrite Hw in Hok.
  - by apply Hraise.
  - by apply Hok.
Qed.

Lemma wp_connect Q (w : World R) :
  (forall fs, (faults w = [] -> fs = []) -> Q (Ok (fun db => db)) (set_faults fs w)) ->
  (forall e fs, faults w <> [] -> Q (Raise e) (set_faults fs w)) ->
  wp connect Q w.
Proof.
  intros Hok Hraise. unfold connect. apply wp_bind, wp_sqlite_call; [|done].
  intros fs Hfs. by apply wp_ret, Hok.
Qed.

Lemma wp_query {A} (c : conn) (q : LocalDb -> A) Q (w : World R) :
  (forall fs, (faults w = [] -> fs = []) ->
              Q (Ok (q (c (local_db w)))) (set_faults fs w)) ->
  (forall e fs, faults w <> [] -> Q (Raise e) (set_faults fs w)) ->
  wp (query c q) Q w.
Proof.
  intros Hok Hraise. unfold query. apply wp_bind, wp_sqlite_call; [|done].
  intros fs Hfs. apply wp_bind, wp_ask, wp_ret. by apply Hok.
Qed.

Lemma wp_execute (c : conn) (effect : LocalDb -> LocalDb) Q (w : World R) :
  (forall fs, (faults w = [] -> fs = []) ->
              Q (Ok (fun db => effect (c db))) (set_faults fs w)) ->
  (forall e fs, faults w <> [] -> Q (Raise e) (set_faults fs w)) ->
  wp (execute c no_check effect) Q w.
Proof.
  intros Hok Hraise. unfold execute. apply wp_bind, wp_sqlite_call; [|done].
  intros fs Hfs. apply wp_bind, wp_ask. cbn. by apply wp_ret, Hok.
Qed.

Lemma wp_commit (c : conn) Q (w : World R) :
  (forall fs, (faults w = [] -> fs = []) ->
              Q (Ok (fun db => db)) (set_local_db (c (local_db w)) (set_faults fs w))) ->
  (forall e fs, faults w <> [] -> Q (Raise e) (set_faults fs w)) ->
  wp (commit c) Q w.
Proof.
  intros Hok Hraise. unfold commit. apply wp_bind, wp_sqlite_call; [|done].
  intros fs Hfs. apply wp_bind. unfold wp, modify. cbn. by apply Hok.
Qed.

Lemma wp_sync_rows (rows : list SyncData.row) (c : conn) (s f : Z) Q (w : World R) :
  (forall fs c' s' f', (faults w = [] -> fs = []) ->
     (forall db, c' db = apply_rows w rows (c db)) ->
     Q (Ok (c', s', f')) (set_faults fs w)) ->
  (forall e fs, faults w <> [] -> Q (Raise e) (set_faults fs w)) ->
  wp (SyncService.sync_rows c rows s f) Q w.
Proof.
  intros Hok Hraise. unfold wp.
  destruct (sync_rows_spec rows c s f w)
    as (fs & [(e & He & Hne)|(c' & s' & f' & He & Hfs & Hc)]); rewrite He; cbn.
  - by apply Hraise.
  - by apply Hok.
Qed.


Lemma pass_effect (force : bool) (w : World R) :
  let rows := SyncService.select_pending (local_db w) in
  let db1 := apply_rows w rows (local_db w) in
  wp (SyncService.sync_data force)
    (fun r w1 =>
       (exists res, r = Ok res) /\
       (local_db w1 = local_db w \/ local_db w1 = db1 \/
        exists cutoff, local_db w1 = SyncService.delete_old_synced cutoff db1) /\
       (faults w = [] -> negb (online w) && negb force = false -> rows <> [] ->
        local_db w1 = db1 \/
        exists cutoff, local_db w1 = SyncService.delete_old_synced cutoff db1)) w.
Proof.
  cbv zeta. unfold SyncService.sync_data, SyncService._is_online.
  apply wp_bind, wp_bind, wp_ask, wp_ret. cbn beta iota.
  destruct (negb (online w) && negb force) eqn:Hgo.
  { apply wp_ret. split; [eauto|]. split; [by left|]. by intros _ [=]. }
  apply wp_try_except, wp_bind, wp_connect.
  2:{ intros e fs Hne. apply wp_ret. split; [eauto|]. split; [by left|]. done. }
  intros fs1 Hfs1. apply wp_bind, wp_query.
  2:{ intros e fs Hne. apply wp_ret. split; [eauto|]. split; [by left|].
      intros Hf. by specialize (Hfs1 Hf) as ->. }
  intros fs2 Hfs2. cbn [local_db set_faults].
  destruct (SyncService.select_pending (local_db w)) as [|r0 rows0] eqn:Hrows.
  { apply wp_ret. split; [eauto|]. split; [by left|]. by intros _ _ ?. }
  rewrite <- Hrows. apply wp_bind, wp_sync_rows.
  2:{ intros e fs Hne. apply wp_ret. split; [eauto|]. split; [by left|].
      intros Hf. specialize (Hfs1 Hf) as ->. by specialize (Hfs2 eq_refl) as ->. }
  intros fs3 c' s' f' Hfs3 Hc. cbn beta iota.
  apply wp_bind, wp_commit.
  2:{ intros e fs Hne. apply wp_ret. split; [eauto|]. split; [by left|].
      intros Hf. specialize (Hfs1 Hf) as ->. specialize (Hfs2 eq_refl) as ->.
      by specialize (Hfs3 eq_refl) as ->. }
  intros fs4 Hfs4. cbn [local_db set_faults]. rewrite Hc.
  change (apply_rows (set_faults fs2 (set_faults fs1 w))) with (apply_rows w).
  assert (Hdone : forall w1 : World R,
            local_db w1 = apply_rows w (SyncService.select_pending (local_db w))
                            (local_db w) ->
            forall res : doc,
            (exists res0, Ok res = Ok res0) /\
            (local_db w1 = local_db w \/
             local_db w1 = apply_rows w (SyncService.select_pending (local_db w))
                             (local_db w) \/
             exists cutoff, local_db w1 = SyncService.delete_old_synced cutoff
               (apply_rows w (SyncService.select_pending (local_db w)) (local_db w))) /\
            (faults w = [] -> false = false ->
             SyncService.select_pending (local_db w) <> [] ->
             local_db w1 = apply_rows w (SyncService.select_pending (local_db w))
                             (local_db w) \/
             exists cutoff, local_db w1 = SyncService.delete_old_synced cutoff
               (apply_rows w (SyncService.select_pending (local_db w)) (local_db w)))).
  { intros w1 Hw1 res. split; [eauto|]. split; [by right; left|]. by left. }
  apply wp_bind. unfold SyncService._cleanup_old_data.
  apply wp_bind, wp_ask, wp_bind, wp_lift.
  destruct (OfflineManager.cutoff_date _) as [cutoff|e].
  2:{ apply wp_ret. by apply Hdone. }
  apply wp_execute.
  2:{ intros e fs Hne. apply wp_ret. by apply Hdone. }
  intros fs5 Hfs5. apply wp_bind, wp_commit.
  2:{ intros e fs Hne. apply wp_ret. by apply Hdone. }
  intros fs6 Hfs6. apply wp_ret. cbn [local_db set_faults set_local_db].
  split; [eauto|]. split; [right; right; eauto|]. intros _ _ _. right. eauto.
Qed.


(** *** The table under a pass *)

Lemma set_status_ids st now_ sid db :
  map SyncData.sync_id (sync_data_table (SyncService.set_status st now_ sid db))
  = map SyncData.sync_id (sync_data_table db).
Proof.
  unfold SyncService.set_status. cbn. rewrite List.map_map.
  apply List.map_ext_in. intros x _.
  destruct (String.eqb_spec (SyncData.sync_id x) sid) as [<-|]; reflexivity.
Qed.

Lemma apply_row_ids (w : World R) r db :
  map SyncData.sync_id (sync_data_table (apply_row w r db))
  = map SyncData.sync_id (sync_data_table db).
Proof.
  unfold apply_row. cbv zeta.
  destruct (server w _ _); [destruct (SyncService.contains _ _)|];
    auto using set_status_ids.
Qed.

Lemma apply_rows_ids (w : World R) rows db :
  map SyncData.sync_id (sync_data_table (apply_rows w rows db))
  = map SyncData.sync_id (sync_data_table db).
Proof.
  revert db. induction rows as [|r rows IH]; intros db; [done|].
  cbn [apply_rows fold_left]. fold (apply_rows w rows (apply_row w r db)).
  by rewrite IH, apply_row_ids.
Qed.

Lemma NoDup_map_filter {A B} (f : A -> B) (p : A -> bool) (l : list A) :
  List.NoDup (map f l) -> List.NoDup (map f (List.filter p l)).
Proof.
  induction l as [|x l IH]; cbn; [done|].
  intros Hnd. apply List.NoDup_cons_iff in Hnd as [Hx Hnd].
  destruct (p x); cbn; [|by apply IH].
  apply List.NoDup_cons; [|by apply IH].
  intros Hin. apply Hx. apply List.in_map_iff in Hin as (y & <- & Hy).
  apply List.in_map. by apply List.filter_In in Hy as [? _].
Qed.

Lemma NoDup_map_inj {A B} (f : A -> B) (l : list A) (x y : A) :
  List.NoDup (map f l) -> In x l -> In y l -> f x = f y -> x = y.
Proof.
  induction l as [|z l IH]; cbn; [done|].
  intros Hnd. apply List.NoDup_cons_iff in Hnd as [Hz Hnd].
  intros [->|Hx] [->|Hy] Hf; auto.
  - exfalso. apply Hz. rewrite Hf. by apply List.in_map.
  - exfalso. apply Hz. rewrite <- Hf. by apply List.in_map.
Qed.

Lemma set_status_keeps st now_ sid db (x : SyncData.row) :
  In x (sync_data_table db) -> sid <> SyncData.sync_id x ->
  In x (sync_data_table (SyncService.set_status st now_ sid db)).
Proof.
  intros Hin Hne. unfold SyncService.set_status. cbn.
  apply List.in_map_iff. exists x. split; [|done].
  destruct (String.eqb_spec (SyncData.sync_id x) sid); [congruence|done].
Qed.

Lemma apply_rows_keeps (w : World R) rows db (x : SyncData.row) :
  In x (sync_data_table db) ->
  (forall y, In y rows -> SyncData.sync_id y <> SyncData.sync_id x) ->
  In x (sync_data_table (apply_rows w rows db)).
Proof.
  revert db. induction rows as [|r rows IH]; intros db Hin Hne; [done|].
  cbn [apply_rows fold_left]. fold (apply_rows w rows (apply_row w r db)).
  apply IH; [|intros y Hy; apply Hne; by right].
  assert (Hr : SyncData.sync_id r <> SyncData.sync_id x) by (apply Hne; by left).
  unfold apply_row. cbv zeta.
  destruct (server w _ _); [destruct (SyncService.contains _ _)|];
    auto using set_status_keeps.
Qed.

Lemma select_pending_In db (x : SyncData.row) :
  In x (SyncService.select_pending db) <->
  In x (sync_data_table db) /\ SyncData.status x = "pending".
Proof.
  unfold SyncService.select_pending.
  transitivity (In x (List.filter
    (fun r => String.eqb (SyncData.status r) "pending") (sync_data_table db))).
  - split; apply Permutation_in; [symmetry|];
      apply (order_by_Permutation (A := SyncData.row) CreatedOrder.leb).
  - rewrite List.filter_In. by rewrite String.eqb_eq.
Qed.


Lemma select_pending_ids db :
  primary_key db -> List.NoDup (map SyncData.sync_id (SyncService.select_pending db)).
Proof.
  intros Hpk. unfold SyncService.select_pending.
  eapply Permutation_NoDup.
  - apply Permutation_map, (order_by_Permutation (A := SyncData.row) CreatedOrder.leb).
  - by apply NoDup_map_filter.
Qed.

Lemma delete_old_synced_keeps cutoff db (x : SyncData.row) :
  In x (sync_data_table db) -> SyncData.status x <> "synced" ->
  In x (sync_data_table (SyncService.delete_old_synced cutoff db)).
Proof.
  intros Hin Hst. unfold SyncService.delete_old_synced. cbn.
  apply List.filter_In. split; [done|].
  by destruct (String.eqb_spec (SyncData.status x) "synced").
Qed.

Lemma delete_old_synced_key cutoff db :
  primary_key db -> primary_key (SyncService.delete_old_synced cutoff db).
Proof. apply NoDup_map_filter. Qed.

(** A pass keeps the primary key, and keeps every failed row as it is. *)
Lemma pass_keeps_failed (force : bool) (w : World R) (x : SyncData.row) :
  primary_key (local_db w) ->
  In x (sync_data_table (local_db w)) -> SyncData.status x = "failed" ->
  primary_key (local_db (snd (SyncService.sync_data force w))) /\
  In x (sync_data_table (local_db (snd (SyncService.sync_data force w)))).
Proof.
  intros Hpk Hin Hst.
  destruct (pass_effect force w) as (_ & Hcases & _).
  assert (Hne : forall y, In y (SyncService.select_pending (local_db w)) ->
                          SyncData.sync_id y <> SyncData.sync_id x).
  { intros y Hy Heq. apply select_pending_In in Hy as [Hy Hp].
    assert (y = x) by (eapply NoDup_map_inj; eauto). subst y.
    rewrite Hst in Hp. discriminate. }
  destruct Hcases as [-> | [-> | [cutoff ->]]].
  - done.
  - split; [|by apply apply_rows_keeps].
    unfold primary_key. by rewrite apply_rows_ids.
  - split.
    + apply delete_old_synced_key. unfold primary_key. by rewrite apply_rows_ids.
    + apply delete_old_synced_keeps; [by apply apply_rows_keeps|].
      rewrite Hst. discriminate.
Qed.

(** *** [retry_failed_sync] *)

Lemma retry_reset_runs (w : World R) :
  faults w = [] ->
  SyncService.retry_reset w
  = (Ok (SyncService.count_failed (local_db w)),
     set_local_db (SyncService.reset_failed (Iso.isoformat (now w)) (local_db w)) w).
Proof.
  intros Hf. unfold SyncService.retry_reset. run_monad.
  rewrite Hf. cbn. rewrite Hf. cbn. by rewrite Hf.
Qed.

Lemma reset_failed_In now_ db (x : SyncData.row) :
  In x (sync_data_table db) -> SyncData.status x = "failed" ->
  In (pending_row x now_)
     (SyncService.select_pending (SyncService.reset_failed now_ db)).
Proof.
  intros Hin Hst. apply select_pending_In. split; [|done].
  unfold SyncService.reset_failed. cbn. apply List.in_map_iff.
  exists x. by rewrite Hst.
Qed.

Lemma count_failed_pos db (x : SyncData.row) :
  In x (sync_data_table db) -> SyncData.status x = "failed" ->
  0 < SyncService.count_failed db.
Proof.
  intros Hin Hst. unfold SyncService.count_failed.
  assert (Hf : In x (List.filter
    (fun r => String.eqb (SyncData.status r) "failed") (sync_data_table db))).
  { apply List.filter_In. by rewrite Hst. }
  destruct (List.filter _ _); [done|]. cbn. lia.
Qed.

Lemma sync_data_returns (force : bool) (w : World R) :
  exists res, fst (SyncService.sync_data force w) = Ok res.
Proof. by destruct (pass_effect force w) as (Hres & _). Qed.

End PermanentFailure.

(** * Further properties *)

(** ** Saving, whatever [sqlite3] does *)

Arguments OfflineManager.sync_id_taken : simpl never.
Arguments OfflineManager.insert_sync_queue : simpl never.
Arguments OfflineManager.patient_exists : simpl never.
Arguments OfflineManager.update_patient : simpl never.
Arguments OfflineManager.insert_patient : simpl never.
Arguments OfflineManager.assessment_exists : simpl never.
Arguments OfflineManager.update_assessment : simpl never.
Arguments OfflineManager.insert_assessment : simpl never.
Arguments str_int : simpl never.

(** Follows the fault schedule through the calls made so far. *)
Ltac chain_faults :=
  cbn [faults set_faults set_local_db set_central] in *;
  repeat match goal with
         | Hf : ?a = [], Hx : ?a = [] -> _ |- _ => specialize (Hx Hf)
         end.

Section SaveRuns.
Context {R : Type} `{RemoteStore R}.

Lemma wp_mono {A} (m : M R A) (Q Q' : Res A -> World R -> Prop) (w : World R) :
  wp m Q w -> (forall r w', Q r w' -> Q' r w') -> wp m Q' w.
Proof. unfold wp. auto. Qed.

Lemma wp_execute_check (c : conn) (check : LocalDb -> option exn)
    (effect : LocalDb -> LocalDb) Q (w : World R) :
  (forall fs, (faults w = [] -> fs = []) -> check (c (local_db w)) = None ->
              Q (Ok (fun db => effect (c db))) (set_faults fs w)) ->
  (forall e fs, (faults w = [] -> fs = []) -> check (c (local_db w)) = Some e ->
                Q (Raise e) (set_faults fs w)) ->
  (forall e fs, faults w <> [] -> Q (Raise e) (set_faults fs w)) ->
  wp (execute c check effect) Q w.
Proof.
  intros Hok Hcheck Hraise. unfold execute. apply wp_bind, wp_sqlite_call; [|done].
  intros fs Hfs. apply wp_bind, wp_ask. cbn [local_db set_faults].
  destruct (check (c (local_db w))) as [e|] eqn:Hc.
  - unfold wp, raise. cbn. by apply Hcheck.
  - by apply wp_ret, Hok.
Qed.

(** What [_add_to_sync_queue] leaves behind: the entry committed and
    [True], or nothing and [False]. *)
Lemma add_to_sync_queue_cases record_type record_id d priority (w : World R) :
  wp (OfflineManager._add_to_sync_queue record_type record_id d priority)
    (fun r w' =>
       exists fs, (faults w = [] -> fs = []) /\
         ((r = Ok true /\
           OfflineManager.sync_id_taken
             (SyncQueue.sync_id (new_entry w record_type record_id d priority))
             (local_db w) = None /\
           w' = set_local_db
                  (OfflineManager.insert_sync_queue
                     (new_entry w record_type record_id d priority) (local_db w))
                  (set_faults fs w)) \/
          (r = Ok false /\ w' = set_faults fs w /\
           (faults w = [] ->
            OfflineManager.sync_id_taken
              (SyncQueue.sync_id (new_entry w record_type record_id d priority))
              (local_db w) <> None)))) w.
Proof.
  unfold OfflineManager._add_to_sync_queue.
  apply wp_try_except, wp_bind, wp_connect.
  2:{ intros e fs Hne. apply wp_ret. exists fs. split; [done|]. right. done. }
  intros fs1 Hfs1. apply wp_bind, wp_ask, wp_bind, wp_execute_check.
  - intros fs2 Hfs2 Hfree. apply wp_bind, wp_commit.
    + intros fs3 Hfs3. apply wp_ret. exists fs3.
      split; [intros Hf; by chain_faults|]. left. done.
    + intros e fs Hne. apply wp_ret. exists fs.
      split; [intros Hf; exfalso; by chain_faults|]. right.
      split; [done|]. split; [done|]. intros Hf. exfalso. by chain_faults.
  - intros e fs2 Hfs2 Htaken. apply wp_ret. exists fs2.
    split; [intros Hf; by chain_faults|]. right. split; [done|]. split; [done|].
    intros _. unfold new_entry. cbn [SyncQueue.sync_id].
    cbn [local_db set_faults epoch] in Htaken. by rewrite Htaken.
  - intros e fs Hne. apply wp_ret. exists fs.
    split; [intros Hf; exfalso; by chain_faults|]. right.
    split; [done|]. split; [done|]. intros Hf. exfalso. by chain_faults.
Qed.

Lemma add_to_sync_queue_runs record_type record_id d priority (w : World R) :
  faults w = [] ->
  exists b,
    OfflineManager._add_to_sync_queue record_type record_id d priority w
    = (Ok b, set_local_db (enqueued w record_type record_id d priority (local_db w)) w) /\
    b = match OfflineManager.sync_id_taken
                (SyncQueue.sync_id (new_entry w record_type record_id d priority))
                (local_db w) with
        | None => true
        | Some _ => false
        end.
Proof.
  intros Hf. unfold OfflineManager._add_to_sync_queue, enqueued, new_entry.
  run_monad. rewrite Hf. cbn. rewrite Hf. cbn.
  destruct (OfflineManager.sync_id_taken _ (local_db w)); cbn.
  - exists false. split; [|done]. f_equal. by destruct w.
  - rewrite Hf. cbn. by exists true.
Qed.

Lemma sync_id_taken_iff sid db :
  OfflineManager.sync_id_taken sid db <> None <->
  exists e, In e (sync_queue db) /\ SyncQueue.sync_id e = sid.
Proof.
  unfold OfflineManager.sync_id_taken.
  destruct (existsb _ _) eqn:He.
  - split; [intros _|done]. apply List.existsb_exists in He as (e & Hin & Heq).
    exists e. split; [done|]. by apply String.eqb_eq.
  - split; [done|]. intros (e & Hin & Heq).
    assert (Ht : existsb (fun r => String.eqb (SyncQueue.sync_id r) sid) (sync_queue db) = true).
    { apply List.existsb_exists. exists e. split; [done|]. by apply String.eqb_eq. }
    congruence.
Qed.

Lemma enqueued_taken (w : World R) t i d prio db :
  OfflineManager.sync_id_taken (SyncQueue.sync_id (new_entry w t i d prio))
    (enqueued w t i d prio db) <> None.
Proof.
  unfold enqueued.
  destruct (OfflineManager.sync_id_taken _ db) eqn:Ht; [by rewrite Ht|].
  apply sync_id_taken_iff. exists (new_entry w t i d prio). split; [|done].
  unfold OfflineManager.insert_sync_queue. cbn. apply List.in_app_iff. right. by left.
Qed.

(** X2.  The sync id of a queue entry is record type, record id and the clock
    second. When no sqlite3 call raises, a second _add_to_sync_queue for the
    same record within the same second is refused by the primary key: it
    returns False and leaves the store as the first call left it, so the queue
    keeps an entry with that sync id and not the later payload. *)
Theorem second_enqueue_in_same_second_is_refused
    (record_type record_id : string) (d1 d2 : doc) (priority1 priority2 : Z)
    (w : World R) :
  faults w = [] ->
  let w1 := snd (OfflineManager._add_to_sync_queue record_type record_id d1 priority1 w) in
  OfflineManager._add_to_sync_queue record_type record_id d2 priority2 w1
    = (Ok false, w1) /\
  exists e, In e (sync_queue (local_db w1)) /\
            SyncQueue.sync_id e
            = record_type ++ "_" ++ record_id ++ "_" ++ str_int (epoch w).
Proof.
  intros Hf. cbv zeta.
  destruct (add_to_sync_queue_runs record_type record_id d1 priority1 w Hf)
    as (b1 & -> & _). cbn [snd].
  set (db1 := enqueued w record_type record_id d1 priority1 (local_db w)).
  assert (Htaken : OfflineManager.sync_id_taken
            (record_type ++ "_" ++ record_id ++ "_" ++ str_int (epoch w)) db1 <> None)
    by apply (enqueued_taken w record_type record_id d1 priority1).
  split; [|by apply sync_id_taken_iff].
  destruct (add_to_sync_queue_runs record_type record_id d2 priority2
              (set_local_db db1 w) Hf) as (b2 & -> & ->).
  unfold enqueued, new_entry. cbn [SyncQueue.sync_id local_db set_local_db epoch].
  destruct (OfflineManager.sync_id_taken _ db1); [reflexivity|done].
Qed.

Lemma patient_exists_false pid db :
  OfflineManager.patient_exists pid db = false ->
  forall r, In r (patients db) -> Patients.patient_id r <> pid.
Proof.
  unfold OfflineManager.patient_exists. intros He r Hin Hid.
  assert (Ht : existsb (fun r => String.eqb (Patients.patient_id r) pid) (patients db) = true).
  { apply List.existsb_exists. exists r. split; [done|]. by apply String.eqb_eq. }
  congruence.
Qed.

Lemma upserted_rows (p : OfflineManager.Patient) d now_ db (r : Patients.row) :
  In r (patients (upserted p d now_ db)) ->
  (Patients.patient_id r = OfflineManager.patient_id p /\
   Patients.data r = d /\ Patients.updated_at r = now_ /\ Patients.synced r = 0) \/
  (Patients.patient_id r <> OfflineManager.patient_id p /\ In r (patients db)).
Proof.
  unfold upserted.
  destruct (OfflineManager.patient_exists _ db) eqn:He.
  - unfold OfflineManager.update_patient. cbn. intros Hin.
    apply List.in_map_iff in Hin as (r0 & Hr & Hin).
    destruct (String.eqb_spec (Patients.patient_id r0) (OfflineManager.patient_id p));
      subst r; [by left|by right].
  - unfold OfflineManager.insert_patient. cbn. intros Hin.
    apply List.in_app_iff in Hin as [Hin|[<-|[]]]; [right|by left].
    split; [|done]. by eapply patient_exists_false.
Qed.

Lemma upserted_keeps_others (p : OfflineManager.Patient) d now_ db (r : Patients.row) :
  Patients.patient_id r <> OfflineManager.patient_id p ->
  In r (patients db) -> In r (patients (upserted p d now_ db)).
Proof.
  intros Hne Hin. unfold upserted.
  destruct (OfflineManager.patient_exists _ db).
  - unfold OfflineManager.update_patient. cbn. apply List.in_map_iff.
    exists r. split; [|done].
    by destruct (String.eqb_spec (Patients.patient_id r) (OfflineManager.patient_id p)).
  - unfold OfflineManager.insert_patient. cbn. apply List.in_app_iff. by left.
Qed.

Lemma select_after_upsert (p : OfflineManager.Patient) d now_ db :
  OfflineManager.select_patient_data (OfflineManager.patient_id p)
    (upserted p d now_ db) = Some d.
Proof.
  unfold OfflineManager.select_patient_data.
  destruct (List.filter _ (patients (upserted p d now_ db))) as [|r l] eqn:Hl.
  - pose proof (upsert_exists (OfflineManager.patient_id p) d now_ db) as He.
    fold (upserted p d now_ db) in He.
    unfold OfflineManager.patient_exists in He.
    apply List.existsb_exists in He as (r & Hin & Hr).
    assert (Hin' : In r (List.filter
              (fun r => String.eqb (Patients.patient_id r) (OfflineManager.patient_id p))
              (patients (upserted p d now_ db)))) by by apply List.filter_In.
    rewrite Hl in Hin'. destruct Hin'.
  - assert (Hin : In r (r :: l)) by by left.
    rewrite <- Hl in Hin. apply List.filter_In in Hin as [Hin Hr].
    apply String.eqb_eq in Hr.
    apply upserted_rows in Hin as [(_ & -> & _)|[Hne _]]; done.
Qed.

Ltac save_done :=
  unfold saved_patient_as, saved_assessment_as, upserted, upserted_assessment,
    new_entry;
  cbn [local_db set_local_db set_faults faults now epoch config];
  repeat match goal with
         | Hx : OfflineManager.patient_exists _ _ = _ |- _ => rewrite Hx
         | Hx : OfflineManager.assessment_exists _ _ = _ |- _ => rewrite Hx
         end;
  unfold OfflineManager.update_patient, OfflineManager.insert_patient,
    OfflineManager.update_assessment, OfflineManager.insert_assessment,
    OfflineManager.insert_sync_queue;
  cbn [patients health_assessments sync_queue sync_data_table with_patients
         with_assessments with_queue];
  repeat split; try reflexivity;
  first [ left; reflexivity
        | right; split; reflexivity
        | right; eexists; split; [eassumption|reflexivity]
        | left; split; [reflexivity|]; eexists; split; [eassumption|reflexivity] ].

Lemma save_patient_cases (p : OfflineManager.Patient) (w : World R) :
  wp (OfflineManager.save_patient_offline p)
    (fun r w' => saved_patient_as p w r (local_db w')) w.
Proof.
  unfold OfflineManager.save_patient_offline.
  apply wp_try_except, wp_bind, wp_connect.
  2:{ intros e fs Hne. apply wp_ret. save_done. }
  intros fs1 Hfs1. apply wp_bind, wp_lift.
  destruct (json_dumps (OfflineManager.Patient_to_dict p)) as [d|e] eqn:Hd.
  2:{ apply wp_ret. save_done. }
  apply wp_bind, wp_ask, wp_bind, wp_query.
  2:{ intros e fs Hne. apply wp_ret. save_done. }
  intros fs2 Hfs2. cbn [local_db set_faults].
  destruct (OfflineManager.patient_exists (OfflineManager.patient_id p) (local_db w))
    eqn:Hex;
    (apply wp_bind, wp_execute; [|intros e fs Hne; apply wp_ret; save_done]);
    intros fs3 Hfs3; apply wp_bind;
    (eapply wp_mono; [apply add_to_sync_queue_cases|]);
    intros r w2 (fs & Hfs & [(-> & Hfree & ->)|(-> & -> & _)]);
    (apply wp_bind, wp_commit; [|intros e fs' Hne; apply wp_ret; save_done]);
    intros fs5 Hfs5; apply wp_ret; save_done.
Qed.

Lemma save_assessment_cases (a : OfflineManager.HealthAssessment) (w : World R) :
  wp (OfflineManager.save_assessment_offline a)
    (fun r w' => saved_assessment_as a w r (local_db w')) w.
Proof.
  unfold OfflineManager.save_assessment_offline.
  apply wp_try_except, wp_bind, wp_connect.
  2:{ intros e fs Hne. apply wp_ret. save_done. }
  intros fs1 Hfs1. apply wp_bind, wp_lift.
  destruct (json_dumps (OfflineManager.HealthAssessment_to_dict a)) as [d|e] eqn:Hd.
  2:{ apply wp_ret. save_done. }
  apply wp_bind, wp_ask, wp_bind, wp_query.
  2:{ intros e fs Hne. apply wp_ret. save_done. }
  intros fs2 Hfs2. cbn [local_db set_faults].
  destruct (OfflineManager.assessment_exists (OfflineManager.assessment_id a)
              (local_db w)) eqn:Hex;
    (apply wp_bind, wp_execute; [|intros e fs Hne; apply wp_ret; save_done]);
    intros fs3 Hfs3; apply wp_bind;
    (eapply wp_mono; [apply add_to_sync_queue_cases|]);
    intros r w2 (fs & Hfs & [(-> & Hfree & ->)|(-> & -> & _)]);
    (apply wp_bind, wp_commit; [|intros e fs' Hne; apply wp_ret; save_done]);
    intros fs5 Hfs5; apply wp_ret; save_done.
Qed.

(** X1.  Whatever sqlite3 does, save_patient_offline returns True or False,
    and True exactly when the patient row was committed: on True the table
    patients is the old one with the row of this patient updated or inserted
    (data the JSON of to_dict, updated_at now, synced 0), on False it is
    unchanged. The other tables are never touched, and the sync queue is the
    old one, or the old one followed by the entry of this save: the return
    value says nothing about the queue entry. *)
Theorem save_outcome_tells_the_record (p : OfflineManager.Patient) (w : World R) :
  let db := local_db w in
  let r := fst (OfflineManager.save_patient_offline p w) in
  let db' := local_db (snd (OfflineManager.save_patient_offline p w)) in
  health_assessments db' = health_assessments db /\
  sync_data_table db' = sync_data_table db /\
  (sync_queue db' = sync_queue db \/
   exists d, json_dumps (OfflineManager.Patient_to_dict p) = Ok d /\
     sync_queue db'
     = (sync_queue db ++
        [SyncQueue.Row
           ("patient" ++ "_" ++ OfflineManager.patient_id p ++ "_" ++ str_int (epoch w))
           "patient" (OfflineManager.patient_id p) d (priority_patients (config w))
           (Iso.isoformat (now w)) 0 None None])%list) /\
  ((r = Ok true /\
    exists d, json_dumps (OfflineManager.Patient_to_dict p) = Ok d /\
      patients db'
      = patients
          (if OfflineManager.patient_exists (OfflineManager.patient_id p) db
           then OfflineManager.update_patient d (Iso.isoformat (now w))
                  (OfflineManager.patient_id p) db
           else OfflineManager.insert_patient (OfflineManager.patient_id p) d
                  (Iso.isoformat (now w)) db)) \/
   (r = Ok false /\ patients db' = patients db)).
Proof. exact (save_patient_cases p w). Qed.

(** X4.  Round trip. When save_patient_offline has returned True for a patient
    with a non-empty id, the stored data is the JSON of to_dict, and a later
    get_patient_offline that meets no sqlite3 error returns a patient (not
    None) with that id, whether or not the queue entry was written. *)
Theorem saved_patient_is_read_back (p : OfflineManager.Patient) (w w1 : World R) :
  fst (OfflineManager.save_patient_offline p w) = Ok true ->
  OfflineManager.patient_id p <> "" ->
  local_db w1 = local_db (snd (OfflineManager.save_patient_offline p w)) ->
  faults w1 = [] ->
  OfflineManager.select_patient_data (OfflineManager.patient_id p) (local_db w1)
    = Some (OfflineManager.Patient_to_dict p) /\
  exists p',
    OfflineManager.get_patient_offline (OfflineManager.patient_id p) w1
      = (Ok (Some p'), w1) /\
    OfflineManager.patient_id p' = OfflineManager.patient_id p.
Proof.
  intros Htrue Hne Hdb Hf.
  destruct (save_patient_cases p w) as (_ & _ & _ & [(_ & d & Hd & Hp)|(Hfalse & _)]);
    [|rewrite Htrue in Hfalse; discriminate].
  assert (Hdd : d = OfflineManager.Patient_to_dict p).
  { unfold json_dumps in Hd. destruct (existsb _ _); congruence. }
  subst d.
  assert (Hsel : OfflineManager.select_patient_data (OfflineManager.patient_id p)
                   (local_db w1) = Some (OfflineManager.Patient_to_dict p)).
  { rewrite <- (select_after_upsert p (OfflineManager.Patient_to_dict p)
                  (Iso.isoformat (now w)) (local_db w)).
    unfold OfflineManager.select_patient_data. by rewrite Hdb, Hp. }
  split; [exact Hsel|].
  unfold OfflineManager.get_patient_offline. run_monad. rewrite Hf. cbn.
  rewrite Hf. cbn. rewrite Hsel. cbn.
  eexists. split; [reflexivity|]. cbn.
  unfold get, OfflineManager.Patient_to_dict. rewrite lookup_insert_eq.
  apply String.eqb_neq in Hne. by rewrite Hne.
Qed.

(** X5.  Saving an assessment that is already stored never changes the columns
    patient_id and created_at of any row, whatever sqlite3 does: the UPDATE
    sets data and synced only. When the save returns True the row holds the
    new JSON, with synced 0, under the patient id it had before, even if the
    assessment now names another patient. *)
Theorem resaved_assessment_keeps_patient_column
    (a : OfflineManager.HealthAssessment) (w : World R) (r0 : Assessments.row) :
  In r0 (health_assessments (local_db w)) ->
  Assessments.assessment_id r0 = OfflineManager.assessment_id a ->
  let w' := snd (OfflineManager.save_assessment_offline a w) in
  map Assessments.patient_id (health_assessments (local_db w'))
    = map Assessments.patient_id (health_assessments (local_db w)) /\
  map Assessments.created_at (health_assessments (local_db w'))
    = map Assessments.created_at (health_assessments (local_db w)) /\
  (fst (OfflineManager.save_assessment_offline a w) = Ok true ->
   In (Assessments.Row (OfflineManager.assessment_id a) (Assessments.patient_id r0)
         (OfflineManager.HealthAssessment_to_dict a) (Assessments.created_at r0) 0)
      (health_assessments (local_db w'))).
Proof.
  intros Hin Hid. cbv zeta.
  assert (He : OfflineManager.assessment_exists (OfflineManager.assessment_id a)
                 (local_db w) = true).
  { unfold OfflineManager.assessment_exists.
    apply List.existsb_exists. exists r0. split; [done|]. by apply String.eqb_eq. }
  destruct (save_assessment_cases a w)
    as (_ & _ & _ & [(Htrue & d & Hd & ->)|(Hfalse & ->)]).
  2:{ split; [done|]. split; [done|]. rewrite Hfalse. discriminate. }
  assert (Hdd : d = OfflineManager.HealthAssessment_to_dict a).
  { unfold json_dumps in Hd. destruct (existsb _ _); congruence. }
  subst d. unfold upserted_assessment. rewrite He.
  unfold OfflineManager.update_assessment. cbn. split; [|split].
  - rewrite List.map_map. apply List.map_ext. intros r.
    by destruct (String.eqb _ _).
  - rewrite List.map_map. apply List.map_ext. intros r.
    by destruct (String.eqb _ _).
  - intros _. apply List.in_map_iff. exists r0. split; [|done].
    apply String.eqb_eq in Hid. by rewrite Hid.
Qed.

Lemma json_dumps_datetime (d : doc) (k : string) (dt : datetime) :
  d !! k = Some (PDatetime dt) -> exists e, json_dumps d = Raise e.
Proof.
  intros Hk. unfold json_dumps.
  assert (He : existsb (fun kv => is_datetime (snd kv)) (map_to_list d) = true).
  { apply List.existsb_exists. exists (k, PDatetime dt). split; [|done].
    apply list_elem_of_In. by apply elem_of_map_to_list. }
  rewrite He. eauto.
Qed.

Lemma save_patient_unserialisable (p : OfflineManager.Patient) (e : exn) (w : World R) :
  json_dumps (OfflineManager.Patient_to_dict p) = Raise e ->
  fst (OfflineManager.save_patient_offline p w) = Ok false /\
  local_db (snd (OfflineManager.save_patient_offline p w)) = local_db w.
Proof.
  intros He. unfold OfflineManager.save_patient_offline. run_monad. rewrite He.
  destruct (faults w) as [|[] fs]; cbn; by split.
Qed.

Lemma save_assessment_unserialisable
    (a : OfflineManager.HealthAssessment) (e : exn) (w : World R) :
  json_dumps (OfflineManager.HealthAssessment_to_dict a) = Raise e ->
  fst (OfflineManager.save_assessment_offline a w) = Ok false /\
  local_db (snd (OfflineManager.save_assessment_offline a w)) = local_db w.
Proof.
  intros He. unfold OfflineManager.save_assessment_offline. run_monad. rewrite He.
  destruct (faults w) as [|[] fs]; cbn; by split.
Qed.

(** X3.  A patient one of whose attributes is a datetime cannot be saved:
    json.dumps raises, save_patient_offline returns False and the local store
    is unchanged, whatever sqlite3 does. *)
Theorem save_rejects_datetime_attribute
    (p : OfflineManager.Patient) (k : string) (dt : datetime) (w : World R) :
  k <> "patient_id" ->
  OfflineManager.patient_attrs p !! k = Some (PDatetime dt) ->
  fst (OfflineManager.save_patient_offline p w) = Ok false /\
  local_db (snd (OfflineManager.save_patient_offline p w)) = local_db w.
Proof.
  intros Hk Hattr.
  destruct (json_dumps_datetime (OfflineManager.Patient_to_dict p) k dt) as (e & He).
  { unfold OfflineManager.Patient_to_dict. by rewrite lookup_insert_ne. }
  by apply (save_patient_unserialisable p e).
Qed.

End SaveRuns.

(** ** What a pass of [OfflineManager.sync_data] keeps *)

Arguments OfflineManager.bump_attempt : simpl never.
Arguments OfflineManager.delete_sync : simpl never.
Arguments OfflineManager.set_error_message : simpl never.
Arguments OfflineManager.mark_patient_synced : simpl never.
Arguments OfflineManager.mark_assessment_synced : simpl never.
Arguments OfflineManager.found : simpl never.
Arguments _resolve_conflict : simpl never.

Section PassKeeps.

Lemma entry_kept_refl e : entry_kept e e.
Proof. unfold entry_kept. repeat split; lia. Qed.

Lemma entry_kept_trans a b c : entry_kept a b -> entry_kept b c -> entry_kept a c.
Proof. unfold entry_kept. intuition (try congruence; lia). Qed.

Lemma patient_kept_refl p : patient_kept p p.
Proof. unfold patient_kept. intuition. Qed.

Lemma patient_kept_trans a b c : patient_kept a b -> patient_kept b c -> patient_kept a c.
Proof. unfold patient_kept. intuition congruence. Qed.

Lemma assessment_kept_refl a : assessment_kept a a.
Proof. unfold assessment_kept. intuition. Qed.

Lemma assessment_kept_trans a b c :
  assessment_kept a b -> assessment_kept b c -> assessment_kept a c.
Proof. unfold assessment_kept. intuition congruence. Qed.

Lemma Forall2_same {A} (K : A -> A -> Prop) (l : list A) :
  (forall x, K x x) -> Forall2 K l l.
Proof. intros HK. induction l; constructor; auto. Qed.

Lemma Forall2_map_same {A} (K : A -> A -> Prop) (g : A -> A) (l : list A) :
  (forall x, K x (g x)) -> Forall2 K l (map g l).
Proof. intros HK. induction l; cbn; constructor; auto. Qed.

Lemma Forall2_compose {A} (K : A -> A -> Prop) (l1 l2 l3 : list A) :
  (forall a b c, K a b -> K b c -> K a c) ->
  Forall2 K l1 l2 -> Forall2 K l2 l3 -> Forall2 K l1 l3.
Proof.
  intros HK H12. revert l3. induction H12; intros l3 H23; inversion H23; subst;
    constructor; eauto.
Qed.

Lemma pass_keeps_refl db : pass_keeps db db.
Proof.
  unfold pass_keeps. split; [|split; [lia|]].
  - intros e Hin. exists e. split; [done|apply entry_kept_refl].
  - split; [apply Forall2_same, patient_kept_refl|].
    split; [apply Forall2_same, assessment_kept_refl|done].
Qed.

Lemma pass_keeps_trans db1 db2 db3 :
  pass_keeps db1 db2 -> pass_keeps db2 db3 -> pass_keeps db1 db3.
Proof.
  intros (Hq1 & Hl1 & Hp1 & Ha1 & Hs1) (Hq2 & Hl2 & Hp2 & Ha2 & Hs2).
  split; [|split; [lia|]].
  - intros e3 Hin. destruct (Hq2 e3 Hin) as (e2 & Hin2 & Hk2).
    destruct (Hq1 e2 Hin2) as (e1 & Hin1 & Hk1).
    exists e1. split; [done|]. by eapply entry_kept_trans.
  - split; [eapply Forall2_compose; eauto using patient_kept_trans|].
    split; [eapply Forall2_compose; eauto using assessment_kept_trans|congruence].
Qed.

Lemma pass_keeps_queue_map (g : SyncQueue.row -> SyncQueue.row) db :
  (forall e, entry_kept e (g e)) -> pass_keeps db (with_queue (map g) db).
Proof.
  intros Hg. split; [|split].
  - cbn. intros e' Hin. apply List.in_map_iff in Hin as (e & <- & Hin). eauto.
  - cbn. by rewrite List.length_map.
  - cbn. split; [apply Forall2_same, patient_kept_refl|].
    split; [apply Forall2_same, assessment_kept_refl|done].
Qed.

Lemma bump_attempt_keeps now_ sid db :
  pass_keeps db (OfflineManager.bump_attempt now_ sid db).
Proof.
  apply pass_keeps_queue_map. intros e.
  destruct (String.eqb_spec (SyncQueue.sync_id e) sid) as [<-|];
    unfold entry_kept; cbn; repeat split; lia.
Qed.

Lemma set_error_message_keeps msg sid db :
  pass_keeps db (OfflineManager.set_error_message msg sid db).
Proof.
  apply pass_keeps_queue_map. intros e.
  destruct (String.eqb_spec (SyncQueue.sync_id e) sid) as [<-|];
    unfold entry_kept; cbn; repeat split; lia.
Qed.

Lemma delete_sync_keeps sid db : pass_keeps db (OfflineManager.delete_sync sid db).
Proof.
  unfold OfflineManager.delete_sync.
  split; [|split].
  - cbn. intros e' Hin. apply List.filter_In in Hin as [Hin _].
    exists e'. split; [done|apply entry_kept_refl].
  - cbn. apply List.filter_length_le.
  - cbn. split; [apply Forall2_same, patient_kept_refl|].
    split; [apply Forall2_same, assessment_kept_refl|done].
Qed.

Lemma mark_patient_synced_keeps pid db :
  pass_keeps db (OfflineManager.mark_patient_synced pid db).
Proof.
  unfold OfflineManager.mark_patient_synced.
  split; [|split; [cbn; lia|]].
  - cbn. intros e Hin. exists e. split; [done|apply entry_kept_refl].
  - cbn. split; [|split; [apply Forall2_same, assessment_kept_refl|done]].
    apply Forall2_map_same. intros p.
    destruct (String.eqb_spec (Patients.patient_id p) pid) as [<-|];
      unfold patient_kept; cbn; intuition.
Qed.

Lemma mark_assessment_synced_keeps aid db :
  pass_keeps db (OfflineManager.mark_assessment_synced aid db).
Proof.
  unfold OfflineManager.mark_assessment_synced.
  split; [|split; [cbn; lia|]].
  - cbn. intros e Hin. exists e. split; [done|apply entry_kept_refl].
  - cbn. split; [apply Forall2_same, patient_kept_refl|].
    split; [|done].
    apply Forall2_map_same. intros a.
    destruct (String.eqb_spec (Assessments.assessment_id a) aid) as [<-|];
      unfold assessment_kept; cbn; intuition.
Qed.

End PassKeeps.

Section PassRuns.
Context {R : Type} `{RemoteStore R}.

Lemma moved_refl (w : World R) : moved w w.
Proof.
  exists (local_db w), (faults w), (central w).
  split; [by destruct w|]. split; [apply pass_keeps_refl|done].
Qed.

Lemma moved_trans (w1 w2 w3 : World R) : moved w1 w2 -> moved w2 w3 -> moved w1 w3.
Proof.
  intros (db & fs & c & -> & Hk & Hf) (db' & fs' & c' & -> & Hk' & Hf').
  exists db', fs', c'. split; [done|]. split.
  - eapply pass_keeps_trans; [exact Hk|exact Hk'].
  - intros Hw. cbn in Hf'. apply Hf'. by apply Hf.
Qed.

Lemma moved_faults (fs : list bool) (w : World R) :
  (faults w = [] -> fs = []) -> moved w (set_faults fs w).
Proof.
  intros Hf. exists (local_db w), fs, (central w).
  split; [by destruct w|]. split; [apply pass_keeps_refl|done].
Qed.

Lemma moved_local (db : LocalDb) (fs : list bool) (w : World R) :
  pass_keeps (local_db w) db -> (faults w = [] -> fs = []) ->
  moved w (set_local_db db (set_faults fs w)).
Proof.
  intros Hk Hf. exists db, fs, (central w). split; [by destruct w|]. done.
Qed.

Lemma moved_central (c : R) (w : World R) : moved w (set_central c w).
Proof.
  exists (local_db w), (faults w), c.
  split; [by destruct w|]. split; [apply pass_keeps_refl|done].
Qed.

Lemma wp_modify (g : World R -> World R) Q (w : World R) :
  Q (Ok tt) (g w) -> wp (modify g) Q w.
Proof. done. Qed.

Lemma wp_try_finally {A} (m : M R A) (g : World R -> World R) Q (w : World R) :
  wp m (fun r w' => Q r (g w')) w -> wp (try_finally m (modify g)) Q w.
Proof. unfold wp, try_finally, modify. by destruct (m w) as [r w']. Qed.

(** A [sqlite3] call raised: the handler returns, nothing was stored. *)
Ltac raised w :=
  let e := fresh "e" in let fs := fresh "fs" in
  let Hne := fresh "Hne" in let Hf := fresh "Hf" in
  intros e fs Hne; apply wp_ret; (split; [done|]);
  apply (moved_faults fs w); intros Hf; exfalso; chain_faults; subst; done.

Ltac committed w fs :=
  apply (moved_local _ fs w); [|let Hf := fresh "Hf" in intros Hf; by chain_faults].

(** Each of the three writes of a pass returns normally, whatever
    [sqlite3] does, and stores nothing but its statement. *)
Lemma update_sync_attempt_moves sid (w : World R) :
  wp (OfflineManager._update_sync_attempt sid)
    (fun r w' => r = Ok tt /\ moved w w') w.
Proof.
  unfold OfflineManager._update_sync_attempt.
  apply wp_try_except, wp_bind, wp_connect; [|raised w].
  intros fs1 Hfs1. apply wp_bind, wp_ask, wp_bind, wp_execute; [|raised w].
  intros fs2 Hfs2. apply wp_bind, wp_commit; [|raised w].
  intros fs3 Hfs3. apply wp_ret. split; [done|].
  committed w fs3. apply bump_attempt_keeps.
Qed.

Lemma update_sync_record_status_moves sid success msg (w : World R) :
  wp (OfflineManager._update_sync_record_status sid success msg)
    (fun r w' => r = Ok tt /\ moved w w') w.
Proof.
  unfold OfflineManager._update_sync_record_status.
  apply wp_try_except, wp_bind, wp_connect; [|raised w].
  intros fs1 Hfs1. apply wp_bind.
  destruct success; (apply wp_execute; [|raised w]);
    intros fs2 Hfs2; (apply wp_bind, wp_commit; [|raised w]);
    intros fs3 Hfs3; apply wp_ret; (split; [done|]); committed w fs3.
  - apply delete_sync_keeps.
  - apply set_error_message_keeps.
Qed.

Lemma mark_record_synced_moves record_type record_id (w : World R) :
  wp (OfflineManager._mark_record_synced record_type record_id)
    (fun r w' => r = Ok tt /\ moved w w') w.
Proof.
  unfold OfflineManager._mark_record_synced.
  apply wp_try_except, wp_bind, wp_connect; [|raised w].
  intros fs1 Hfs1. apply wp_bind.
  destruct (String.eqb record_type "patient");
    [|destruct (String.eqb record_type "health_assessment")].
  - apply wp_execute; [|raised w].
    intros fs2 Hfs2. apply wp_bind, wp_commit; [|raised w].
    intros fs3 Hfs3. apply wp_ret. split; [done|]. committed w fs3.
    apply mark_patient_synced_keeps.
  - apply wp_execute; [|raised w].
    intros fs2 Hfs2. apply wp_bind, wp_commit; [|raised w].
    intros fs3 Hfs3. apply wp_ret. split; [done|]. committed w fs3.
    apply mark_assessment_synced_keeps.
  - apply wp_ret. apply wp_bind, wp_commit; [|raised w].
    intros fs3 Hfs3. apply wp_ret. split; [done|]. committed w fs3.
    apply pass_keeps_refl.
Qed.

(** The two remote exchanges return normally, whatever the remote store
    does, and leave the local store alone. *)
Lemma sync_patient_moves pid d (w : World R) :
  wp (OfflineManager._sync_patient pid d)
    (fun r w' => (exists b, r = Ok b) /\ exists c, w' = set_central c w) w.
Proof.
  unfold wp, OfflineManager._sync_patient, try_except, OfflineManager.db_find_one,
    OfflineManager.db_update_one, OfflineManager.db_insert_one,
    mbind, M_bind, bind, mret, M_ret, ret.
  destruct (find_one _ _ (central w)) as [[cp|e] c]; cbn; [|eauto].
  destruct (OfflineManager.found cp) as [cd|]; cbn.
  - destruct (_resolve_conflict _ _ _); cbn; [|eauto].
    destruct (update_one _ _ _ c) as [[v|e] c2]; cbn; eauto.
  - destruct (insert_one _ _ c) as [[v|e] c2]; cbn; eauto.
Qed.

Lemma sync_assessment_moves aid d (w : World R) :
  wp (OfflineManager._sync_assessment aid d)
    (fun r w' => (exists b, r = Ok b) /\ exists c, w' = set_central c w) w.
Proof.
  unfold wp, OfflineManager._sync_assessment, try_except, OfflineManager.db_find_one,
    OfflineManager.db_update_one, OfflineManager.db_insert_one,
    mbind, M_bind, bind, mret, M_ret, ret.
  destruct (find_one _ _ (central w)) as [[cp|e] c]; cbn; [|eauto].
  destruct (OfflineManager.found cp) as [cd|]; cbn.
  - destruct (update_one _ _ _ c) as [[v|e] c2]; cbn; eauto.
  - destruct (insert_one _ _ c) as [[v|e] c2]; cbn; eauto.
Qed.

(** One record of the batch. *)
Lemma sync_record_moves (r : SyncQueue.row) (w : World R) :
  wp (OfflineManager._sync_record r)
    (fun res w' => (exists b, res = Ok b) /\ moved w w') w.
Proof.
  unfold OfflineManager._sync_record.
  apply wp_try_except, wp_bind, wp_lift. cbn [json_loads].
  apply wp_bind. eapply wp_mono; [apply update_sync_attempt_moves|].
  intros r1 w1 [-> Hm1].
  assert (Hfinish : forall (b : bool) (w2 : World R), moved w w2 ->
    wp (if b
        then OfflineManager._update_sync_record_status (SyncQueue.sync_id r) true None;;
             OfflineManager._mark_record_synced (SyncQueue.record_type r)
               (SyncQueue.record_id r);;
             mret true
        else mret false)
      (fun res w' =>
         match res with
         | Ok a => (exists b, Ok a = Ok b) /\ moved w w'
         | Raise e =>
             wp (OfflineManager._update_sync_record_status (SyncQueue.sync_id r) false
                   (Some (exn_msg e));; mret false)
               (fun res w'' => (exists b, res = Ok b) /\ moved w w'') w'
         end) w2).
  { intros [] w2 Hm2; [|apply wp_ret; eauto].
    apply wp_bind. eapply wp_mono; [apply update_sync_record_status_moves|].
    intros r3 w3 [-> Hm3]. apply wp_bind.
    eapply wp_mono; [apply mark_record_synced_moves|].
    intros r4 w4 [-> Hm4]. apply wp_ret. split; [eauto|].
    eauto using moved_trans. }
  destruct (String.eqb (SyncQueue.record_type r) "patient");
    [|destruct (String.eqb (SyncQueue.record_type r) "health_assessment")].
  - apply wp_bind. eapply wp_mono; [apply sync_patient_moves|].
    intros r2 w2 [[b ->] [c ->]]. apply Hfinish.
    eapply moved_trans; [exact Hm1|apply moved_central].
  - apply wp_bind. eapply wp_mono; [apply sync_assessment_moves|].
    intros r2 w2 [[b ->] [c ->]]. apply Hfinish.
    eapply moved_trans; [exact Hm1|apply moved_central].
  - apply wp_ret. eauto.
Qed.

(** The loop: it returns, every record is counted once, as synced or as
    failed. *)
Lemma sync_records_moves (records : list SyncQueue.row) :
  forall (s f : Z) (w : World R),
  wp (OfflineManager.sync_records records s f)
    (fun res w' =>
       (exists s' f', res = Ok (s', f') /\ s <= s' /\ f <= f' /\
          s' + f' = s + f + Z.of_nat (List.length records)) /\
       moved w w') w.
Proof.
  induction records as [|r records IH]; intros s f w.
  - apply wp_ret. split; [|apply moved_refl]. exists s, f. split; [done|cbn; lia].
  - cbn [OfflineManager.sync_records]. apply wp_bind, wp_try_except.
    eapply wp_mono; [apply sync_record_moves|].
    intros r1 w1 [[b ->] Hm1].
    destruct b; (eapply wp_mono; [apply IH|]);
      intros r2 w2 [(s' & f' & -> & Hs & Hf & Hsum) Hm2];
      (split; [|by eapply moved_trans]); exists s', f';
      cbn [List.length]; (split; [done|lia]).
Qed.

Lemma moved_keeps (w w' : World R) :
  moved w w' -> pass_keeps (local_db w) (local_db w') /\ now w' = now w /\
                (faults w = [] -> faults w' = []).
Proof. intros (db & fs & c & -> & Hk & Hf). done. Qed.

Lemma get_sync_queue_records_moves (limit : Z) (w : World R) :
  wp (OfflineManager._get_sync_queue_records limit)
    (fun r w' =>
       (exists rows, r = Ok rows /\
          (faults w = [] -> rows = select_sync_queue limit (local_db w))) /\
       moved w w') w.
Proof.
  unfold OfflineManager._get_sync_queue_records.
  assert (Hraised : forall (e : exn) (fs : list bool) (w1 : World R),
            faults w1 <> [] -> (faults w = [] -> faults w1 = []) ->
            set_faults fs w1 = set_faults fs w ->
            wp (mret ([] : list SyncQueue.row))
              (fun r w' =>
                 (exists rows, r = Ok rows /\
                    (faults w = [] -> rows = select_sync_queue limit (local_db w))) /\
                 moved w w') (set_faults fs w1)).
  { intros e fs w1 Hne Hf Hw. apply wp_ret. rewrite Hw. split.
    - exists []. split; [done|]. intros Hw0. by specialize (Hf Hw0).
    - apply moved_faults. intros Hw0. by specialize (Hf Hw0). }
  apply wp_try_except, wp_bind, wp_connect.
  2:{ intros e fs Hne. by apply Hraised. }
  intros fs1 Hfs1. apply wp_bind, wp_query.
  2:{ intros e fs Hne. by apply Hraised. }
  intros fs2 Hfs2. apply wp_ret. split; [eauto|].
  apply (moved_faults fs2 w). intros Hf. by chain_faults.
Qed.

(** A call of [sync_data]. *)
Lemma sync_data_moves (w : World R) :
  wp OfflineManager.sync_data
    (fun r w' =>
       (exists res, r = Ok res) /\
       pass_keeps (local_db w) (local_db w') /\
       (sync_in_progress w = false -> is_connected (central w) = Ok true ->
        faults w = [] ->
        exists s f,
          r = Ok (OfflineManager.sync_completed s f (now w)) /\
          0 <= s /\ 0 <= f /\
          s + f = Z.of_nat (List.length (select_sync_queue 50 (local_db w))) /\
          last_sync_time w' = Some (now w))) w.
Proof.
  unfold OfflineManager.sync_data. apply wp_bind, wp_ask.
  destruct (sync_in_progress w) eqn:Hbusy.
  { apply wp_ret. split; [eauto|]. split; [apply pass_keeps_refl|done]. }
  apply wp_bind, wp_modify, wp_try_finally, wp_try_except, wp_bind.
  unfold OfflineManager._check_connectivity, OfflineManager.db_is_connected.
  apply wp_try_except, wp_bind, wp_ask, wp_lift. cbn [central set_sync_in_progress].
  destruct (is_connected (central w)) as [[]|e] eqn:Hconn; cbn [negb].
  2,3: (try apply wp_ret; apply wp_bind, wp_modify, wp_ret;
        split; [eauto|]; split; [apply pass_keeps_refl|done]).
  apply wp_bind. eapply wp_mono; [apply get_sync_queue_records_moves|].
  intros r1 w1 [(rows & -> & Hrows) Hm1].
  apply wp_bind. eapply wp_mono; [apply sync_records_moves|].
  intros r2 w2 [(s & f & -> & Hs & Hf & Hsum) Hm2].
  apply wp_bind, wp_ask, wp_bind, wp_modify, wp_ret.
  destruct (moved_keeps _ _ (moved_trans _ _ _ Hm1 Hm2)) as (Hk & Hnow & _).
  cbn in Hk, Hnow. split; [eauto|]. split; [exact Hk|].
  intros _ _ Hw. exists s, f. cbn. rewrite Hnow.
  split; [done|]. specialize (Hrows Hw). cbn in Hrows. subst rows.
  repeat split; lia.
Qed.

End PassRuns.

Section PassTheorems.
Context {R : Type} `{RemoteStore R}.

(** X9.  OfflineManager.sync_data never raises, whatever sqlite3 and the
    remote store do, and a pass only consumes: every queue entry left is an
    entry that was there, with the same sync id, record, payload, priority and
    created_at and a retry count that has not decreased; the queue has not
    grown; the patient and assessment rows are the same rows with the same
    data and timestamps, except that synced may have become 1; the table of
    SyncService is untouched. *)
Theorem pass_keeps_the_local_store (w : World R) :
  (exists res, fst (OfflineManager.sync_data w) = Ok res) /\
  pass_keeps (local_db w) (local_db (snd (OfflineManager.sync_data w))).
Proof.
  pose proof (sync_data_moves w) as (Hres & Hk & _). by split.
Qed.

(** X10.  When the gate is free, the remote store is connected and no sqlite3
    call raises, sync_data reports success, the numbers of synced and of
    failed records add up to the size of the batch of at most 50 entries it
    read, and last_sync_time is set to the time of the pass. *)
Theorem pass_counts_every_record (w : World R) :
  sync_in_progress w = false ->
  is_connected (central w) = Ok true ->
  faults w = [] ->
  exists s f,
    fst (OfflineManager.sync_data w) = Ok (OfflineManager.sync_completed s f (now w)) /\
    0 <= s /\ 0 <= f /\
    s + f = Z.of_nat (List.length (select_sync_queue 50 (local_db w))) /\
    last_sync_time (snd (OfflineManager.sync_data w)) = Some (now w).
Proof.
  intros Hbusy Hconn Hf.
  pose proof (sync_data_moves w) as (_ & _ & Hcount). by apply Hcount.
Qed.

End PassTheorems.

(** ** One record of the batch, step by step *)

Section RecordPaths.
Context {R : Type} `{RemoteStore R}.

Lemma update_sync_attempt_runs sid (w : World R) :
  faults w = [] ->
  OfflineManager._update_sync_attempt sid w
  = (Ok tt, set_local_db
              (OfflineManager.bump_attempt (Iso.isoformat (now w)) sid (local_db w)) w).
Proof.
  intros Hf. unfold OfflineManager._update_sync_attempt. run_monad.
  rewrite Hf. cbn. rewrite Hf. cbn. rewrite Hf. reflexivity.
Qed.

Lemma update_sync_record_status_runs sid success msg (w : World R) :
  faults w = [] ->
  OfflineManager._update_sync_record_status sid success msg w
  = (Ok tt, set_local_db
              ((if success then OfflineManager.delete_sync sid
                else OfflineManager.set_error_message msg sid) (local_db w)) w).
Proof.
  intros Hf. unfold OfflineManager._update_sync_record_status. run_monad.
  rewrite Hf. cbn. destruct success; cbn; rewrite Hf; cbn; rewrite Hf; reflexivity.
Qed.

Lemma mark_patient_synced_runs record_id (w : World R) :
  faults w = [] ->
  OfflineManager._mark_record_synced "patient" record_id w
  = (Ok tt, set_local_db
              (OfflineManager.mark_patient_synced record_id (local_db w)) w).
Proof.
  intros Hf. unfold OfflineManager._mark_record_synced. run_monad.
  rewrite Hf. cbn. rewrite Hf. cbn. rewrite Hf. reflexivity.
Qed.

(** What [_update_sync_attempt] leaves, with or without a fault. *)
Lemma update_sync_attempt_cases sid (w : World R) :
  wp (OfflineManager._update_sync_attempt sid)
    (fun r w' =>
       r = Ok tt /\
       exists fs, (faults w = [] -> fs = []) /\
         (w' = set_local_db
                 (OfflineManager.bump_attempt (Iso.isoformat (now w)) sid (local_db w))
                 (set_faults fs w) \/
          (faults w <> [] /\ w' = set_faults fs w))) w.
Proof.
  assert (Hraised : forall (fs : list bool) (w1 : World R),
            faults w1 <> [] -> (faults w = [] -> faults w1 = []) ->
            set_faults fs w1 = set_faults fs w ->
            wp (mret tt)
              (fun r w' =>
                 r = Ok tt /\
                 exists fs, (faults w = [] -> fs = []) /\
                   (w' = set_local_db
                           (OfflineManager.bump_attempt (Iso.isoformat (now w)) sid
                              (local_db w)) (set_faults fs w) \/
                    (faults w <> [] /\ w' = set_faults fs w))) (set_faults fs w1)).
  { intros fs w1 Hne Hf Hw. apply wp_ret. rewrite Hw. split; [done|].
    assert (Hw0 : faults w <> []) by (intros Hw0; by specialize (Hf Hw0)).
    exists fs. split; [done|]. by right. }
  unfold OfflineManager._update_sync_attempt.
  apply wp_try_except, wp_bind, wp_connect.
  2:{ intros e fs Hne. by apply Hraised. }
  intros fs1 Hfs1. apply wp_bind, wp_ask, wp_bind, wp_execute.
  2:{ intros e fs Hne. by apply Hraised. }
  intros fs2 Hfs2. apply wp_bind, wp_commit.
  2:{ intros e fs Hne. apply Hraised; [done| |done]. intros Hf. by chain_faults. }
  intros fs3 Hfs3. apply wp_ret. split; [done|]. exists fs3.
  split; [intros Hf; by chain_faults|]. by left.
Qed.

Lemma bump_attempt_keeps_entries now_ sid db (e : SyncQueue.row) :
  In e (sync_queue db) ->
  exists e', In e' (sync_queue (OfflineManager.bump_attempt now_ sid db)) /\
             entry_kept e e'.
Proof.
  intros Hin. unfold OfflineManager.bump_attempt. cbn.
  eexists. split; [apply List.in_map, Hin|].
  destruct (String.eqb_spec (SyncQueue.sync_id e) sid) as [<-|];
    unfold entry_kept; cbn; repeat split; lia.
Qed.

(** X11.  A queue entry whose record type is neither patient nor
    health_assessment is never synchronised and never removed: _sync_record
    returns False without a call to the remote store, every entry of the queue
    is still there afterwards, and when no sqlite3 call raises the only change
    is the attempt recorded on that entry (no error message). *)
Theorem unknown_record_type_stays_queued (r : SyncQueue.row) (w : World R) :
  SyncQueue.record_type r <> "patient" ->
  SyncQueue.record_type r <> "health_assessment" ->
  let w' := snd (OfflineManager._sync_record r w) in
  fst (OfflineManager._sync_record r w) = Ok false /\
  central w' = central w /\
  (forall e, In e (sync_queue (local_db w)) ->
     exists e', In e' (sync_queue (local_db w')) /\ entry_kept e e') /\
  (faults w = [] ->
   local_db w' = OfflineManager.bump_attempt (Iso.isoformat (now w))
                   (SyncQueue.sync_id r) (local_db w)).
Proof.
  intros Hp Ha. cbv zeta.
  change (wp (OfflineManager._sync_record r)
            (fun res w' =>
               res = Ok false /\ central w' = central w /\
               (forall e, In e (sync_queue (local_db w)) ->
                  exists e', In e' (sync_queue (local_db w')) /\ entry_kept e e') /\
               (faults w = [] ->
                local_db w' = OfflineManager.bump_attempt (Iso.isoformat (now w))
                                (SyncQueue.sync_id r) (local_db w))) w).
  unfold OfflineManager._sync_record.
  apply String.eqb_neq in Hp, Ha. rewrite Hp, Ha.
  apply wp_try_except, wp_bind, wp_lift. cbn [json_loads].
  apply wp_bind. eapply wp_mono; [apply update_sync_attempt_cases|].
  intros r1 w1 [-> (fs & Hfs & [->|[Hne ->]])]; apply wp_ret; cbn.
  - split; [done|]. split; [done|]. split; [|done].
    intros e Hin. by apply bump_attempt_keeps_entries.
  - split; [done|]. split; [done|]. split; [|done].
    intros e Hin. exists e. split; [done|apply entry_kept_refl].
Qed.

Arguments OfflineManager._update_sync_attempt : simpl never.
Arguments OfflineManager._update_sync_record_status : simpl never.
Arguments OfflineManager._mark_record_synced : simpl never.
Arguments OfflineManager._sync_patient : simpl never.
Arguments OfflineManager._sync_assessment : simpl never.

Lemma sync_patient_remote_raises pid d (e : exn) (c' : R) (w : World R) :
  find_one "patients" {[ "patient_id" := PStr pid ]} (central w) = (Raise e, c') ->
  OfflineManager._sync_patient pid d w = (Ok false, set_central c' w).
Proof.
  intros Hfind. unfold OfflineManager._sync_patient, try_except,
    OfflineManager.db_find_one, mbind, M_bind, bind, mret, M_ret, ret.
  by rewrite Hfind.
Qed.

Lemma sync_patient_remote_newer pid d (cd : doc) (c' : R) (w : World R) :
  find_one "patients" {[ "patient_id" := PStr pid ]} (central w) = (Ok (Some cd), c') ->
  size cd <> 0%nat ->
  _resolve_conflict "patient" cd d = false ->
  OfflineManager._sync_patient pid d w = (Ok true, set_central c' w).
Proof.
  intros Hfind Hsize Hres. unfold OfflineManager._sync_patient, try_except,
    OfflineManager.db_find_one, mbind, M_bind, bind, mret, M_ret, ret.
  rewrite Hfind. cbn. unfold OfflineManager.found.
  apply Nat.eqb_neq in Hsize. rewrite Hsize. by rewrite Hres.
Qed.

(** X12.  When find_one raises for a patient entry (and no sqlite3 call
    raises), _sync_record returns False and the only change to the local store
    is the attempt recorded on the entry: the entry stays queued and no
    entry's error_message changes, because _sync_patient has swallowed the
    exception. *)
Theorem remote_failure_leaves_no_error_message
    (r : SyncQueue.row) (e : exn) (c' : R) (w : World R) :
  faults w = [] ->
  SyncQueue.record_type r = "patient" ->
  find_one "patients" {[ "patient_id" := PStr (SyncQueue.record_id r) ]} (central w)
    = (Raise e, c') ->
  OfflineManager._sync_record r w
  = (Ok false,
     set_central c'
       (set_local_db
          (OfflineManager.bump_attempt (Iso.isoformat (now w)) (SyncQueue.sync_id r)
             (local_db w)) w)) /\
  map SyncQueue.error_message
    (sync_queue (local_db (snd (OfflineManager._sync_record r w))))
  = map SyncQueue.error_message (sync_queue (local_db w)).
Proof.
  intros Hf Ht Hfind.
  assert (Hrun : OfflineManager._sync_record r w
    = (Ok false,
       set_central c'
         (set_local_db
            (OfflineManager.bump_attempt (Iso.isoformat (now w)) (SyncQueue.sync_id r)
               (local_db w)) w))).
  { unfold OfflineManager._sync_record, try_except, mbind, M_bind, bind, lift,
      json_loads, mret, M_ret, ret.
    rewrite Ht. cbn [String.eqb Ascii.eqb Bool.eqb].
    rewrite (update_sync_attempt_runs _ w Hf).
    by rewrite (sync_patient_remote_raises _ _ e c' (set_local_db _ w) Hfind). }
  split; [exact Hrun|]. rewrite Hrun. cbn.
  unfold OfflineManager.bump_attempt. cbn. rewrite List.map_map.
  apply List.map_ext. intros x. by destruct (String.eqb _ _).
Qed.

(** X13.  When the remote store holds a version of the patient that the
    conflict resolver prefers (and no sqlite3 call raises), _sync_record makes
    no remote write, returns True, deletes the queue entry and marks the local
    patient synced: the local edit is dropped from the queue without having
    been sent. *)
Theorem remote_newer_discards_local_edit
    (r : SyncQueue.row) (cd : doc) (c' : R) (w : World R) :
  faults w = [] ->
  SyncQueue.record_type r = "patient" ->
  find_one "patients" {[ "patient_id" := PStr (SyncQueue.record_id r) ]} (central w)
    = (Ok (Some cd), c') ->
  size cd <> 0%nat ->
  _resolve_conflict "patient" cd (SyncQueue.data r) = false ->
  OfflineManager._sync_record r w
  = (Ok true,
     set_central c'
       (set_local_db
          (OfflineManager.mark_patient_synced (SyncQueue.record_id r)
             (OfflineManager.delete_sync (SyncQueue.sync_id r)
                (OfflineManager.bump_attempt (Iso.isoformat (now w))
                   (SyncQueue.sync_id r) (local_db w)))) w)).
Proof.
  intros Hf Ht Hfind Hsize Hres.
  unfold OfflineManager._sync_record, try_except, mbind, M_bind, bind, lift,
    json_loads, mret, M_ret, ret.
  rewrite Ht. cbn [String.eqb Ascii.eqb Bool.eqb].
  rewrite (update_sync_attempt_runs _ w Hf).
  rewrite (sync_patient_remote_newer _ _ cd c' (set_local_db _ w) Hfind Hsize Hres).
  rewrite update_sync_record_status_runs by exact Hf.
  rewrite mark_patient_synced_runs by exact Hf.
  reflexivity.
Qed.

End RecordPaths.

(** ** [OfflineManager] in front of [Database] *)

Section ThroughDatabase.
Context {B : Type} `{Database.Backend B}.

Lemma failure_is_result (e : exn) : is_result (Database.failure e).
Proof.
  unfold Database.failure. split; [|split].
  - rewrite map_size_insert_None by done. lia.
  - done.
  - exists false. by rewrite lookup_insert_eq.
Qed.

Lemma sqlite_find_one_result collection query (st : B) :
  is_result (Database._sqlite_find_one collection query st).1.
Proof.
  unfold Database._sqlite_find_one.
  destruct (Database.sqlite_select collection query st) as [[[document|]|e] st'];
    cbn [fst]; [| |apply failure_is_result].
  - split; [|split].
    + rewrite map_size_insert_None by done. lia.
    + done.
    + exists true. by rewrite lookup_insert_eq.
  - split; [|split].
    + rewrite map_size_insert_None by done. lia.
    + done.
    + exists true. by rewrite lookup_insert_eq.
Qed.

Lemma find_one_result collection query (st : B) :
  is_result (Database.find_one collection query st).1.
Proof.
  unfold Database.find_one, Database.is_online.
  destruct (Database.connected _); [|apply sqlite_find_one_result].
  destruct (Database.mongo_find_one _ _ _) as [[[_id|]|e] st'];
    [|apply sqlite_find_one_result|apply failure_is_result].
  cbn [fst]. split; [|split].
  - rewrite map_size_insert_None by done. lia.
  - done.
  - exists true. by rewrite lookup_insert_eq.
Qed.

Lemma sync_patient_database_runs (pid : string) (data : doc) (w : World B) :
  OfflineManager._sync_patient pid data w
  = (Ok true,
     set_central
       (Database.update_one "patients" {[ "patient_id" := PStr pid ]} data
          (Database.find_one "patients" {[ "patient_id" := PStr pid ]} (central w)).2).2
       w).
Proof.
  pose proof (find_one_result "patients" {[ "patient_id" := PStr pid ]} (central w))
    as (Hsize & Hup & _).
  unfold OfflineManager._sync_patient, try_except, OfflineManager.db_find_one,
    OfflineManager.db_update_one, mbind, M_bind, bind, mret, M_ret, ret.
  cbn [find_one update_one Database_store].
  destruct (Database.find_one _ _ (central w)) as [result st1]. cbn [fst snd] in *.
  unfold OfflineManager.found. apply Nat.eqb_neq in Hsize. rewrite Hsize.
  rewrite resolve_conflict_missing.
  2:{ left. unfold get. by rewrite Hup. }
  cbn [central set_central].
  by destruct (Database.update_one _ _ _ st1) as [result2 st2].
Qed.

Lemma sync_assessment_database_runs (aid : string) (data : doc) (w : World B) :
  OfflineManager._sync_assessment aid data w
  = (Ok true,
     set_central
       (Database.update_one "health_assessments" {[ "assessment_id" := PStr aid ]} data
          (Database.find_one "health_assessments" {[ "assessment_id" := PStr aid ]}
             (central w)).2).2
       w).
Proof.
  pose proof (find_one_result "health_assessments" {[ "assessment_id" := PStr aid ]}
                (central w)) as (Hsize & _ & _).
  unfold OfflineManager._sync_assessment, try_except, OfflineManager.db_find_one,
    OfflineManager.db_update_one, mbind, M_bind, bind, mret, M_ret, ret.
  cbn [find_one update_one Database_store].
  destruct (Database.find_one _ _ (central w)) as [result st1]. cbn [fst snd] in *.
  unfold OfflineManager.found. apply Nat.eqb_neq in Hsize. rewrite Hsize.
  cbn [central set_central].
  by destruct (Database.update_one _ _ _ st1) as [result2 st2].
Qed.

(** X14.  With the repository's Database as the remote store, find_one answers
    every call with a non-empty result dictionary that has no updated_at. So
    _sync_patient always takes the branch of an existing patient, the resolver
    always chooses the local data, the write is always update_one (never
    insert_one), and the result is always True, whatever the backend did;
    _sync_assessment likewise always calls update_one and returns True. *)
Theorem sync_through_database (id : string) (data : doc) (w : World B) :
  let q : doc := {[ "patient_id" := PStr id ]} in
  let q' : doc := {[ "assessment_id" := PStr id ]} in
  (forall collection query st, is_result (Database.find_one collection query st).1) /\
  OfflineManager._sync_patient id data w
  = (Ok true,
     set_central
       (Database.update_one "patients" q data
          (Database.find_one "patients" q (central w)).2).2 w) /\
  OfflineManager._sync_assessment id data w
  = (Ok true,
     set_central
       (Database.update_one "health_assessments" q' data
          (Database.find_one "health_assessments" q' (central w)).2).2 w).
Proof.
  cbv zeta. split; [apply find_one_result|].
  split; [apply sync_patient_database_runs|apply sync_assessment_database_runs].
Qed.

(** X15.  With the repository's Database as the remote store and no sqlite3
    error, a patient entry whose central update failed (the result dictionary
    of update_one has success False) is still deleted from the queue and the
    patient marked synced, and _sync_record returns True. *)
Theorem failed_central_write_is_marked_synced (r : SyncQueue.row) (w : World B) :
  let q : doc := {[ "patient_id" := PStr (SyncQueue.record_id r) ]} in
  let written :=
    Database.update_one "patients" q (SyncQueue.data r)
      (Database.find_one "patients" q (central w)).2 in
  faults w = [] ->
  SyncQueue.record_type r = "patient" ->
  written.1 !! "success" = Some (PBool false) ->
  OfflineManager._sync_record r w
  = (Ok true,
     set_central written.2
       (set_local_db
          (OfflineManager.mark_patient_synced (SyncQueue.record_id r)
             (OfflineManager.delete_sync (SyncQueue.sync_id r)
                (OfflineManager.bump_attempt (Iso.isoformat (now w))
                   (SyncQueue.sync_id r) (local_db w)))) w)).
Proof.
  cbv zeta. intros Hf Ht _.
  unfold OfflineManager._sync_record, try_except, mbind, M_bind, bind, lift,
    json_loads, mret, M_ret, ret.
  rewrite Ht. cbn [String.eqb Ascii.eqb Bool.eqb].
  rewrite (update_sync_attempt_runs _ w Hf).
  rewrite sync_patient_database_runs.
  rewrite update_sync_record_status_runs by exact Hf.
  rewrite mark_patient_synced_runs by exact Hf.
  reflexivity.
Qed.

End ThroughDatabase.

(** ** Records built by the model classes *)

Section Constructed.
Context {R : Type} `{RemoteStore R}.

Lemma or_else_datetime (x : pyval) (d : datetime) :
  x = PNone \/ (exists d', x = PDatetime d') ->
  exists d', Models.or_else x (PDatetime d) = PDatetime d'.
Proof. intros [->|[d' ->]]; unfold Models.or_else; cbn; eauto. Qed.

(** X6.  A Patient built by the constructor of the model class with created_at
    left out or given as a datetime carries a datetime in to_dict, so
    save_patient_offline returns False for it and stores nothing. *)
Theorem constructed_patient_is_not_saved
    (fields : doc) (patient_id : option string) (created_at updated_at : pyval)
    (w0 w : World R) (p : OfflineManager.Patient) :
  created_at = PNone \/ (exists d, created_at = PDatetime d) ->
  fst (Models.Patient fields patient_id created_at updated_at w0) = Ok p ->
  fst (OfflineManager.save_patient_offline p w) = Ok false /\
  local_db (snd (OfflineManager.save_patient_offline p w)) = local_db w.
Proof.
  intros Hc [= <-].
  destruct (or_else_datetime created_at (now w0) Hc) as (d' & Hd).
  destruct (json_dumps_datetime
              (OfflineManager.Patient_to_dict
                 {| OfflineManager.patient_id := Models.id_or_uuid4 patient_id w0;
                    OfflineManager.patient_attrs :=
                      <["created_at" := Models.or_else created_at (PDatetime (now w0))]>
                        (<["updated_at" := Models.or_else updated_at (PDatetime (now w0))]>
                           fields) |}) "created_at" d') as (e & He).
  { unfold OfflineManager.Patient_to_dict. cbn.
    rewrite lookup_insert_ne by done. by rewrite lookup_insert_eq, Hd. }
  by apply (save_patient_unserialisable _ e).
Qed.

(** X7.  A HealthAssessment built by the constructor of the model class with
    assessment_date left out or given as a datetime carries a datetime in
    to_dict, so save_assessment_offline returns False for it and stores
    nothing. *)
Theorem constructed_assessment_is_not_saved
    (fields : doc) (patient_id : string) (assessment_id : option string)
    (assessment_date : pyval) (w0 w : World R) (a : OfflineManager.HealthAssessment) :
  assessment_date = PNone \/ (exists d, assessment_date = PDatetime d) ->
  fst (Models.HealthAssessment fields patient_id assessment_id assessment_date w0)
    = Ok a ->
  fst (OfflineManager.save_assessment_offline a w) = Ok false /\
  local_db (snd (OfflineManager.save_assessment_offline a w)) = local_db w.
Proof.
  intros Hc [= <-].
  destruct (or_else_datetime assessment_date (now w0) Hc) as (d' & Hd).
  destruct (json_dumps_datetime
              (OfflineManager.HealthAssessment_to_dict
                 {| OfflineManager.assessment_id := Models.id_or_uuid4 assessment_id w0;
                    OfflineManager.assessment_patient_id := patient_id;
                    OfflineManager.assessment_attrs :=
                      <["assessment_date" :=
                          Models.or_else assessment_date (PDatetime (now w0))]> fields |})
              "assessment_date" d') as (e & He).
  { unfold OfflineManager.HealthAssessment_to_dict. cbn.
    rewrite !lookup_insert_ne by done. by rewrite lookup_insert_eq, Hd. }
  by apply (save_assessment_unserialisable _ e).
Qed.

End Constructed.

(** ** The conflict resolver on timestamps with an offset *)

Section ResolverOffsets.

Lemma resolve_conflict_parsed record_type sc sl dc dl restc restl :
  Iso.fromisoformat (Iso.replace_Z sc) = Some dc ->
  Iso.fromisoformat (Iso.replace_Z sl) = Some dl ->
  _resolve_conflict record_type (stamped sc restc) (stamped sl restl)
  = match datetime_gt dl dc with Ok b => b | Raise _ => true end.
Proof.
  intros Hc Hl.
  unfold _resolve_conflict, resolve_conflict_body.
  rewrite !get_stamped. cbn [truthy parse_if_str].
  assert (Nc : sc <> "") by (intros ->; discriminate Hc).
  assert (Nl : sl <> "") by (intros ->; discriminate Hl).
  apply String.eqb_neq in Nc, Nl. rewrite Nc, Nl. cbn [negb orb].
  by rewrite Hc, Hl.
Qed.

(** X16.  When exactly one of the two updated_at texts carries a UTC offset,
    the comparison raises TypeError and _resolve_conflict answers True: the
    local version wins, whichever is later. *)
Theorem resolve_conflict_mixed_offsets record_type sc sl dc dl restc restl :
  Iso.fromisoformat (Iso.replace_Z sc) = Some dc ->
  Iso.fromisoformat (Iso.replace_Z sl) = Some dl ->
  (tzinfo dc = None /\ tzinfo dl <> None) \/ (tzinfo dc <> None /\ tzinfo dl = None) ->
  _resolve_conflict record_type (stamped sc restc) (stamped sl restl) = true.
Proof.
  intros Hc Hl Hmixed. rewrite (resolve_conflict_parsed _ _ _ dc dl) by done.
  unfold datetime_gt.
  destruct (tzinfo dc) as [oc|], (tzinfo dl) as [ol|]; try done;
    exfalso; destruct Hmixed as [[? ?]|[? ?]]; done.
Qed.

(** X17.  When both updated_at texts carry a UTC offset, _resolve_conflict
    compares the instants: the local version wins exactly when its instant is
    strictly later. *)
Theorem resolve_conflict_aware record_type sc sl dc dl oc ol restc restl :
  Iso.fromisoformat (Iso.replace_Z sc) = Some dc ->
  Iso.fromisoformat (Iso.replace_Z sl) = Some dl ->
  tzinfo dc = Some oc -> tzinfo dl = Some ol ->
  _resolve_conflict record_type (stamped sc restc) (stamped sl restl)
  = (Calendar.civil_us dc - oc <? Calendar.civil_us dl - ol).
Proof.
  intros Hc Hl Tc Tl. rewrite (resolve_conflict_parsed _ _ _ dc dl) by done.
  unfold datetime_gt. by rewrite Tc, Tl.
Qed.

End ResolverOffsets.

(** ** What the batch holds *)

Section BatchContents.
Context {R : Type} `{RemoteStore R}.

Lemma firstn_subset {A} (n : nat) (l : list A) (x : A) :
  In x (firstn n l) -> In x l.
Proof.
  revert l. induction n as [|n IH]; intros [|y l]; cbn; [done..|].
  intros [->|Hin]; [by left|right; by apply IH].
Qed.

Lemma select_sync_queue_In (limit : Z) (db : LocalDb) (e : SyncQueue.row) :
  In e (select_sync_queue limit db) -> In e (sync_queue db).
Proof.
  unfold select_sync_queue, sql_limit. intros Hin.
  assert (Hs : In e (order_by (A := SyncQueue.row) QueueOrder.leb (sync_queue db))).
  { destruct (limit <? 0); [done|]. by eapply firstn_subset. }
  eapply Permutation_in; [|exact Hs].
  apply Permutation_sym, (order_by_Permutation (A := SyncQueue.row) QueueOrder.leb).
Qed.

Lemma select_sync_queue_all (limit : Z) (db : LocalDb) :
  limit < 0 \/ Z.of_nat (List.length (sync_queue db)) <= limit ->
  Permutation (select_sync_queue limit db) (sync_queue db).
Proof.
  intros Hl. unfold select_sync_queue, sql_limit.
  pose proof ((order_by_Permutation (A := SyncQueue.row) QueueOrder.leb) (sync_queue db)) as Hp.
  destruct (Z.ltb_spec limit 0); [by apply Permutation_sym|].
  rewrite List.firstn_all2; [by apply Permutation_sym|].
  apply Permutation_length in Hp. lia.
Qed.

Lemma queue_before_priority (a b : SyncQueue.row) :
  queue_before a b -> SyncQueue.priority b <= SyncQueue.priority a.
Proof. unfold queue_before. lia. Qed.

Lemma select_sync_queue_head (limit : Z) (db : LocalDb) (e : SyncQueue.row) :
  limit <> 0 -> In e (sync_queue db) ->
  exists h, hd_error (select_sync_queue limit db) = Some h /\
            SyncQueue.priority e <= SyncQueue.priority h.
Proof.
  intros Hl Hin.
  assert (Hsorted : StronglySorted queue_before
                      (order_by (A := SyncQueue.row) QueueOrder.leb (sync_queue db))).
  { eapply StronglySorted_impl;
      [|apply order_by_sorted;
        [apply QueueOrder.leb_total|apply queue_leb_transitive]].
    intros a b Hab. by apply queue_leb_iff. }
  assert (Hs : In e (order_by (A := SyncQueue.row) QueueOrder.leb (sync_queue db))).
  { eapply Permutation_in;
      [apply (order_by_Permutation (A := SyncQueue.row) QueueOrder.leb)|done]. }
  unfold select_sync_queue, sql_limit.
  destruct (order_by (A := SyncQueue.row) QueueOrder.leb (sync_queue db)) as [|h t]; [done|].
  assert (Hmax : SyncQueue.priority e <= SyncQueue.priority h).
  { apply StronglySorted_inv in Hsorted as [_ Hall].
    destruct Hs as [->|Ht]; [lia|].
    rewrite List.Forall_forall in Hall. by apply queue_before_priority, Hall. }
  exists h. split; [|done].
  destruct (Z.ltb_spec limit 0); [done|].
  destruct (Z.to_nat limit) as [|n] eqn:Hn; [lia|done].
Qed.

(** X8.  _get_sync_queue_records never changes the store and returns only
    entries of the queue. When no sqlite3 call raises: if the limit is
    negative or not below the length of the queue, the batch is a permutation
    of the whole queue; and if the limit is not 0, the first entry of the
    batch has the highest priority of the whole queue. *)
Theorem batch_is_drawn_from_the_queue (limit : Z) (w : World R) :
  exists rows w',
    OfflineManager._get_sync_queue_records limit w = (Ok rows, w') /\
    local_db w' = local_db w /\
    (forall e, In e rows -> In e (sync_queue (local_db w))) /\
    (faults w = [] ->
     (limit < 0 \/ Z.of_nat (List.length (sync_queue (local_db w))) <= limit ->
      Permutation rows (sync_queue (local_db w))) /\
     (limit <> 0 -> forall e, In e (sync_queue (local_db w)) ->
      exists h, hd_error rows = Some h /\
                SyncQueue.priority e <= SyncQueue.priority h)).
Proof.
  destruct (faults w) as [|b fs] eqn:Hf.
  - exists (select_sync_queue limit (local_db w)), w. split.
    { unfold OfflineManager._get_sync_queue_records. run_monad.
      rewrite Hf. cbn. by rewrite Hf. }
    split; [done|]. split; [intros e; apply select_sync_queue_In|].
    intros _. split; [apply select_sync_queue_all|].
    intros Hl e Hin. by apply select_sync_queue_head.
  - destruct (get_sync_queue_records_cases limit w) as (w' & [Hr|Hr] & Hdb & _).
    + eexists _, w'. split; [exact Hr|]. split; [done|].
      split; [intros e; apply select_sync_queue_In|done].
    + exists [], w'. split; [exact Hr|]. split; [done|]. split; [by intros e []|done].
Qed.

End BatchContents.

(** ** The retention sweep under faults *)

Section SweepRuns.
Context {R : Type} `{RemoteStore R}.

Lemma clean_old_synced_records_cases (w : World R) :
  wp OfflineManager._clean_old_synced_records
    (fun r w' =>
       r = Ok tt /\
       (local_db w' = local_db w \/
        exists cutoff, OfflineManager.cutoff_date w = Ok cutoff /\
                       local_db w' = swept cutoff (local_db w)) /\
       (faults w = [] -> forall cutoff, OfflineManager.cutoff_date w = Ok cutoff ->
        local_db w' = swept cutoff (local_db w))) w.
Proof.
  assert (Hraised : forall (fs : list bool) (w1 : World R),
            faults w1 <> [] -> (faults w = [] -> faults w1 = []) ->
            local_db w1 = local_db w ->
            wp (mret tt)
              (fun r w' =>
                 r = Ok tt /\
                 (local_db w' = local_db w \/
                  exists cutoff, OfflineManager.cutoff_date w = Ok cutoff /\
                                 local_db w' = swept cutoff (local_db w)) /\
                 (faults w = [] -> forall cutoff,
                  OfflineManager.cutoff_date w = Ok cutoff ->
                  local_db w' = swept cutoff (local_db w))) (set_faults fs w1)).
  { intros fs w1 Hne Hf Hdb. apply wp_ret. split; [done|]. split; [by left|].
    intros Hw. by specialize (Hf Hw). }
  unfold OfflineManager._clean_old_synced_records.
  apply wp_try_except, wp_bind, wp_connect.
  2:{ intros e fs Hne. by apply Hraised. }
  intros fs1 Hfs1. apply wp_bind, wp_ask, wp_bind, wp_lift.
  change (OfflineManager.cutoff_date (set_faults fs1 w))
    with (OfflineManager.cutoff_date w).
  destruct (OfflineManager.cutoff_date w) as [cutoff|e] eqn:Hc.
  2:{ apply wp_ret. split; [done|]. split; [by left|]. by intros _ ? [=]. }
  apply wp_bind, wp_execute.
  2:{ intros e fs Hne. by apply Hraised. }
  intros fs2 Hfs2. apply wp_bind, wp_query.
  2:{ intros e fs Hne. apply Hraised; [done| |done]. intros Hf. by chain_faults. }
  intros fs3 Hfs3. cbn [local_db set_faults].
  assert (Hend : forall (eff : LocalDb -> LocalDb) fs4,
            (faults w = [] -> fs4 = []) ->
            eff (OfflineManager.delete_old_assessments cutoff (local_db w))
              = swept cutoff (local_db w) ->
            wp (commit (fun db =>
                  eff (OfflineManager.delete_old_assessments cutoff db));; mret tt)
              (fun r w' =>
                 match r with
                 | Ok a =>
                     Ok a = Ok tt /\
                     (local_db w' = local_db w \/
                      exists cutoff0, Ok cutoff = Ok cutoff0 /\
                                      local_db w' = swept cutoff0 (local_db w)) /\
                     (faults w = [] -> forall cutoff0, Ok cutoff = Ok cutoff0 ->
                      local_db w' = swept cutoff0 (local_db w))
                 | Raise e =>
                     wp (mret tt)
                       (fun r w'' =>
                          r = Ok tt /\
                          (local_db w'' = local_db w \/
                           exists cutoff0, Ok cutoff = Ok cutoff0 /\
                                           local_db w'' = swept cutoff0 (local_db w)) /\
                          (faults w = [] -> forall cutoff0, Ok cutoff = Ok cutoff0 ->
                           local_db w'' = swept cutoff0 (local_db w))) w'
                 end) (set_faults fs4 w)).
  { intros eff fs4 Hfs4 Heff. apply wp_bind, wp_commit.
    - intros fs5 _. apply wp_ret. cbn [local_db set_local_db set_faults].
      rewrite Heff. split; [done|]. split; [right; eauto|]. by intros _ ? [= <-].
    - intros e fs Hne. apply wp_ret. split; [done|]. split; [by left|].
      intros Hf. by chain_faults. }
  destruct (OfflineManager.recent_patient_ids cutoff
              (OfflineManager.delete_old_assessments cutoff (local_db w)))
    as [|pid recent] eqn:Hrecent.
  - apply wp_bind, wp_execute.
    2:{ intros e fs Hne. apply Hraised; [done| |done]. intros Hf. by chain_faults. }
    intros fs4 Hfs4.
    apply (Hend (OfflineManager.delete_old_patients cutoff) fs4);
      [intros Hf; by chain_faults|].
    unfold swept. cbv zeta. by rewrite Hrecent.
  - apply wp_bind, wp_execute.
    2:{ intros e fs Hne. apply Hraised; [done| |done]. intros Hf. by chain_faults. }
    intros fs4 Hfs4.
    apply (Hend (OfflineManager.delete_old_patients_except cutoff (pid :: recent)) fs4);
      [intros Hf; by chain_faults|].
    unfold swept. cbv zeta. by rewrite Hrecent.
Qed.

(** X18.  _manage_storage never raises, whatever sqlite3 does, and the
    retention sweep is all or nothing: the local store is left as it was
    (always so when the file is not above 90% of the cap, or when the cutoff
    cannot be computed), or it is the store with every deletion of the sweep
    applied. The sync queue and the table of SyncService are never touched. *)
Theorem storage_management_is_all_or_nothing (w : World R) :
  let w' := snd (OfflineManager._manage_storage w) in
  fst (OfflineManager._manage_storage w) = Ok tt /\
  (local_db w' = local_db w \/
   exists cutoff,
     OfflineManager.storage_above_90_percent w = true /\
     OfflineManager.cutoff_date w = Ok cutoff /\
     local_db w' = swept cutoff (local_db w)) /\
  sync_queue (local_db w') = sync_queue (local_db w) /\
  sync_data_table (local_db w') = sync_data_table (local_db w).
Proof.
  cbv zeta.
  change (wp OfflineManager._manage_storage
            (fun r w' =>
               r = Ok tt /\
               (local_db w' = local_db w \/
                exists cutoff,
                  OfflineManager.storage_above_90_percent w = true /\
                  OfflineManager.cutoff_date w = Ok cutoff /\
                  local_db w' = swept cutoff (local_db w)) /\
               sync_queue (local_db w') = sync_queue (local_db w) /\
               sync_data_table (local_db w') = sync_data_table (local_db w)) w).
  unfold OfflineManager._manage_storage.
  apply wp_try_except, wp_bind, wp_ask.
  destruct (OfflineManager.storage_above_90_percent w) eqn:Habove.
  2:{ apply wp_ret. split; [done|]. split; [by left|done]. }
  eapply wp_mono; [apply clean_old_synced_records_cases|].
  intros r w' (-> & [Hdb|(cutoff & Hc & Hdb)] & _); (split; [done|]).
  - rewrite Hdb. split; [by left|done].
  - rewrite Hdb. split; [right; eauto|]. split; [apply swept_queue|].
    unfold swept. cbv zeta. by destruct (OfflineManager.recent_patient_ids _ _).
Qed.

(** X19.  The sweep looks at the age of a patient's assessments, not at
    whether they are synced: a synced patient last updated before the cutoff
    whose assessments were all created before the cutoff is deleted, while a
    pending assessment of that patient stays in the store. *)
Theorem sweep_can_orphan_a_pending_assessment
    (w : World R) (cutoff : string) (p : Patients.row) (a : Assessments.row) :
  faults w = [] ->
  OfflineManager.cutoff_date w = Ok cutoff ->
  In p (patients (local_db w)) ->
  Patients.synced p = 1 ->
  String.ltb (Patients.updated_at p) cutoff = true ->
  (forall a', In a' (health_assessments (local_db w)) ->
     Assessments.patient_id a' = Patients.patient_id p ->
     String.ltb (Assessments.created_at a') cutoff = true) ->
  In a (health_assessments (local_db w)) ->
  Assessments.patient_id a = Patients.patient_id p ->
  Assessments.synced a = 0 ->
  let db' := local_db (snd (OfflineManager._clean_old_synced_records w)) in
  ~ In p (patients db') /\ In a (health_assessments db').
Proof.
  intros Hf Hc Hp Hsynced Hold Hall Ha Hpid Hpending. cbv zeta.
  rewrite (clean_runs w cutoff Hf Hc). cbn [snd local_db set_local_db]. split.
  - intros Hin. apply swept_patients in Hin as [_ Hkeep]. apply Hkeep.
    split; [done|]. split; [done|].
    intros (a' & Hin' & Hid' & Hrecent). rewrite (Hall a' Hin' Hid') in Hrecent.
    discriminate.
  - apply swept_assessments. split; [done|]. intros [Hs _]. lia.
Qed.

End SweepRuns.

(** ** A pass of [SyncService.sync_data], row by row *)

Section ServicePass.
Context {R : Type}.

Lemma execute_runs (c : conn) (eff : LocalDb -> LocalDb) (w : World R) :
  faults w = [] ->
  execute c no_check eff w = (Ok (fun db => eff (c db)), w).
Proof. intros Hf. unfold execute. run_monad. by rewrite Hf. Qed.

Lemma commit_runs (c : conn) (w : World R) :
  faults w = [] ->
  commit c w = (Ok (fun db => db), set_local_db (c (local_db w)) w).
Proof. intros Hf. unfold commit. run_monad. by rewrite Hf. Qed.

(** The loop without a fault: the counters count the rows the server
    accepted and the rows it did not. *)
Lemma sync_rows_runs (rows : list SyncData.row) :
  forall (c : conn) (s f : Z) (w : World R),
  faults w = [] ->
  exists c',
    SyncService.sync_rows c rows s f w
    = (Ok (c',
           s + Z.of_nat (List.length (List.filter (accepted w) rows)),
           f + Z.of_nat (List.length (List.filter (fun r => negb (accepted w r)) rows))),
       w) /\
    forall db, c' db = apply_rows w rows (c db).
Proof.
  induction rows as [|r rows IH]; intros c s f w Hf.
  - exists c. cbn. rewrite !Z.add_0_r. done.
  - cbn [SyncService.sync_rows]. unfold mbind, M_bind.
    destruct (sync_with_server_spec w (SyncData.data_type r) (SyncData.data r))
      as (res & Hrun & Hres).
    rewrite bind_run. cbv beta iota delta [lift json_loads].
    rewrite bind_run, Hrun. cbv beta iota.
    rewrite bind_run. cbv beta iota delta [ask].
    cbn [List.filter].
    assert (Hacc : accepted w r
                   = match server w (SyncData.data_type r)
                             (SyncService.clean (SyncData.data r)) with
                     | None => true | Some _ => false end) by done.
    destruct (server w (SyncData.data_type r) (SyncService.clean (SyncData.data r)))
      as [msg|] eqn:Hsrv; rewrite Hacc.
    + destruct Hres as [-> Hperm]. cbv beta iota. rewrite bind_run.
      cbn [negb].
      set (c1 := if truthy (get res "permanent_failure")
                 then (fun db => SyncService.set_status "failed" (Iso.isoformat (now w))
                                   (SyncData.sync_id r) (c db))
                 else c).
      assert (Hc1 : (if truthy (get res "permanent_failure")
                     then execute c no_check
                            (SyncService.set_status "failed" (Iso.isoformat (now w))
                               (SyncData.sync_id r))
                     else mret c) w = (Ok c1, w)).
      { subst c1. destruct (truthy (get res "permanent_failure")); [|done].
        by rewrite execute_runs. }
      rewrite Hc1. cbv beta iota.
      destruct (IH c1 s (f + 1) w Hf) as (c' & -> & Hc').
      exists c'. split.
      * cbn [List.length]. do 3 f_equal. lia.
      * intros db. rewrite Hc'. cbn [apply_rows fold_left]. f_equal.
        unfold apply_row. rewrite Hsrv. subst c1. rewrite Hperm.
        by destruct (SyncService.contains _ _).
    + rewrite Hres. cbv beta iota. rewrite bind_run, execute_runs by done.
      cbv beta iota. cbn [negb].
      destruct (IH (fun db => SyncService.set_status "synced" (Iso.isoformat (now w))
                                (SyncData.sync_id r) (c db)) (s + 1) f w Hf)
        as (c' & -> & Hc').
      exists c'. split.
      * cbn [List.length]. do 4 f_equal. lia.
      * intros db. rewrite Hc'. cbn [apply_rows fold_left]. f_equal.
        unfold apply_row. by rewrite Hsrv.
Qed.

(** A pass that runs, finds pending rows and meets no [sqlite3] error. *)
Lemma service_pass_runs (force : bool) (w : World R) :
  faults w = [] ->
  negb (online w) && negb force = false ->
  SyncService.select_pending (local_db w) <> [] ->
  let rows := SyncService.select_pending (local_db w) in
  let db1 := apply_rows w rows (local_db w) in
  match OfflineManager.cutoff_date w with
  | Ok cutoff =>
      SyncService.sync_data force w
      = (Ok (SyncService.synchronization_completed
               (Z.of_nat (List.length (List.filter (accepted w) rows)))
               (Z.of_nat (List.length
                  (List.filter (fun r => negb (accepted w r)) rows)))),
         set_local_db (SyncService.delete_old_synced cutoff db1) w)
  | Raise e =>
      SyncService.sync_data force w
      = (Ok (SyncService.synchronization_failed e), set_local_db db1 w)
  end.
Proof.
  intros Hf Hgo Hrows. cbv zeta.
  unfold SyncService.sync_data, SyncService._is_online, mbind, M_bind.
  rewrite bind_run. cbv beta iota delta [ask bind mret M_ret ret].
  rewrite Hgo. unfold try_except, connect, query, mbind, M_bind, sqlite_call.
  cbv beta iota delta [bind mret M_ret ret ask]. rewrite Hf. cbv beta iota.
  rewrite Hf. cbv beta iota.
  destruct (SyncService.select_pending (local_db w)) as [|r0 rows0] eqn:Hsel; [done|].
  rewrite <- Hsel.
  destruct (sync_rows_runs (SyncService.select_pending (local_db w))
              (fun db => db) 0 0 w Hf) as (c' & Hrun & Hc').
  rewrite Hrun. cbv beta iota. rewrite commit_runs by done. cbv beta iota.
  unfold SyncService._cleanup_old_data, mbind, M_bind.
  cbv beta iota delta [bind ask lift].
  change (OfflineManager.cutoff_date (set_local_db _ w))
    with (OfflineManager.cutoff_date w).
  rewrite Hc'.
  destruct (OfflineManager.cutoff_date w) as [cutoff|e]; [|done].
  rewrite execute_runs by done. cbv beta iota.
  rewrite commit_runs by done. reflexivity.
Qed.

(** X20.  A pass of SyncService.sync_data that runs (online or forced), finds
    pending rows and meets no sqlite3 error, with a retention period of at
    least one day: every pending row gets the outcome of its exchange with
    the server, the counters are the number of rows the server accepted and
    the number it did not, and old synced rows are purged. If the cutoff of
    the purge cannot be computed, the row outcomes are committed all the same
    and the pass reports a failure. *)
Theorem fault_free_pass (force : bool) (w : World R) :
  faults w = [] ->
  negb (online w) && negb force = false ->
  SyncService.select_pending (local_db w) <> [] ->
  0 < max_offline_days (config w) ->
  let rows := SyncService.select_pending (local_db w) in
  let db1 := apply_rows w rows (local_db w) in
  match OfflineManager.cutoff_date w with
  | Ok cutoff =>
      SyncService.sync_data force w
      = (Ok (SyncService.synchronization_completed
               (Z.of_nat (List.length (List.filter (accepted w) rows)))
               (Z.of_nat (List.length
                  (List.filter (fun r => negb (accepted w r)) rows)))),
         set_local_db (SyncService.delete_old_synced cutoff db1) w)
  | Raise _ =>
      exists e,
        SyncService.sync_data force w
        = (Ok (SyncService.synchronization_failed e), set_local_db db1 w)
  end.
Proof.
  intros Hf Hgo Hrows _. cbv zeta.
  pose proof (service_pass_runs force w Hf Hgo Hrows) as Hrun. cbv zeta in Hrun.
  destruct (OfflineManager.cutoff_date w) as [cutoff|e]; [exact Hrun|by exists e].
Qed.

(** With the exchange of the source, a row that is not synced after the
    loop was in the table before, and is none of the rows of the loop. *)
Lemma set_status_synced_inv now_ sid db (x : SyncData.row) :
  In x (sync_data_table (SyncService.set_status "synced" now_ sid db)) ->
  SyncData.status x <> "synced" ->
  In x (sync_data_table db) /\ SyncData.sync_id x <> sid.
Proof.
  unfold SyncService.set_status. cbn. intros Hin Hst.
  apply List.in_map_iff in Hin as (y & <- & Hy).
  destruct (String.eqb_spec (SyncData.sync_id y) sid); [by cbn in Hst|done].
Qed.

Lemma apply_rows_shipped (w : World R) rows db (x : SyncData.row) :
  shipped_exchange w ->
  In x (sync_data_table (apply_rows w rows db)) ->
  SyncData.status x <> "synced" ->
  In x (sync_data_table db) /\
  forall r, In r rows -> SyncData.sync_id r <> SyncData.sync_id x.
Proof.
  intros Hship. revert db. induction rows as [|r rows IH]; intros db Hin Hst.
  - split; [done|]. by intros r [].
  - cbn [apply_rows fold_left] in Hin. fold (apply_rows w rows (apply_row w r db)) in Hin.
    destruct (IH _ Hin Hst) as [Hin1 Hne].
    unfold apply_row in Hin1. cbv zeta in Hin1. rewrite Hship in Hin1.
    apply set_status_synced_inv in Hin1 as [Hin0 Hid]; [|done].
    split; [done|]. intros y [<-|Hy]; [congruence|by apply Hne].
Qed.

Lemma pass_makes_no_failed_row (force : bool) (w : World R) (x : SyncData.row) :
  shipped_exchange w ->
  In x (sync_data_table (local_db (snd (SyncService.sync_data force w)))) ->
  SyncData.status x = "failed" ->
  In x (sync_data_table (local_db w)).
Proof.
  intros Hship Hin Hst.
  assert (Hns : SyncData.status x <> "synced") by (rewrite Hst; discriminate).
  destruct (pass_effect force w) as (_ & Hcases & _).
  unfold wp in Hcases. destruct Hcases as [Hdb | [Hdb | [cutoff Hdb]]];
    rewrite Hdb in Hin; [done| |].
  - by apply (apply_rows_shipped w _ _ x Hship) in Hin as [? _].
  - unfold SyncService.delete_old_synced in Hin. cbn in Hin.
    apply List.filter_In in Hin as [Hin _].
    by apply (apply_rows_shipped w _ _ x Hship) in Hin as [? _].
Qed.

(** X22.  When no row is pending, a pass of SyncService.sync_data leaves the
    local store unchanged, whatever sqlite3 does (in particular it purges
    nothing), and when it runs without sqlite3 error it reports that nothing
    was pending. *)
Theorem pass_with_nothing_pending (force : bool) (w : World R) :
  SyncService.select_pending (local_db w) = [] ->
  let w' := snd (SyncService.sync_data force w) in
  local_db w' = local_db w /\
  (faults w = [] -> negb (online w) && negb force = false ->
   fst (SyncService.sync_data force w) = Ok SyncService.nothing_pending).
Proof.
  intros Hnone. cbv zeta.
  change (wp (SyncService.sync_data force)
            (fun r w' =>
               local_db w' = local_db w /\
               (faults w = [] -> negb (online w) && negb force = false ->
                r = Ok SyncService.nothing_pending)) w).
  unfold SyncService.sync_data, SyncService._is_online.
  apply wp_bind, wp_bind, wp_ask, wp_ret. cbn beta iota.
  destruct (negb (online w) && negb force) eqn:Hgo.
  { apply wp_ret. split; [done|]. by intros _ [=]. }
  apply wp_try_except, wp_bind, wp_connect.
  2:{ intros e fs Hne. apply wp_ret. done. }
  intros fs1 Hfs1. apply wp_bind, wp_query.
  2:{ intros e fs Hne. apply wp_ret. split; [done|].
      intros Hf. exfalso. by chain_faults. }
  intros fs2 Hfs2. cbn [local_db set_faults]. rewrite Hnone.
  apply wp_ret. done.
Qed.

(** X27.  retry_failed_sync starts a pass that is not forced. Without
    connectivity and without sqlite3 error it sets every failed row back to
    pending, with modified_at now, changes nothing else, sends nothing, and
    reports the number of rows that were failed. *)
Theorem retry_while_offline_only_resets (w : World R) :
  faults w = [] ->
  online w = false ->
  SyncService.retry_failed_sync w
  = (Ok (SyncService.retried (SyncService.count_failed (local_db w))),
     set_local_db (SyncService.reset_failed (Iso.isoformat (now w)) (local_db w)) w).
Proof.
  intros Hf Hoff. unfold SyncService.retry_failed_sync, try_except.
  unfold mbind, M_bind. rewrite bind_run, (retry_reset_runs w Hf).
  cbv beta iota. rewrite bind_run.
  destruct (0 <? SyncService.count_failed (local_db w)); [|reflexivity].
  rewrite bind_run.
  unfold SyncService.sync_data, SyncService._is_online, mbind, M_bind.
  rewrite bind_run. cbv beta iota delta [ask bind mret M_ret ret].
  cbn [online set_local_db]. rewrite Hoff. reflexivity.
Qed.

End ServicePass.

(** ** The items of [SyncService] *)

Arguments SyncServiceData.insert_or_replace : simpl never.
Arguments SyncServiceData.new_sync_id : simpl never.
Arguments SyncServiceData.with_metadata : simpl never.
Arguments SyncServiceData.select_offline_data : simpl never.

Section Items.
Context {R : Type}.
Variable str_other : pyval -> string.

Lemma json_dumps_Ok_iff (d : doc) :
  json_dumps d = Ok d <-> forall k v, d !! k = Some v -> is_datetime v = false.
Proof.
  unfold json_dumps. destruct (existsb _ _) eqn:He.
  - split; [done|]. intros Hall. exfalso.
    apply List.existsb_exists in He as ([k v] & Hin & Hv).
    apply list_elem_of_In, elem_of_map_to_list in Hin.
    cbn in Hv. by rewrite (Hall k v Hin) in Hv.
  - split; [|done]. intros _ k v Hkv.
    destruct (is_datetime v) eqn:Hv; [|done].
    assert (Ht : existsb (fun kv => is_datetime (snd kv)) (map_to_list d) = true).
    { apply List.existsb_exists. exists (k, v). split; [|done].
      apply list_elem_of_In. by apply elem_of_map_to_list. }
    congruence.
Qed.

Lemma json_dumps_insert (d : doc) (k : string) (v : pyval) :
  json_dumps d = Ok d -> is_datetime v = false ->
  json_dumps (<[k := v]> d) = Ok (<[k := v]> d).
Proof.
  rewrite !json_dumps_Ok_iff. intros Hd Hv k' v' Hkv.
  destruct (decide (k = k')) as [<-|Hne].
  - rewrite lookup_insert_eq in Hkv. congruence.
  - rewrite lookup_insert_ne in Hkv by done. eauto.
Qed.

Lemma json_dumps_with_metadata (sid now_ : string) (data : doc) :
  json_dumps data = Ok data ->
  json_dumps (SyncServiceData.with_metadata sid now_ data)
  = Ok (SyncServiceData.with_metadata sid now_ data).
Proof.
  intros Hd. unfold SyncServiceData.with_metadata.
  by repeat apply json_dumps_insert.
Qed.

Lemma clean_with_metadata (sid now_ : string) (data : doc) :
  SyncService.clean (SyncServiceData.with_metadata sid now_ data)
  = SyncService.clean data.
Proof.
  unfold SyncService.clean, SyncServiceData.with_metadata.
  by rewrite !map_filter_insert_not by (intros y; cbn; discriminate).
Qed.

Lemma save_offline_data_runs (data_type : string) (data : doc) (w : World R) :
  faults w = [] -> json_dumps data = Ok data ->
  let now_ := Iso.isoformat (now w) in
  let sid := SyncServiceData.new_sync_id str_other data_type (epoch w) data in
  SyncServiceData.save_offline_data str_other data_type data w
  = (Ok (SyncServiceData.saved sid),
     set_local_db
       (SyncServiceData.insert_or_replace
          (SyncData.Row sid data_type (SyncServiceData.with_metadata sid now_ data)
             "pending" now_ now_) (local_db w)) w).
Proof.
  intros Hf Hd. cbv zeta. unfold SyncServiceData.save_offline_data. run_monad.
  rewrite Hf. cbn. rewrite (json_dumps_with_metadata _ _ _ Hd). cbn.
  rewrite Hf. cbn. by rewrite Hf.
Qed.

Lemma new_sync_id_not_empty data_type epoch_ data :
  String.eqb (SyncServiceData.new_sync_id str_other data_type epoch_ data) "" = false.
Proof.
  unfold SyncServiceData.new_sync_id. apply String.eqb_neq.
  by destruct data_type.
Qed.

Lemma filter_none {A} (p : A -> bool) (l : list A) :
  (forall x, In x l -> p x = false) -> List.filter p l = [].
Proof.
  induction l as [|y l IH]; intros Hp; [done|]. cbn.
  rewrite (Hp y) by by left. apply IH. intros x Hx. apply Hp. by right.
Qed.

Lemma filter_twice {A} (p : A -> bool) (l : list A) :
  List.filter p (List.filter p l) = List.filter p l.
Proof.
  induction l as [|y l IH]; [done|]. cbn.
  destruct (p y) eqn:Hy; [|done]. cbn. by rewrite Hy, IH.
Qed.

Lemma select_replaced (r : SyncData.row) (db : LocalDb) :
  String.eqb (SyncData.sync_id r) "" = false ->
  SyncServiceData.select_offline_data None (Some (SyncData.sync_id r))
    (SyncServiceData.insert_or_replace r db) = [r].
Proof.
  intros Hne. unfold SyncServiceData.select_offline_data,
    SyncServiceData.insert_or_replace, SyncServiceData.given. cbn.
  rewrite Hne. rewrite List.filter_app. cbn. rewrite String.eqb_refl.
  rewrite filter_none; [done|].
  intros x Hin. apply List.filter_In in Hin as [_ Hx].
  by apply negb_true_iff in Hx.
Qed.

(** X23.  Round trip in SyncService. When no sqlite3 call raises and the data
    holds no datetime, save_offline_data returns the sync id data_type, clock
    second, id (or new); get_offline_data for that sync id returns exactly one
    item, pending, whose data is the saved data with the four _sync_ keys; the
    next pass selects it, and what it sends to the server is the saved data
    without the keys that start with _sync_. *)
Theorem saved_item_is_read_back (data_type : string) (data : doc) (w : World R) :
  faults w = [] ->
  json_dumps data = Ok data ->
  let now_ := Iso.isoformat (now w) in
  let sid := SyncServiceData.new_sync_id str_other data_type (epoch w) data in
  let item := SyncData.Row sid data_type (SyncServiceData.with_metadata sid now_ data)
                "pending" now_ now_ in
  let w' := snd (SyncServiceData.save_offline_data str_other data_type data w) in
  fst (SyncServiceData.save_offline_data str_other data_type data w)
    = Ok (SyncServiceData.saved sid) /\
  SyncServiceData.get_offline_data None (Some sid) w'
    = (Ok (SyncServiceData.Retrieved 1 [item]), w') /\
  In item (SyncService.select_pending (local_db w')) /\
  SyncService.clean (SyncData.data item) = SyncService.clean data.
Proof.
  intros Hf Hd. cbv zeta. rewrite (save_offline_data_runs _ _ _ Hf Hd). cbn [fst snd].
  split; [done|]. split; [|split].
  - unfold SyncServiceData.get_offline_data. run_monad. rewrite Hf. cbn.
    rewrite Hf. cbn.
    match goal with
    | |- context [SyncServiceData.insert_or_replace ?r _] =>
        rewrite (select_replaced r)
          by (cbn [SyncData.sync_id]; apply new_sync_id_not_empty)
    end.
    reflexivity.
  - apply select_pending_In. split; [|done].
    unfold SyncServiceData.insert_or_replace. cbn.
    apply List.in_app_iff. right. by left.
  - apply clean_with_metadata.
Qed.

(** X24.  Two save_offline_data calls for the same data type within one clock
    second, with the same id or both without one, get the same sync id: both
    report success, the second replaces the row of the first (INSERT OR
    REPLACE), the table is no longer than after the first call, and the only
    data under that sync id is that of the second call. *)
Theorem same_second_save_replaces
    (data_type : string) (data1 data2 : doc) (w : World R) :
  faults w = [] ->
  json_dumps data1 = Ok data1 ->
  json_dumps data2 = Ok data2 ->
  data1 !! "id" = data2 !! "id" ->
  let now_ := Iso.isoformat (now w) in
  let sid := SyncServiceData.new_sync_id str_other data_type (epoch w) data2 in
  let w1 := snd (SyncServiceData.save_offline_data str_other data_type data1 w) in
  let w2 := snd (SyncServiceData.save_offline_data str_other data_type data2 w1) in
  fst (SyncServiceData.save_offline_data str_other data_type data1 w)
    = Ok (SyncServiceData.saved sid) /\
  fst (SyncServiceData.save_offline_data str_other data_type data2 w1)
    = Ok (SyncServiceData.saved sid) /\
  (forall r, In r (sync_data_table (local_db w2)) -> SyncData.sync_id r = sid ->
     SyncData.data r = SyncServiceData.with_metadata sid now_ data2) /\
  List.length (sync_data_table (local_db w2))
    = List.length (sync_data_table (local_db w1)).
Proof.
  intros Hf Hd1 Hd2 Hid. cbv zeta.
  assert (Hsid : SyncServiceData.new_sync_id str_other data_type (epoch w) data1
                 = SyncServiceData.new_sync_id str_other data_type (epoch w) data2).
  { unfold SyncServiceData.new_sync_id. by rewrite Hid. }
  rewrite (save_offline_data_runs _ data1 _ Hf Hd1). cbn [fst snd]. rewrite Hsid.
  split; [done|].
  match goal with
  | |- context [SyncServiceData.save_offline_data _ _ _ ?w1] =>
      rewrite (save_offline_data_runs data_type data2 w1 Hf Hd2)
  end.
  cbn [fst snd local_db set_local_db epoch now]. split; [done|].
  unfold SyncServiceData.insert_or_replace. cbn. split.
  - intros r Hin Hr. apply List.in_app_iff in Hin as [Hin|[<-|[]]]; [|done].
    apply List.filter_In in Hin as [_ Hx]. apply negb_true_iff, String.eqb_neq in Hx.
    done.
  - rewrite List.filter_app. cbn. rewrite String.eqb_refl. cbn.
    by rewrite List.app_nil_r, filter_twice, !List.length_app.
Qed.

(** *** What every operation keeps *)

Lemma insert_or_replace_key (r : SyncData.row) (db : LocalDb) :
  primary_key db -> primary_key (SyncServiceData.insert_or_replace r db).
Proof.
  unfold primary_key, SyncServiceData.insert_or_replace. cbn. intros Hk.
  rewrite List.map_app. apply List.NoDup_app; [by apply NoDup_map_filter| |].
  { apply List.NoDup_cons; [intros []|apply List.NoDup_nil]. }
  intros sid Hin Hr. destruct Hr as [<-|[]].
  apply List.in_map_iff in Hin as (x & Hid & Hx).
  apply List.filter_In in Hx as [_ Hx]. apply negb_true_iff, String.eqb_neq in Hx.
  done.
Qed.

Lemma insert_or_replace_statuses (r : SyncData.row) (db : LocalDb) :
  SyncData.status r = "pending" ->
  known_statuses db -> known_statuses (SyncServiceData.insert_or_replace r db).
Proof.
  unfold known_statuses, SyncServiceData.insert_or_replace. cbn. intros Hr Hk x Hin.
  apply List.in_app_iff in Hin as [Hin|[<-|[]]]; [|by left].
  apply List.filter_In in Hin as [Hin _]. by apply Hk.
Qed.

Lemma set_status_statuses st now_ sid db :
  st = "synced" \/ st = "failed" ->
  known_statuses db -> known_statuses (SyncService.set_status st now_ sid db).
Proof.
  unfold known_statuses, SyncService.set_status. cbn. intros Hst Hk x Hin.
  apply List.in_map_iff in Hin as (y & <- & Hy).
  destruct (String.eqb _ _); [cbn; tauto|by apply Hk].
Qed.

Lemma apply_rows_statuses (w : World R) rows db :
  known_statuses db -> known_statuses (apply_rows w rows db).
Proof.
  revert db. induction rows as [|r rows IH]; intros db Hk; [done|].
  cbn [apply_rows fold_left]. fold (apply_rows w rows (apply_row w r db)).
  apply IH. unfold apply_row. cbv zeta.
  destruct (server w _ _) as [m|]; [destruct (SyncService.contains _ _)|];
    auto using set_status_statuses.
Qed.

Lemma delete_old_synced_statuses cutoff db :
  known_statuses db -> known_statuses (SyncService.delete_old_synced cutoff db).
Proof.
  unfold known_statuses, SyncService.delete_old_synced. cbn. intros Hk x Hin.
  apply List.filter_In in Hin as [Hin _]. by apply Hk.
Qed.

Lemma reset_failed_key now_ db :
  primary_key db -> primary_key (SyncService.reset_failed now_ db).
Proof.
  unfold primary_key, SyncService.reset_failed. cbn. rewrite List.map_map.
  intros Hk. erewrite List.map_ext; [exact Hk|].
  intros x. cbn. by destruct (String.eqb _ _).
Qed.

Lemma reset_failed_statuses now_ db :
  known_statuses db -> known_statuses (SyncService.reset_failed now_ db).
Proof.
  unfold known_statuses, SyncService.reset_failed. cbn. intros Hk x Hin.
  apply List.in_map_iff in Hin as (y & <- & Hy).
  destruct (String.eqb _ _); [by left|by apply Hk].
Qed.

Lemma pass_keeps_table_sound (force : bool) (w : World R) :
  primary_key (local_db w) /\ known_statuses (local_db w) ->
  primary_key (local_db (snd (SyncService.sync_data force w))) /\
  known_statuses (local_db (snd (SyncService.sync_data force w))).
Proof.
  intros [Hk Hs].
  destruct (pass_effect force w) as (_ & [-> | [-> | [cutoff ->]]] & _); [done| |].
  - split; [unfold primary_key; by rewrite apply_rows_ids|by apply apply_rows_statuses].
  - split.
    + apply delete_old_synced_key. unfold primary_key. by rewrite apply_rows_ids.
    + by apply delete_old_synced_statuses, apply_rows_statuses.
Qed.

(** X25.  Invariant of the table sync_data. If sync ids are unique and every
    status is pending, synced or failed, the same holds after
    save_offline_data, after sync_data (forced or not) and after
    retry_failed_sync, whatever sqlite3 and the server do. *)
Theorem item_table_stays_sound (w : World R) :
  primary_key (local_db w) -> known_statuses (local_db w) ->
  let sound (w' : World R) :=
    primary_key (local_db w') /\ known_statuses (local_db w') in
  (forall data_type data,
     sound (snd (SyncServiceData.save_offline_data str_other data_type data w))) /\
  (forall force, sound (snd (SyncService.sync_data force w))) /\
  sound (snd (SyncService.retry_failed_sync w)).
Proof.
  intros Hk Hs. cbv zeta. split; [|split].
  - intros data_type data.
    change (wp (SyncServiceData.save_offline_data str_other data_type data)
              (fun _ w' => primary_key (local_db w') /\ known_statuses (local_db w')) w).
    unfold SyncServiceData.save_offline_data.
    apply wp_try_except, wp_bind, wp_ask, wp_bind, wp_connect.
    2:{ intros e fs _. by apply wp_ret. }
    intros fs1 _. apply wp_bind, wp_lift.
    destruct (json_dumps _) as [d|e]; [|by apply wp_ret].
    apply wp_bind, wp_execute.
    2:{ intros e fs _. by apply wp_ret. }
    intros fs2 _. apply wp_bind, wp_commit.
    2:{ intros e fs _. by apply wp_ret. }
    intros fs3 _. apply wp_ret. cbn [local_db set_local_db set_faults].
    split; [by apply insert_or_replace_key|by apply insert_or_replace_statuses].
  - intros force. by apply pass_keeps_table_sound.
  - change (wp SyncService.retry_failed_sync
              (fun _ w' => primary_key (local_db w') /\ known_statuses (local_db w')) w).
    unfold SyncService.retry_failed_sync, SyncService.retry_reset.
    apply wp_try_except, wp_bind, wp_bind, wp_connect.
    2:{ intros e fs _. by apply wp_ret. }
    intros fs1 _. apply wp_bind, wp_ask, wp_bind, wp_execute.
    2:{ intros e fs _. by apply wp_ret. }
    intros fs2 _. apply wp_bind, wp_commit.
    2:{ intros e fs _. by apply wp_ret. }
    intros fs3 _. apply wp_ret. cbn [local_db set_local_db set_faults].
    match goal with |- wp _ _ ?w1 => set (w' := w1) end.
    assert (Hsound : primary_key (local_db w') /\ known_statuses (local_db w')).
    { subst w'. cbn [local_db set_local_db].
      split; [by apply reset_failed_key|by apply reset_failed_statuses]. }
    apply wp_bind.
    destruct (0 <? SyncService.count_failed (local_db w)).
    + apply wp_bind. unfold wp at 1.
      pose proof (pass_keeps_table_sound false w' Hsound) as Hpass.
      destruct (sync_data_returns false w') as (res & Hres).
      destruct (SyncService.sync_data false w') as [r0 w2]. cbn in Hres, Hpass.
      subst r0. cbn [fst snd]. by apply wp_ret, wp_ret.
    + by apply wp_ret, wp_ret.
Qed.

Lemma status_counts_sum (l : list SyncData.row) :
  (forall r, In r l ->
     SyncData.status r = "pending" \/ SyncData.status r = "synced" \/
     SyncData.status r = "failed") ->
  Z.of_nat (List.length (List.filter (fun r => String.eqb (SyncData.status r) "pending") l))
  + Z.of_nat (List.length (List.filter (fun r => String.eqb (SyncData.status r) "synced") l))
  + Z.of_nat (List.length (List.filter (fun r => String.eqb (SyncData.status r) "failed") l))
  = Z.of_nat (List.length l).
Proof.
  induction l as [|r l IH]; intros Hk; [done|].
  specialize (IH (fun x Hx => Hk x (or_intror Hx))).
  cbn [List.filter List.length].
  destruct (Hk r (or_introl eq_refl)) as [-> | [-> | ->]]; cbn; lia.
Qed.

(** X26.  get_sync_status never raises and never changes the store. When every
    status is pending, synced or failed and no sqlite3 call raises, the three
    counts it reports add up to the number of rows of the table. *)
Theorem status_counts_cover_the_table (sync_enabled : bool) (w : World R) :
  known_statuses (local_db w) ->
  let w' := snd (SyncServiceData.get_sync_status sync_enabled w) in
  local_db w' = local_db w /\
  exists res,
    fst (SyncServiceData.get_sync_status sync_enabled w) = Ok res /\
    (faults w = [] ->
     exists p s f,
       res !! "pending_count" = Some (PInt p) /\
       res !! "synced_count" = Some (PInt s) /\
       res !! "failed_count" = Some (PInt f) /\
       p + s + f = Z.of_nat (List.length (sync_data_table (local_db w)))).
Proof.
  intros Hk. cbv zeta.
  change (wp (SyncServiceData.get_sync_status sync_enabled)
            (fun r w' =>
               local_db w' = local_db w /\
               exists res, r = Ok res /\
                 (faults w = [] ->
                  exists p s f,
                    res !! "pending_count" = Some (PInt p) /\
                    res !! "synced_count" = Some (PInt s) /\
                    res !! "failed_count" = Some (PInt f) /\
                    p + s + f = Z.of_nat (List.length (sync_data_table (local_db w))))) w).
  unfold SyncServiceData.get_sync_status.
  assert (Hraised : forall (e : exn) (fs : list bool) (w1 : World R),
            faults w1 <> [] -> (faults w = [] -> faults w1 = []) ->
            local_db w1 = local_db w ->
            wp (mret ({[ "success" := PBool false;
                         "error" := PStr ("Failed to get sync status: " ++ exn_msg e) ]}
                      : doc))
              (fun r w' =>
                 local_db w' = local_db w /\
                 exists res, r = Ok res /\
                   (faults w = [] ->
                    exists p s f,
                      res !! "pending_count" = Some (PInt p) /\
                      res !! "synced_count" = Some (PInt s) /\
                      res !! "failed_count" = Some (PInt f) /\
                      p + s + f
                      = Z.of_nat (List.length (sync_data_table (local_db w)))))
              (set_faults fs w1)).
  { intros e fs w1 Hne Hf Hdb. apply wp_ret. split; [done|]. eexists. split; [done|].
    intros Hw. by specialize (Hf Hw). }
  apply wp_try_except, wp_bind, wp_connect.
  2:{ intros e fs Hne. by apply Hraised. }
  intros fs1 Hfs1. apply wp_bind, wp_query.
  2:{ intros e fs Hne. by apply Hraised. }
  intros fs2 Hfs2. apply wp_bind, wp_query.
  2:{ intros e fs Hne. apply Hraised; [done| |done]. intros Hf. by chain_faults. }
  intros fs3 Hfs3. apply wp_bind, wp_query.
  2:{ intros e fs Hne. apply Hraised; [done| |done]. intros Hf. by chain_faults. }
  intros fs4 Hfs4. unfold SyncService._is_online.
  apply wp_bind, wp_bind, wp_ask, wp_ret, wp_ret.
  split; [done|]. eexists. split; [done|]. intros _.
  cbn [local_db set_faults].
  exists (SyncServiceData.status_count "pending" (local_db w)),
         (SyncServiceData.status_count "synced" (local_db w)),
         (SyncServiceData.status_count "failed" (local_db w)).
  split; [vm_compute; reflexivity|]. split; [vm_compute; reflexivity|].
  split; [vm_compute; reflexivity|].
  by apply status_counts_sum.
Qed.

End Items.

(** ** The exchange of the source *)

Section ShippedExchange.
Context {R : Type}.

Lemma filter_all {A} (p : A -> bool) (l : list A) :
  (forall x, In x l -> p x = true) -> List.filter p l = l.
Proof.
  induction l as [|x l IH]; cbn; [done|]. intros Hall.
  rewrite (Hall x (or_introl eq_refl)). f_equal. apply IH. intros y Hy.
  apply Hall. by right.
Qed.

(** X21.  With the exchange that the source has, which accepts every item, a
    pass of SyncService.sync_data that runs (online or forced), finds pending
    rows and meets no sqlite3 error leaves no row pending, and when the cutoff
    of the purge can be computed it reports every one of them as synced and
    none as failed. *)
Theorem shipped_exchange_drains_the_pending_rows (force : bool) (w : World R) :
  shipped_exchange w ->
  faults w = [] ->
  negb (online w) && negb force = false ->
  SyncService.select_pending (local_db w) <> [] ->
  let w' := snd (SyncService.sync_data force w) in
  SyncService.select_pending (local_db w') = [] /\
  (forall cutoff, OfflineManager.cutoff_date w = Ok cutoff ->
     fst (SyncService.sync_data force w)
     = Ok (SyncService.synchronization_completed
             (Z.of_nat (List.length (SyncService.select_pending (local_db w)))) 0)).
Proof.
  intros Hship Hf Hgo Hrows. cbv zeta.
  pose proof (service_pass_runs force w Hf Hgo Hrows) as Hrun. cbv zeta in Hrun.
  assert (Hacc : forall r, accepted w r = true).
  { intros r. unfold accepted. by rewrite Hship. }
  split.
  - assert (Hnone : forall x,
              In x (sync_data_table
                      (apply_rows w (SyncService.select_pending (local_db w))
                         (local_db w))) ->
              SyncData.status x <> "pending").
    { intros x Hin Hst.
      apply (apply_rows_shipped w _ _ x Hship) in Hin as [Hin Hne];
        [|rewrite Hst; discriminate].
      apply (Hne x); [|done]. by apply select_pending_In. }
    destruct (SyncService.select_pending
                (local_db (snd (SyncService.sync_data force w)))) as [|x rest] eqn:Hsel;
      [done|exfalso].
    assert (Hx : In x (SyncService.select_pending
                         (local_db (snd (SyncService.sync_data force w)))))
      by (rewrite Hsel; by left).
    apply select_pending_In in Hx as [Hx Hst].
    destruct (OfflineManager.cutoff_date w) as [cutoff|e]; rewrite Hrun in Hx;
      cbn [snd local_db set_local_db] in Hx.
    + unfold SyncService.delete_old_synced in Hx. cbn in Hx.
      apply List.filter_In in Hx as [Hx _]. by apply (Hnone x).
    + by apply (Hnone x).
  - intros cutoff Hc. rewrite Hc in Hrun. rewrite Hrun. cbn [fst].
    rewrite (filter_all (accepted w)) by (intros; apply Hacc).
    rewrite filter_none; [done|]. intros x _. by rewrite Hacc.
Qed.

End ShippedExchange.

(** ** Failed attempts in the two services *)

Section FailedAttempts.
Context {R : Type} `{RemoteStore R}.

Lemma retry_failed_sync_runs (w : World R) :
  faults w = [] ->
  0 < SyncService.count_failed (local_db w) ->
  SyncService.retry_failed_sync w
  = (Ok (SyncService.retried (SyncService.count_failed (local_db w))),
     snd (SyncService.sync_data false
            (set_local_db
               (SyncService.reset_failed (Iso.isoformat (now w)) (local_db w)) w))).
Proof.
  intros Hf Hpos. unfold SyncService.retry_failed_sync, try_except.
  unfold mbind, M_bind. rewrite bind_run, (retry_reset_runs w Hf).
  cbv beta iota. rewrite bind_run.
  apply Z.ltb_lt in Hpos. rewrite Hpos. rewrite bind_run.
  match goal with
  | |- context [SyncService.sync_data false ?w0] =>
      destruct (sync_data_returns false w0) as (res & Hres);
      destruct (SyncService.sync_data false w0) as [r0 w1]
  end.
  cbn in Hres. subst r0. reflexivity.
Qed.

Lemma reset_failed_none now_ db (x : SyncData.row) :
  In x (sync_data_table (SyncService.reset_failed now_ db)) ->
  SyncData.status x <> "failed".
Proof.
  unfold SyncService.reset_failed. cbn. intros Hin.
  apply List.in_map_iff in Hin as (y & <- & _).
  destruct (String.eqb_spec (SyncData.status y) "failed"); [discriminate|done].
Qed.

(** An attempt of [OfflineManager] that fails leaves the queue as it was
    but for the attempt it has recorded. *)
Lemma sync_record_failed (r : SyncQueue.row) (w : World R) :
  faults w = [] ->
  wp (OfflineManager._sync_record r)
    (fun res w' =>
       res = Ok false ->
       faults w' = [] /\
       local_db w' = OfflineManager.bump_attempt (Iso.isoformat (now w))
                       (SyncQueue.sync_id r) (local_db w)) w.
Proof.
  intros Hf. unfold OfflineManager._sync_record.
  apply wp_try_except, wp_bind, wp_lift. cbn [json_loads].
  apply wp_bind. unfold wp at 1. rewrite (update_sync_attempt_runs _ w Hf).
  cbn [fst snd].
  set (w1 := set_local_db _ w).
  assert (Hfinish : forall (b : bool) (c : R),
    wp (if b
        then OfflineManager._update_sync_record_status (SyncQueue.sync_id r) true None;;
             OfflineManager._mark_record_synced (SyncQueue.record_type r)
               (SyncQueue.record_id r);;
             mret true
        else mret false)
      (fun res w' =>
         match res with
         | Ok a => Ok a = Ok false -> faults w' = [] /\ local_db w' = local_db w1
         | Raise e =>
             wp (OfflineManager._update_sync_record_status (SyncQueue.sync_id r) false
                   (Some (exn_msg e));; mret false)
               (fun res w'' =>
                  res = Ok false -> faults w'' = [] /\ local_db w'' = local_db w1) w'
         end) (set_central c w1)).
  { intros [] c; [|by apply wp_ret].
    apply wp_bind. eapply wp_mono; [apply update_sync_record_status_moves|].
    intros r3 w3 [-> _]. apply wp_bind.
    eapply wp_mono; [apply mark_record_synced_moves|].
    intros r4 w4 [-> _]. apply wp_ret. discriminate. }
  destruct (String.eqb (SyncQueue.record_type r) "patient");
    [|destruct (String.eqb (SyncQueue.record_type r) "health_assessment")].
  - apply wp_bind. eapply wp_mono; [apply sync_patient_moves|].
    intros r2 w2 [[b ->] [c ->]]. apply Hfinish.
  - apply wp_bind. eapply wp_mono; [apply sync_assessment_moves|].
    intros r2 w2 [[b ->] [c ->]]. apply Hfinish.
  - by apply wp_ret.
Qed.

Lemma bump_attempt_In now_ db (e : SyncQueue.row) :
  In e (sync_queue db) ->
  In (attempted e now_)
     (sync_queue (OfflineManager.bump_attempt now_ (SyncQueue.sync_id e) db)).
Proof.
  intros Hin. unfold OfflineManager.bump_attempt. cbn.
  apply List.in_map_iff. exists e. by rewrite String.eqb_refl.
Qed.

Lemma set_error_message_In msg db (e : SyncQueue.row) :
  In e (sync_queue db) ->
  In (noted e msg)
     (sync_queue (OfflineManager.set_error_message msg (SyncQueue.sync_id e) db)).
Proof.
  intros Hin. unfold OfflineManager.set_error_message. cbn.
  apply List.in_map_iff. exists e. by rewrite String.eqb_refl.
Qed.

Lemma get_sync_queue_records_runs (limit : Z) (w : World R) :
  faults w = [] ->
  OfflineManager._get_sync_queue_records limit w
  = (Ok (select_sync_queue limit (local_db w)), w).
Proof.
  intros Hf. unfold OfflineManager._get_sync_queue_records. run_monad.
  rewrite Hf. cbn. by rewrite Hf.
Qed.

(** C6, as amended.  [SyncService]: a row of [sync_data] with the status
    [failed] stays in the table as it is through any number of passes, and
    no pass selects it; [retry_failed_sync] then sets every failed row back
    to [pending], reports their number and runs a pass of its own, which
    selects the row again.  With the exchange that the source has, no pass
    gives a row that status.  [OfflineManager]: the queue has no such
    status; [_update_sync_record_status] called for a failure writes the
    error message on the entry and leaves it in the queue, and an entry
    whose attempt failed, for whatever reason, stays in the queue with one
    more retry and is returned by the next [_get_sync_queue_records] whose
    limit does not cut the queue. *)
Theorem failed_attempts_in_the_two_services (w : World R) :
  (forall (r : SyncData.row) (w2 : World R),
     primary_key (local_db w) ->
     In r (sync_data_table (local_db w)) ->
     SyncData.status r = "failed" ->
     later w w2 ->
     In r (sync_data_table (local_db w2)) /\
     ~ In r (SyncService.select_pending (local_db w2)) /\
     (faults w2 = [] ->
      let now_ := Iso.isoformat (now w2) in
      let w3 := set_local_db (SyncService.reset_failed now_ (local_db w2)) w2 in
      0 < SyncService.count_failed (local_db w2) /\
      (forall x, In x (sync_data_table (local_db w3)) ->
                 SyncData.status x <> "failed") /\
      In (pending_row r now_) (SyncService.select_pending (local_db w3)) /\
      SyncService.retry_failed_sync w2
      = (Ok (SyncService.retried (SyncService.count_failed (local_db w2))),
         snd (SyncService.sync_data false w3)) /\
      SyncService.retried (SyncService.count_failed (local_db w2)) !! "retried_count"
      = Some (PInt (SyncService.count_failed (local_db w2))))) /\
  (forall (force : bool) (x : SyncData.row),
     shipped_exchange w ->
     In x (sync_data_table (local_db (snd (SyncService.sync_data force w)))) ->
     SyncData.status x = "failed" ->
     In x (sync_data_table (local_db w))) /\
  (forall (e : SyncQueue.row) (msg : option string),
     faults w = [] ->
     In e (sync_queue (local_db w)) ->
     let w' := snd (OfflineManager._update_sync_record_status
                      (SyncQueue.sync_id e) false msg w) in
     In (noted e msg) (sync_queue (local_db w')) /\
     List.length (sync_queue (local_db w')) = List.length (sync_queue (local_db w))) /\
  (forall (e : SyncQueue.row),
     faults w = [] ->
     In e (sync_queue (local_db w)) ->
     fst (OfflineManager._sync_record e w) = Ok false ->
     let e' := attempted e (Iso.isoformat (now w)) in
     let w' := snd (OfflineManager._sync_record e w) in
     In e' (sync_queue (local_db w')) /\
     forall limit,
       limit < 0 \/ Z.of_nat (List.length (sync_queue (local_db w'))) <= limit ->
       exists rows,
         fst (OfflineManager._get_sync_queue_records limit w') = Ok rows /\
         In e' rows).
Proof.
  split; [|split; [|split]].
  - intros r w2 Hpk Hin Hst Hlater.
    assert (Hinv : primary_key (local_db w2) /\ In r (sync_data_table (local_db w2))).
    { induction Hlater as [| w' force' _ [IHk IHin] | w' w'' _ [IHk IHin] Hdb].
      - done.
      - by apply pass_keeps_failed.
      - unfold primary_key. by rewrite Hdb. }
    destruct Hinv as [Hk2 Hin2]. split; [done|]. split.
    { intros Hsel. apply select_pending_In in Hsel as [_ Hp].
      rewrite Hst in Hp. discriminate. }
    intros Hf2. cbv zeta.
    assert (Hpos : 0 < SyncService.count_failed (local_db w2))
      by (by eapply count_failed_pos).
    split; [done|]. split; [intros x; apply reset_failed_none|].
    split; [by apply reset_failed_In|].
    split; [by apply retry_failed_sync_runs|reflexivity].
  - intros force x. apply pass_makes_no_failed_row.
  - intros e msg Hf Hin. cbv zeta.
    rewrite update_sync_record_status_runs by exact Hf. cbn [snd local_db set_local_db].
    split; [by apply set_error_message_In|].
    unfold OfflineManager.set_error_message. cbn. by rewrite List.length_map.
  - intros e Hf Hin Hfail. cbv zeta.
    pose proof (sync_record_failed e w Hf) as Hrun. unfold wp in Hrun.
    destruct (Hrun Hfail) as [Hf' Hdb].
    assert (Hin' : In (attempted e (Iso.isoformat (now w)))
                      (sync_queue (local_db (snd (OfflineManager._sync_record e w))))).
    { rewrite Hdb. by apply bump_attempt_In. }
    split; [exact Hin'|]. intros limit Hlimit.
    rewrite (get_sync_queue_records_runs limit _ Hf'). eexists. split; [reflexivity|].
    eapply Permutation_in; [|exact Hin'].
    by apply Permutation_sym, select_sync_queue_all.
Qed.

End FailedAttempts.

(** C6, as amended, on a table with one failed row, after a forced pass;
    and on a queue entry that the remote store refuses. *)
Lemma failed_attempts_in_the_two_services_witness :
  (In Scenario.failed_item
      (sync_data_table
         (local_db (snd (SyncService.sync_data true Scenario.failed)))) /\
   ~ In Scenario.failed_item
        (SyncService.select_pending
           (local_db (snd (SyncService.sync_data true Scenario.failed)))) /\
   fst (SyncService.retry_failed_sync (snd (SyncService.sync_data true Scenario.failed)))
   = Ok (SyncService.retried 1) /\
   SyncService.retried 1 !! "retried_count" = Some (PInt 1) /\
   map SyncData.status
     (sync_data_table
        (local_db (snd (SyncService.retry_failed_sync
                          (snd (SyncService.sync_data true Scenario.failed))))))
   = ["synced"]) /\
  (fst (OfflineManager._sync_record Scenario.entry Refusing.world) = Ok false /\
   In (attempted Scenario.entry "2024-03-01T12:00:00")
      (sync_queue
         (local_db (snd (OfflineManager._sync_record Scenario.entry Refusing.world))))).
Proof.
  split.
  - destruct (failed_attempts_in_the_two_services Scenario.failed)
      as (Hservice & _).
    assert (Hkey : primary_key (local_db Scenario.failed)).
    { apply List.NoDup_cons; [intros []|apply List.NoDup_nil]. }
    destruct (Hservice Scenario.failed_item
                (snd (SyncService.sync_data true Scenario.failed))
                Hkey (or_introl eq_refl) eq_refl
                (later_pass _ _ true (later_now _)))
      as (Hin & Hout & Hretry).
    split; [exact Hin|]. split; [exact Hout|].
    assert (Hf : faults (snd (SyncService.sync_data true Scenario.failed)) = [])
      by (vm_compute; reflexivity).
    destruct (Hretry Hf) as (_ & _ & _ & -> & _).
    repeat split; vm_compute; reflexivity.
  - assert (Hfail : fst (OfflineManager._sync_record Scenario.entry Refusing.world)
                    = Ok false) by (vm_compute; reflexivity).
    split; [exact Hfail|].
    destruct (failed_attempts_in_the_two_services Refusing.world)
      as (_ & _ & _ & Hmanager).
    destruct (Hmanager Scenario.entry eq_refl (or_introl eq_refl) Hfail) as (Hin & _).
    exact Hin.
Defined.

(** On that table, [retry_failed_sync] resets the row and its pass marks it
    synced. *)
Lemma retry_synchronises_the_failed_row :
  fst (SyncService.retry_failed_sync Scenario.failed) = Ok (SyncService.retried 1) /\
  map SyncData.status
    (sync_data_table (local_db (snd (SyncService.retry_failed_sync Scenario.failed))))
  = ["synced"].
Proof. split; vm_compute; reflexivity. Qed.

(** C6, the claim as stated fails.  The remote store refuses the patient
    of the one queue entry with "Invalid data format": the pass counts one
    failed record, the entry stays in the queue, the next
    [_get_sync_queue_records] returns it, and a second pass attempts it
    again. *)
Lemma refused_entry_is_dequeued_again :
  fst (OfflineManager.sync_data Refusing.world)
    = Ok (OfflineManager.sync_completed 0 1 (Datetime 2024 3 1 12 0 0 0 None)) /\
  fst (OfflineManager._get_sync_queue_records 50
         (snd (OfflineManager.sync_data Refusing.world)))
    = Ok [attempted Scenario.entry "2024-03-01T12:00:00"] /\
  map SyncQueue.retry_count
    (sync_queue
       (local_db (snd (OfflineManager.sync_data
                         (snd (OfflineManager.sync_data Refusing.world))))))
    = [2].
Proof. repeat split; vm_compute; reflexivity. Qed.

(** ** The further properties on concrete inputs *)

(** X2 on two payloads for [p1] within the second 1709294400. *)
Lemma second_enqueue_in_same_second_is_refused_witness :
  OfflineManager._add_to_sync_queue "patient" "p1"
    (OfflineManager.Patient_to_dict Cases.asha_renamed) 5
    (snd (OfflineManager._add_to_sync_queue "patient" "p1"
            (OfflineManager.Patient_to_dict Scenario.asha) 5 Scenario.world0))
  = (Ok false,
     snd (OfflineManager._add_to_sync_queue "patient" "p1"
            (OfflineManager.Patient_to_dict Scenario.asha) 5 Scenario.world0)).
Proof.
  destruct (second_enqueue_in_same_second_is_refused "patient" "p1"
              (OfflineManager.Patient_to_dict Scenario.asha)
              (OfflineManager.Patient_to_dict Cases.asha_renamed) 5 5
              Scenario.world0 eq_refl) as (Hr & _).
  exact Hr.
Defined.

(** X3 on a patient whose [created_at] is a [datetime]. *)
Lemma save_rejects_datetime_attribute_witness :
  fst (OfflineManager.save_patient_offline Cases.dated Scenario.world0) = Ok false /\
  local_db (snd (OfflineManager.save_patient_offline Cases.dated Scenario.world0))
  = empty_db.
Proof.
  apply (save_rejects_datetime_attribute Cases.dated "created_at"
           (Datetime 2024 3 1 12 0 0 0 None) Scenario.world0);
    [discriminate|vm_compute; reflexivity].
Defined.

(** X4 on [asha], saved while the queue insert fails. *)
Lemma saved_patient_is_read_back_witness :
  OfflineManager.select_patient_data "p1" (local_db Cases.saved_unqueued)
  = Some (OfflineManager.Patient_to_dict Scenario.asha).
Proof.
  destruct (saved_patient_is_read_back Scenario.asha Scenario.enqueue_fails
              Cases.saved_unqueued) as (Hs & _);
    [vm_compute; reflexivity|discriminate|vm_compute; reflexivity
     |vm_compute; reflexivity|].
  exact Hs.
Defined.

(** X5 on the assessment [a1] of [p1], saved again as an assessment of [p2].
    *)
Lemma resaved_assessment_keeps_patient_column_witness :
  map Assessments.patient_id
    (health_assessments
       (local_db (snd (OfflineManager.save_assessment_offline Cases.visit_moved
                         Cases.visited))))
  = ["p1"].
Proof.
  destruct (resaved_assessment_keeps_patient_column Cases.visit_moved
              Cases.visited Cases.visit_row) as (Hp & _);
    [vm_compute; left; reflexivity|vm_compute; reflexivity|].
  rewrite Hp. vm_compute. reflexivity.
Defined.

(** X10 on a queue of one entry. *)
Lemma pass_counts_every_record_witness :
  exists s f,
    fst (OfflineManager.sync_data Scenario.queued)
    = Ok (OfflineManager.sync_completed s f (Datetime 2024 3 1 12 0 0 0 None)) /\
    s + f = 1.
Proof.
  destruct (pass_counts_every_record Scenario.queued)
    as (s & f & Hr & _ & _ & Hsum & _); [reflexivity..|].
  exists s, f. split; [exact Hr|exact Hsum].
Defined.

(** X11 on an entry of type [resource]. *)
Lemma unknown_record_type_stays_queued_witness :
  fst (OfflineManager._sync_record Cases.stray Cases.strayed) = Ok false /\
  map SyncQueue.retry_count
    (sync_queue (local_db (snd (OfflineManager._sync_record Cases.stray Cases.strayed))))
  = [1].
Proof.
  destruct (unknown_record_type_stays_queued Cases.stray Cases.strayed)
    as (Hr & _ & _ & Hdb); [discriminate|discriminate|].
  split; [exact Hr|]. rewrite (Hdb eq_refl). vm_compute. reflexivity.
Defined.

(** X12 while the remote store is not connected. *)
Lemma remote_failure_leaves_no_error_message_witness :
  fst (OfflineManager._sync_record Scenario.entry Cases.cut_off) = Ok false /\
  map SyncQueue.error_message
    (sync_queue (local_db (snd (OfflineManager._sync_record Scenario.entry
                                  Cases.cut_off))))
  = [None].
Proof.
  destruct (remote_failure_leaves_no_error_message Scenario.entry
              (Exn RemoteError "not connected") (central Cases.cut_off) Cases.cut_off)
    as (Hr & Hm); [reflexivity|reflexivity|vm_compute; reflexivity|].
  split; [by rewrite Hr|]. rewrite Hm. vm_compute. reflexivity.
Defined.

(** X13 while the remote store holds a version of 2024-06-01. *)
Lemma remote_newer_discards_local_edit_witness :
  fst (OfflineManager._sync_record Scenario.entry Cases.remote_ahead) = Ok true /\
  central (snd (OfflineManager._sync_record Scenario.entry Cases.remote_ahead))
  = central Cases.remote_ahead /\
  sync_queue (local_db (snd (OfflineManager._sync_record Scenario.entry
                               Cases.remote_ahead))) = [] /\
  map Patients.synced
    (patients (local_db (snd (OfflineManager._sync_record Scenario.entry
                                Cases.remote_ahead)))) = [1].
Proof.
  rewrite (remote_newer_discards_local_edit Scenario.entry Cases.remote_version
             (central Cases.remote_ahead) Cases.remote_ahead);
    [|reflexivity|reflexivity|vm_compute; reflexivity|vm_compute; discriminate
     |vm_compute; reflexivity].
  repeat split; vm_compute; reflexivity.
Defined.

(** X15 in front of a backend whose writes raise. *)
Lemma failed_central_write_is_marked_synced_witness :
  fst (OfflineManager._sync_record Scenario.entry WriteFails.world) = Ok true /\
  sync_queue (local_db (snd (OfflineManager._sync_record Scenario.entry
                               WriteFails.world))) = [] /\
  map Patients.synced
    (patients (local_db (snd (OfflineManager._sync_record Scenario.entry
                                WriteFails.world)))) = [1].
Proof.
  rewrite (failed_central_write_is_marked_synced Scenario.entry WriteFails.world);
    [|reflexivity|reflexivity|vm_compute; reflexivity].
  repeat split; vm_compute; reflexivity.
Defined.

(** X6 on a patient constructed without timestamps. *)
Lemma constructed_patient_is_not_saved_witness :
  fst (Models.Patient {[ "name" := PStr "Asha" ]} (Some "p1") PNone PNone
         Scenario.world0) = Ok Cases.constructed_patient /\
  fst (OfflineManager.save_patient_offline Cases.constructed_patient Scenario.world0)
  = Ok false.
Proof.
  split; [reflexivity|].
  destruct (constructed_patient_is_not_saved {[ "name" := PStr "Asha" ]} (Some "p1")
              PNone PNone Scenario.world0 Scenario.world0 Cases.constructed_patient
              (or_introl eq_refl) eq_refl) as (Hr & _).
  exact Hr.
Defined.

(** X7 on an assessment constructed without a date. *)
Lemma constructed_assessment_is_not_saved_witness :
  fst (Models.HealthAssessment {[ "severity" := PStr "Low" ]} "p1" (Some "a1") PNone
         Scenario.world0) = Ok Cases.constructed_visit /\
  fst (OfflineManager.save_assessment_offline Cases.constructed_visit Scenario.world0)
  = Ok false.
Proof.
  split; [reflexivity|].
  destruct (constructed_assessment_is_not_saved {[ "severity" := PStr "Low" ]} "p1"
              (Some "a1") PNone Scenario.world0 Scenario.world0 Cases.constructed_visit
              (or_introl eq_refl) eq_refl) as (Hr & _).
  exact Hr.
Defined.

(** X16 where the remote version is later and carries [Z], the local one is
    earlier and carries no offset. *)
Lemma resolve_conflict_mixed_offsets_witness :
  _resolve_conflict "patient"
    (stamped "2024-06-01T00:00:00Z" ∅) (stamped "2024-01-01T00:00:00" ∅) = true.
Proof.
  apply (resolve_conflict_mixed_offsets "patient" _ _
           (Datetime 2024 6 1 0 0 0 0 (Some 0)) (Datetime 2024 1 1 0 0 0 0 None));
    [vm_compute; reflexivity|vm_compute; reflexivity|].
  right. split; [discriminate|reflexivity].
Defined.

(** X17 where the local 10:00 at +05:30 is 04:30 UTC, before the remote 05:00
    UTC. *)
Lemma resolve_conflict_aware_witness :
  _resolve_conflict "patient"
    (stamped "2024-01-01T05:00:00Z" ∅) (stamped "2024-01-01T10:00:00+05:30" ∅) = false.
Proof.
  rewrite (resolve_conflict_aware "patient" _ _
             (Datetime 2024 1 1 5 0 0 0 (Some 0))
             (Datetime 2024 1 1 10 0 0 0 (Some 19800000000)) 0 19800000000);
    [|vm_compute; reflexivity|vm_compute; reflexivity|reflexivity|reflexivity].
  vm_compute. reflexivity.
Defined.

(** X19 with the cutoff 2024-01-31T12:00:00. *)
Lemma sweep_can_orphan_a_pending_assessment_witness :
  patients (local_db (snd (OfflineManager._clean_old_synced_records Cases.orphaning)))
    = [] /\
  health_assessments
    (local_db (snd (OfflineManager._clean_old_synced_records Cases.orphaning)))
    = [Cases.old_pending_visit].
Proof.
  destruct (sweep_can_orphan_a_pending_assessment Cases.orphaning "2024-01-31T12:00:00"
              Cases.old_patient Cases.old_pending_visit) as (Hp & Ha);
    [reflexivity|vm_compute; reflexivity|left; reflexivity|reflexivity
     |vm_compute; reflexivity| |left; reflexivity|reflexivity|reflexivity|].
  { intros a' [<-|[]] _. vm_compute. reflexivity. }
  split; vm_compute; reflexivity.
Defined.

(** X20 on one pending item. *)
Lemma fault_free_pass_witness :
  fst (SyncService.sync_data false Cases.pending_online)
  = Ok (SyncService.synchronization_completed 1 0).
Proof.
  pose proof (fault_free_pass false Cases.pending_online eq_refl eq_refl) as Hpass.
  assert (Hrows : SyncService.select_pending (local_db Cases.pending_online) <> [])
    by (vm_compute; discriminate).
  assert (Hdays : 0 < max_offline_days (config Cases.pending_online))
    by (vm_compute; reflexivity).
  specialize (Hpass Hrows Hdays). cbv zeta in Hpass.
  assert (Hc : OfflineManager.cutoff_date Cases.pending_online
               = Ok "2024-01-31T12:00:00")
    by (vm_compute; reflexivity).
  rewrite Hc in Hpass. rewrite Hpass. vm_compute. reflexivity.
Defined.

(** X21 on one pending item. *)
Lemma shipped_exchange_drains_the_pending_rows_witness :
  SyncService.select_pending
    (local_db (snd (SyncService.sync_data false Cases.pending_online))) = [] /\
  fst (SyncService.sync_data false Cases.pending_online)
  = Ok (SyncService.synchronization_completed 1 0).
Proof.
  assert (Hship : shipped_exchange Cases.pending_online) by (intros t d; reflexivity).
  assert (Hrows : SyncService.select_pending (local_db Cases.pending_online) <> [])
    by (vm_compute; discriminate).
  destruct (shipped_exchange_drains_the_pending_rows false Cases.pending_online
              Hship eq_refl eq_refl Hrows) as (Hnone & Hres).
  split; [exact Hnone|].
  apply (Hres "2024-01-31T12:00:00"). vm_compute. reflexivity.
Defined.

(** X22 on the empty store. *)
Lemma pass_with_nothing_pending_witness :
  fst (SyncService.sync_data false Scenario.world0) = Ok SyncService.nothing_pending.
Proof.
  destruct (pass_with_nothing_pending false Scenario.world0) as (_ & Hr);
    [vm_compute; reflexivity|].
  apply Hr; reflexivity.
Defined.

(** X23 on one record saved without an [id]. *)
Lemma saved_item_is_read_back_witness :
  fst (SyncServiceData.save_offline_data Cases.no_text "patient" Cases.first_record
         Scenario.world0)
  = Ok (SyncServiceData.saved "patient_1709294400_new") /\
  SyncService.clean
    (SyncServiceData.with_metadata "patient_1709294400_new" "2024-03-01T12:00:00"
       Cases.first_record)
  = SyncService.clean Cases.first_record.
Proof.
  destruct (saved_item_is_read_back Cases.no_text "patient" Cases.first_record
              Scenario.world0) as (Hr & _ & _ & Hc);
    [reflexivity|vm_compute; reflexivity|].
  split; [exact Hr|exact Hc].
Defined.

(** X24 on two new records saved within the second 1709294400. *)
Lemma same_second_save_replaces_witness :
  List.length
    (sync_data_table
       (local_db
          (snd (SyncServiceData.save_offline_data Cases.no_text "patient"
                  Cases.second_record
                  (snd (SyncServiceData.save_offline_data Cases.no_text "patient"
                          Cases.first_record Scenario.world0))))))
  = 1%nat.
Proof.
  destruct (same_second_save_replaces Cases.no_text "patient" Cases.first_record
              Cases.second_record Scenario.world0) as (_ & _ & _ & Hlen);
    [reflexivity|vm_compute; reflexivity|vm_compute; reflexivity|reflexivity|].
  rewrite Hlen. vm_compute. reflexivity.
Defined.

(** X25 on the store of one pending item. *)
Lemma item_table_stays_sound_witness :
  primary_key (local_db (snd (SyncService.retry_failed_sync Scenario.rejected))).
Proof.
  assert (Hkey : primary_key (local_db Scenario.rejected)).
  { apply List.NoDup_cons; [intros []|apply List.NoDup_nil]. }
  assert (Hst : known_statuses (local_db Scenario.rejected)).
  { intros r [<-|[]]. left. reflexivity. }
  destruct (item_table_stays_sound Cases.no_text Scenario.rejected Hkey Hst)
    as (_ & _ & Hk & _).
  exact Hk.
Defined.

(** X26 on the store of one pending item. *)
Lemma status_counts_cover_the_table_witness :
  exists res p s f,
    fst (SyncServiceData.get_sync_status true Scenario.rejected) = Ok res /\
    res !! "pending_count" = Some (PInt p) /\
    res !! "synced_count" = Some (PInt s) /\
    res !! "failed_count" = Some (PInt f) /\
    p + s + f = 1.
Proof.
  assert (Hst : known_statuses (local_db Scenario.rejected)).
  { intros r [<-|[]]. left. reflexivity. }
  destruct (status_counts_cover_the_table true Scenario.rejected Hst)
    as (_ & res & Hr & Hcounts).
  destruct (Hcounts eq_refl) as (p & s & f & Hp & Hs & Hf & Hsum).
  exists res, p, s, f. repeat split; assumption.
Defined.

(** X27 on one failed item. *)
Lemma retry_while_offline_only_resets_witness :
  fst (SyncService.retry_failed_sync Cases.failed_offline)
  = Ok (SyncService.retried 1) /\
  map SyncData.status
    (sync_data_table (local_db (snd (SyncService.retry_failed_sync Cases.failed_offline))))
  = ["pending"].
Proof.
  rewrite (retry_while_offline_only_resets Cases.failed_offline eq_refl eq_refl).
  split; vm_compute; reflexivity.
Defined.
